(** * Canopy-cover extractor: the per-field orchestration loop

    A shallow embedding of [src/canopycover/terra_canopycover.py]:
    [get_traits_table], [generate_traits_list] and
    [CanopyCoverHeight.process_message].

    The routine is effectful Python: it writes a CSV file, calls remote
    services and raises or catches exceptions.  It is embedded in a small
    trace-and-exception monad: a computation yields the list of effects it
    performed, in order, together with either a value or the exception that
    escaped.  The libraries it calls (pyclowder, terrautils, numpy, gdal)
    are not part of the repository; they enter as the fields of a record
    [Env] of functions that return a value or raise.  Operations on the
    local file handle and the host's methods called with the resource are
    effects that return; the two calls that leave the resource out, on
    lines 120 and 154, are fields of [Env] as well.  [check_message] is
    embedded further down, on its own. *)

From Stdlib Require Import Ascii String.
From stdpp Require Import gmap strings list pretty.

Open Scope string_scope.

(** ** Python strings *)

Module PyStr.

(** [sep.join(l)] *)
Definition join (sep : string) (l : list string) : string := String.concat sep l.

(** Scanner shared by [replace] and [split]: [skip] counts the characters of
    a match that are still to be dropped, so matches are found left to right
    and never overlap, as in CPython. *)
Fixpoint replace_go (old new : string) (skip : nat) (s : string) : string :=
  match s with
  | EmptyString => EmptyString
  | String c s' =>
      match skip with
      | S k => replace_go old new k s'
      | O =>
          if String.prefix old s
          then new +:+ replace_go old new (String.length old - 1) s'
          else String c (replace_go old new 0 s')
      end
  end.

(** [s.replace(old, new)] for a non-empty [old]. *)
Definition replace (old new s : string) : string := replace_go old new 0 s.

Fixpoint split_go (sep : string) (skip : nat) (s : string) : list string :=
  match s with
  | EmptyString => [EmptyString]
  | String c s' =>
      match skip with
      | S k => split_go sep k s'
      | O =>
          if String.prefix sep s
          then EmptyString :: split_go sep (String.length sep - 1) s'
          else match split_go sep 0 s' with
               | cell :: cells => String c cell :: cells
               | [] => [String c EmptyString]
               end
      end
  end.

(** [s.split(sep)] for a non-empty [sep]. *)
Definition split (sep s : string) : list string := split_go sep 0 s.

(** [s.endswith(suffix)] *)
Fixpoint endswith (s suffix : string) : bool :=
  String.eqb s suffix ||
  match s with
  | EmptyString => false
  | String _ s' => endswith s' suffix
  end.

(** Number of occurrences of the character [c]. *)
Fixpoint count_char (c : ascii) (s : string) : nat :=
  match s with
  | EmptyString => 0
  | String d s' => (if Ascii.eqb d c then 1 else 0) + count_char c s'
  end.

(** [str(t)] of a tuple of integers, as in ["%s" % (pxarray.shape,)]. *)
Definition str_tuple (t : list nat) : string :=
  match t with
  | [] => "()"
  | [n] => "(" +:+ pretty n +:+ ",)"
  | _ => "(" +:+ join ", " (pretty <$> t) +:+ ")"
  end.

End PyStr.

(** The directory part of a path: everything before its last ['/'] (the
    empty string for a bare file name, which the operating system resolves
    against the working directory). *)
Fixpoint dirname (p : string) : string :=
  match p with
  | EmptyString => EmptyString
  | String c p' =>
      if (0 <? PyStr.count_char "/"%char p')%nat then String c (dirname p')
      else EmptyString
  end.

(** The cells of a CSV line when it is split at every comma. *)
Definition cells (line : string) : list string := PyStr.split "," line.

(** ** The traits table *)

(** The values the traits dictionary holds: strings, and the empty list that
    [get_traits_table] puts under [canopy_cover] and [site]. *)
Inductive TraitVal :=
| TStr (s : string)
| TEmptyList.

(** [str(v)] *)
Definition py_str (v : TraitVal) : string :=
  match v with
  | TStr s => s
  | TEmptyList => "[]"
  end.

Definition fields : list string :=
  ["local_datetime"; "canopy_cover"; "access_level"; "species"; "site";
   "citation_author"; "citation_year"; "citation_title"; "method"].

(** The one-character string made of a double quote. *)
Definition dquote : string := String "034"%char EmptyString.

(** The literal ['"Zongyang, Li"'], quotes included. *)
Definition citation_author : string := dquote +:+ "Zongyang, Li" +:+ dquote.

Definition default_traits : gmap string TraitVal :=
  <["local_datetime" := TStr EmptyString]>
  (<["canopy_cover" := TEmptyList]>
  (<["access_level" := TStr "2"]>
  (<["species" := TStr "Sorghum bicolor"]>
  (<["site" := TEmptyList]>
  (<["citation_author" := TStr citation_author]>
  (<["citation_year" := TStr "2016"]>
  (<["citation_title" := TStr "Maricopa Field Station Data and Metadata"]>
  (<["method" := TStr "Canopy Cover Estimation from RGB images"]> ∅)))))))).

Definition get_traits_table : list string * gmap string TraitVal :=
  (fields, default_traits).

(** [generate_traits_list] needs the monad below; its pure core is the list
    of keys it reads, in the order it reads them. *)
Definition trait_list_keys : list string :=
  ["local_datetime"; "canopy_cover"; "access_level"; "species"; "site";
   "citation_author"; "citation_year"; "citation_title"; "method"].

(** ** Exceptions, effects and the trace monad *)

Inductive Exn :=
| TypeError
| IndexError
| KeyError (key : string)
| LibraryError (what : string).

Inductive Res (A : Type) :=
| Ok (a : A)
| Raise (e : Exn).
Arguments Ok {A} a.
Arguments Raise {A} e.

(** The resource descriptor the host hands to [process_message]. *)
Record Resource := {
  res_id : string;            (* resource['id'] *)
  res_name : string;          (* resource['name'] *)
  res_parent_id : string;     (* resource['parent']['id'] *)
  res_local_paths : list string   (* resource['local_paths'] *)
}.

(** The attributes of [self] that [process_message] reads. *)
Record Extractor := {
  extractor_info : string;
  bety_key : string
}.

(** The content dictionary handed to [build_metadata]. *)
Record RunSummary := {
  plots_processed : nat;
  plots_skipped : Z;
  betydb_link : string
}.

(** What [build_metadata(host, extractor_info, id, content, 'dataset')]
    wraps: its five arguments. *)
Record Metadata := {
  md_host : string;
  md_extractor : string;
  md_target_id : string;
  md_content : RunSummary;
  md_target_kind : string
}.

Section Extractor.

(** Python floats, numpy arrays and geotransforms are opaque to the routine:
    it only passes them on, prints them or reads an array's shape. *)
Context {Float PxArray GeoTrans : Type}.

(** The arguments of one [create_datapoint_with_dependencies] call, after
    connector, host and key. *)
Record Datapoint := {
  dp_variable : string;
  dp_latlon : Float * Float;
  dp_start : string;
  dp_end : string;
  dp_source : string;          (* dpmetadata["source"] *)
  dp_canopy_cover : Float;     (* dpmetadata["canopy_cover"] *)
  dp_dataset : string
}.

(** The effects of a run, in the order they happen. *)
Inductive Event :=
| EvStart                       (* self.start_message(resource) *)
| EvLogInfo (msg : string)      (* self.log_info(resource, msg) *)
| EvLogError (msg : string)     (* self.log_error(resource, msg) *)
| EvLogErrorMsgOnly (msg : string)   (* self.log_error(msg) *)
| EvOpen (path : string)        (* open(path, 'w') *)
| EvWrite (text : string)       (* csv_file.write(text) *)
| EvClose                       (* csv_file.close() *)
| EvDatapoint (dp : Datapoint)  (* create_datapoint_with_dependencies(...) *)
| EvSubmit (path key : string)  (* submit_traits(path, betykey=key) *)
| EvUpload (target : string) (md : Metadata)   (* upload_metadata(...) *)
| EvEnd.                        (* self.end_message(), called without resource *)

(** A computation: the effects performed, and a value or the exception that
    escaped. *)
Definition M (A : Type) : Type := list Event * Res A.

Definition ret {A} (a : A) : M A := ([], Ok a).

Definition bind {A B} (m : M A) (k : A → M B) : M B :=
  match m.2 with
  | Ok a => ((m.1 ++ (k a).1)%list, (k a).2)
  | Raise e => (m.1, Raise e)
  end.

Definition raise {A} (e : Exn) : M A := ([], Raise e).

Definition emit (ev : Event) : M unit := ([ev], Ok tt).

(** The outcome of a library call that has no effect of its own on the
    trace. *)
Definition call {A} (r : Res A) : M A := ([], r).

(** [try: m  except: h] with a bare [except], which catches everything. *)
Definition try_except {A} (m : M A) (h : Exn → M A) : M A :=
  match m.2 with
  | Ok a => m
  | Raise e => ((m.1 ++ (h e).1)%list, (h e).2)
  end.

(** [l[i]] *)
Definition index {A} (l : list A) (i : nat) : M A :=
  match l !! i with
  | Some x => ret x
  | None => raise IndexError
  end.

(** [d[key]] *)
Definition getitem (d : gmap string TraitVal) (key : string) : M TraitVal :=
  match d !! key with
  | Some v => ret v
  | None => raise (KeyError key)
  end.

End Extractor.

Arguments Datapoint : clear implicits.
Arguments Event : clear implicits.
Arguments M : clear implicits.

Notation "x <- m ;; k" := (bind m (fun x => k))
  (at level 100, m at next level, right associativity).
Notation "m ;; k" := (bind m (fun _ => k))
  (at level 100, right associativity).

(** ** The libraries behind the routine *)

Section Run.

Context {Float PxArray GeoTrans : Type}.

Local Abbreviation Traits := (gmap string TraitVal).

(** Everything [process_message] calls that the repository does not define.
    Each function returns a value or raises; connector objects are left out,
    host and key are passed as the source passes them. *)
Record Env := {
  (** [str(x)] of a float *)
  str_float : Float → string;
  (** [pxarray.shape] *)
  shape : PxArray → list nat;
  (** [numpy.rollaxis(a, axis, start)] *)
  rollaxis : PxArray → nat → nat → Res PxArray;
  (** [get_info(connector, host, secret_key, dataset_id)['name']] *)
  get_info_name : string → string → string → Res string;
  (** [get_site_boundaries(date, city=...)], as the (plot name, boundary)
      pairs of the returned dictionary in its iteration order *)
  get_site_boundaries : string → string → Res (list (string * string));
  (** [clip_raster(path, bounds)] *)
  clip_raster : string → string → Res (PxArray * GeoTrans);
  (** [terraref.stereo_rgb.calculate_canopycover(a)] *)
  calculate_canopycover : PxArray → Res Float;
  (** [json.loads(centroid_from_geojson(bounds))["coordinates"]] *)
  centroid_coordinates : string → Res (list Float);
  (** [create_datapoint_with_dependencies(connector, host, secret_key, ...)] *)
  create_datapoint_with_dependencies : string → string → Datapoint Float → Res unit;
  (** [submit_traits(csv, betykey=key)] *)
  submit_traits : string → string → Res unit;
  (** [upload_metadata(connector, host, secret_key, dataset_id, md)] *)
  upload_metadata : string → string → string → Metadata → Res unit;
  (** [self.log_error(msg)]: the host's logging method called with the
      message alone.  Every other call in the file passes
      [(resource, msg)] and is an [EvLogInfo] or [EvLogError] effect; what
      the host does when the resource is missing is its own business.  For a
      method declared [log_error(self, resource, msg)], as terrautils
      declares it, Python raises [TypeError]. *)
  log_error_msg_only : string → Res unit;
  (** [self.end_message()]: the host's closing method called with no
      argument, where line 86 calls [self.start_message(resource)].  For a
      method declared [end_message(self, resource)] Python raises
      [TypeError]. *)
  end_message_no_resource : Res unit
}.

(** The newline character as a string. *)
Definition nl : string := String "010"%char EmptyString.

(** [build_metadata(host, extractor_info, target_id, content, kind)] *)
Definition build_metadata (host info target : string) (content : RunSummary)
    (kind : string) : Metadata :=
  {| md_host := host; md_extractor := info; md_target_id := target;
     md_content := content; md_target_kind := kind |}.

(** ** [generate_traits_list] *)

Fixpoint getitems (d : Traits) (keys : list string) : M Float (list TraitVal) :=
  match keys with
  | [] => ret []
  | key :: keys' =>
      v <- getitem d key ;;
      vs <- getitems d keys' ;;
      ret (v :: vs)
  end.

Definition generate_traits_list (traits : Traits) : M Float (list TraitVal) :=
  getitems traits trait_list_keys.

(** [','.join(map(str, l)) + '\n'] for a list of strings *)
Definition csv_line (l : list string) : string := PyStr.join "," l +:+ nl.

(** ** [process_message] *)

Variable env : Env.
Variable self : Extractor.
Variables host secret_key : string.
Variable resource : Resource.

(** Lines 109-118, the body of the [try].  [None] stands for the
    [continue] of line 112; otherwise the body falls through with [ccVal]
    and the incremented counter. *)
Definition clip_and_estimate (nplots successful_plots : nat)
    (plotname bounds : string) : M Float (option (Float * nat)) :=
  path <- index (res_local_paths resource) 0 ;;
  clipped <- call (clip_raster env path bounds) ;;
  let pxarray := clipped.1 in
  if (length (shape env pxarray) <? 3)%nat then
    (emit (EvLogError ("unexpected array shape for " +:+ plotname +:+ " (" +:+
                       PyStr.str_tuple (shape env pxarray) +:+ ")")) ;;
     ret None)
  else
    (rolled <- call (rollaxis env pxarray 0 3) ;;
     ccVal <- call (calculate_canopycover env rolled) ;;
     let successful_plots := S successful_plots in
     (if (successful_plots mod 10 =? 0)%nat
      then emit (EvLogInfo ("processed " +:+ pretty successful_plots +:+ "/" +:+
                            pretty nplots +:+ " plots"))
      else ret tt) ;;
     ret (Some (ccVal, successful_plots))).

(** Lines 119-121, the bare [except]. *)
Definition on_error (plotname : string) (_ : Exn) : M Float (option (Float * nat)) :=
  (([EvLogErrorMsgOnly ("error generating cc for " +:+ plotname)],
    log_error_msg_only env ("error generating cc for " +:+ plotname)) : M Float unit) ;;
  ret None.

(** [host + ('' if host.endswith('/') else '/') + 'files/' + resource['id']] *)
Definition source_uri : string :=
  host +:+ (if PyStr.endswith host "/" then EmptyString else "/") +:+
  "files/" +:+ res_id resource.

(** Lines 123-138, the rest of the loop body. *)
Definition record_plot (timestamp : string) (traits : Traits)
    (plotname bounds : string) (ccVal : Float) : M Float Traits :=
  let traits := <["canopy_cover" := TStr (str_float env ccVal)]> traits in
  let traits := <["site" := TStr plotname]> traits in
  let traits := <["local_datetime" := TStr (timestamp +:+ "T12:00:00")]> traits in
  trait_list <- generate_traits_list traits ;;
  emit (EvWrite (csv_line (py_str <$> trait_list))) ;;
  centroid_lonlat <- call (centroid_coordinates env bounds) ;;
  let time_fmt := timestamp +:+ "T12:00:00-07:00" in
  lat <- index centroid_lonlat 1 ;;
  lon <- index centroid_lonlat 0 ;;
  let dp := {| dp_variable := "Canopy Cover"; dp_latlon := (lat, lon);
               dp_start := time_fmt; dp_end := time_fmt;
               dp_source := source_uri; dp_canopy_cover := ccVal;
               dp_dataset := timestamp |} in
  (([EvDatapoint dp], create_datapoint_with_dependencies env host secret_key dp)
     : M Float unit) ;;
  ret traits.

(** One iteration of the loop of line 104 on the state
    [(successful_plots, traits)]. *)
Definition process_plot (timestamp : string) (nplots : nat)
    (st : nat * Traits) (plot : string * string) : M Float (nat * Traits) :=
  let plotname := plot.1 in
  let bounds := plot.2 in
  r <- try_except (clip_and_estimate nplots st.1 plotname bounds)
                  (on_error plotname) ;;
  match r with
  | None => ret st
  | Some (ccVal, successful_plots) =>
      traits <- record_plot timestamp st.2 plotname bounds ccVal ;;
      ret (successful_plots, traits)
  end.

Fixpoint process_plots (timestamp : string) (nplots : nat)
    (plots : list (string * string)) (st : nat * Traits) : M Float (nat * Traits) :=
  match plots with
  | [] => ret st
  | plot :: plots' =>
      st' <- process_plot timestamp nplots st plot ;;
      process_plots timestamp nplots plots' st'
  end.

(** Lines 101-138: enumeration and the loop; returns [successful_plots] and
    [len(all_plots)]. *)
Definition enumerate_and_loop (timestamp : string) (traits : Traits)
    : M Float (nat * nat) :=
  all_plots <- call (get_site_boundaries env timestamp "Maricopa") ;;
  emit (EvLogInfo ("found " +:+ pretty (length all_plots) +:+ " plots on " +:+
                   timestamp)) ;;
  st <- process_plots timestamp (length all_plots) all_plots (0, traits) ;;
  ret (st.1, length all_plots).

(** The output path of line 91. *)
Definition out_csv_path : string :=
  PyStr.replace ".tif" "_canopycover.csv" (res_name resource).

(** Lines 141-154, from the close on. *)
Definition close_and_report (out_csv : string) (successful_plots nplots : nat)
    : M Float unit :=
  emit EvClose ;;
  emit (EvLogInfo "submitting CSV to bety") ;;
  (([EvSubmit out_csv (bety_key self)], submit_traits env out_csv (bety_key self))
     : M Float unit) ;;
  emit (EvLogInfo ("updating dataset metadata (" +:+ res_parent_id resource +:+ ")")) ;;
  let ext_meta :=
    build_metadata host (extractor_info self) (res_parent_id resource)
      {| plots_processed := successful_plots;
         plots_skipped := Z.of_nat nplots - Z.of_nat successful_plots;
         betydb_link :=
           "https://terraref.ncsa.illinois.edu/bety/api/beta/variables?name=canopy_cover" |}
      "dataset" in
  (([EvUpload (res_parent_id resource) ext_meta],
    upload_metadata env host secret_key (res_parent_id resource) ext_meta)
     : M Float unit) ;;
  (([EvEnd], end_message_no_resource env) : M Float unit).

Definition process_message : M Float unit :=
  emit EvStart ;;
  ds_name <- call (get_info_name env host secret_key (res_parent_id resource)) ;;
  timestamp <- index (PyStr.split " - " ds_name) 1 ;;
  let out_csv := out_csv_path in
  emit (EvLogInfo ("Writing CSV to " +:+ out_csv)) ;;
  emit (EvOpen out_csv) ;;
  let '(fields, traits) := get_traits_table in
  emit (EvWrite (csv_line fields)) ;;
  counts <- enumerate_and_loop timestamp traits ;;
  close_and_report out_csv counts.1 counts.2.

End Run.

Arguments Env : clear implicits.

(** ** Reading a trace *)

Section Observations.

Context {Float : Type}.

(** The texts written to the CSV handle, in order. *)
Definition csv_writes (tr : list (Event Float)) : list string :=
  omap (λ ev, match ev with EvWrite t => Some t | _ => None end) tr.

(** The data points handed to the geostream store, in order. *)
Definition datapoints (tr : list (Event Float)) : list (Datapoint Float) :=
  omap (λ ev, match ev with EvDatapoint dp => Some dp | _ => None end) tr.

(** The paths opened for writing. *)
Definition opens (tr : list (Event Float)) : list string :=
  omap (λ ev, match ev with EvOpen p => Some p | _ => None end) tr.

(** How many times the CSV handle was closed. *)
Definition closes (tr : list (Event Float)) : nat :=
  length (omap (λ ev, match ev with EvClose => Some tt | _ => None end) tr).

(** The files submitted to the trait database. *)
Definition submits (tr : list (Event Float)) : list string :=
  omap (λ ev, match ev with EvSubmit p _ => Some p | _ => None end) tr.

(** The run summaries attached to the dataset. *)
Definition summaries (tr : list (Event Float)) : list RunSummary :=
  omap (λ ev, match ev with EvUpload _ md => Some (md_content md) | _ => None end) tr.

(** The messages of the handler's [log_error] calls. *)
Definition handler_logs (tr : list (Event Float)) : list string :=
  omap (λ ev, match ev with EvLogErrorMsgOnly m => Some m | _ => None end) tr.

(** The rows of the CSV file below its header. *)
Definition data_rows (tr : list (Event Float)) : list string :=
  tail (csv_writes tr).

End Observations.

(** The header line of the CSV file. *)
Definition header_line : string :=
  "local_datetime,canopy_cover,access_level,species,site,citation_author,citation_year,citation_title,method"
  +:+ nl.

(** The CSV line of the trait record of plot [site] with printed
    canopy cover [cc] on date [timestamp]. *)
Definition trait_row (timestamp cc site : string) : string :=
  csv_line [timestamp +:+ "T12:00:00"; cc; "2"; "Sorghum bicolor"; site;
            citation_author; "2016"; "Maricopa Field Station Data and Metadata";
            "Canopy Cover Estimation from RGB images"].

(** The entries of the traits dictionary that the loop never assigns. *)
Definition constant_fields (traits : gmap string TraitVal) : Prop :=
  traits !! "access_level" = Some (TStr "2") ∧
  traits !! "species" = Some (TStr "Sorghum bicolor") ∧
  traits !! "citation_author" = Some (TStr citation_author) ∧
  traits !! "citation_year" = Some (TStr "2016") ∧
  traits !! "citation_title" = Some (TStr "Maricopa Field Station Data and Metadata") ∧
  traits !! "method" = Some (TStr "Canopy Cover Estimation from RGB images").

(** The same environment with another plot registry. *)
Definition with_site_boundaries {Float PxArray GeoTrans : Type}
    (f : string → string → Res (list (string * string)))
    (env : Env Float PxArray GeoTrans) : Env Float PxArray GeoTrans :=
  {| str_float := str_float env; shape := shape env; rollaxis := rollaxis env;
     get_info_name := get_info_name env; get_site_boundaries := f;
     clip_raster := clip_raster env;
     calculate_canopycover := calculate_canopycover env;
     centroid_coordinates := centroid_coordinates env;
     create_datapoint_with_dependencies := create_datapoint_with_dependencies env;
     submit_traits := submit_traits env; upload_metadata := upload_metadata env;
     log_error_msg_only := log_error_msg_only env;
     end_message_no_resource := end_message_no_resource env |}.

(** ** The shape of a run

    One iteration of the loop ends in one of four ways; a loop is a sequence
    of iterations that stops at the first exception.  These relations are
    derived from [process_plot] and [process_plots] (lemmas
    [process_plot_iteration] and [process_plots_iterations]); the properties
    of a run are proved by induction on them. *)

Section Shape.

Context {Float PxArray GeoTrans : Type}.
Variable env : Env Float PxArray GeoTrans.
Variables host secret_key : string.
Variable resource : Resource.

Local Abbreviation Traits := (gmap string TraitVal).

(** Log lines, as opposed to the effects on the file and on the remote
    services. *)
Definition is_log (ev : Event Float) : bool :=
  match ev with
  | EvLogInfo _ | EvLogError _ | EvLogErrorMsgOnly _ => true
  | _ => false
  end.

(** A trace without its log lines. *)
Definition outputs (tr : list (Event Float)) : list (Event Float) :=
  filter (λ ev, is_log ev = false) tr.

(** The [try] body of the plot with boundary [bounds] ends with [ccVal]. *)
Definition estimated (bounds : string) (ccVal : Float) : Prop :=
  ∃ path pxarray geotrans rolled,
    res_local_paths resource !! 0 = Some path ∧
    clip_raster env path bounds = Ok (pxarray, geotrans) ∧
    (3 ≤ length (shape env pxarray))%nat ∧
    rollaxis env pxarray 0 3 = Ok rolled ∧
    calculate_canopycover env rolled = Ok ccVal.

(** The traits dictionary after lines 123-125. *)
Definition updated_traits (timestamp plotname : string) (ccVal : Float)
    (traits : Traits) : Traits :=
  <["local_datetime" := TStr (timestamp +:+ "T12:00:00")]>
  (<["site" := TStr plotname]>
  (<["canopy_cover" := TStr (str_float env ccVal)]> traits)).

(** The data point of lines 130-138 for a centroid [(lon, lat)]. *)
Definition datapoint_of (timestamp : string) (lon lat ccVal : Float)
    : Datapoint Float :=
  {| dp_variable := "Canopy Cover"; dp_latlon := (lat, lon);
     dp_start := timestamp +:+ "T12:00:00-07:00";
     dp_end := timestamp +:+ "T12:00:00-07:00";
     dp_source := source_uri host resource; dp_canopy_cover := ccVal;
     dp_dataset := timestamp |}.

(** The centroid lookup of line 130 or the indexing of line 137 raises. *)
Definition centroid_raises (bounds : string) (e : Exn) : Prop :=
  centroid_coordinates env bounds = Raise e ∨
  ∃ coords, centroid_coordinates env bounds = Ok coords ∧
            (coords !! 1 = None ∨ coords !! 0 = None) ∧ e = IndexError.

Inductive iteration (timestamp : string) (st : nat * Traits)
    (plot : string * string) : M Float (nat * Traits) → Prop :=
| iteration_skipped logs :
    Forall (λ ev, is_log ev = true) logs →
    iteration timestamp st plot (logs, Ok st)
| iteration_handler_raised logs e :
    Forall (λ ev, is_log ev = true) logs →
    log_error_msg_only env ("error generating cc for " +:+ plot.1) = Raise e →
    iteration timestamp st plot (logs, Raise e)
| iteration_cut logs ccVal e :
    Forall (λ ev, is_log ev = true) logs →
    estimated plot.2 ccVal →
    centroid_raises plot.2 e →
    iteration timestamp st plot
      ((logs ++ [EvWrite (trait_row timestamp (str_float env ccVal) plot.1)])%list,
       Raise e)
| iteration_dispatched logs ccVal coords lon lat :
    Forall (λ ev, is_log ev = true) logs →
    estimated plot.2 ccVal →
    centroid_coordinates env plot.2 = Ok coords →
    coords !! 0 = Some lon →
    coords !! 1 = Some lat →
    iteration timestamp st plot
      ((logs ++ [EvWrite (trait_row timestamp (str_float env ccVal) plot.1);
                 EvDatapoint (datapoint_of timestamp lon lat ccVal)])%list,
       match create_datapoint_with_dependencies env host secret_key
               (datapoint_of timestamp lon lat ccVal) with
       | Ok _ => Ok (S st.1, updated_traits timestamp plot.1 ccVal st.2)
       | Raise e => Raise e
       end).

(** Row and data point of one recorded plot of the registry [plots]. *)
Definition recorded (timestamp : string) (plots : list (string * string))
    (row : string) (dp : Datapoint Float) : Prop :=
  ∃ plotname bounds ccVal coords lon lat,
    (plotname, bounds) ∈ plots ∧
    estimated bounds ccVal ∧
    centroid_coordinates env bounds = Ok coords ∧
    coords !! 0 = Some lon ∧ coords !! 1 = Some lat ∧
    row = trait_row timestamp (str_float env ccVal) plotname ∧
    dp = datapoint_of timestamp lon lat ccVal.

(** A row whose plot was estimated but whose data point was never handed
    over, because the centroid could not be read. *)
Definition orphan_row (timestamp : string) (plots : list (string * string))
    (row : string) (e : Exn) : Prop :=
  ∃ plotname bounds ccVal,
    (plotname, bounds) ∈ plots ∧
    estimated bounds ccVal ∧
    centroid_raises bounds e ∧
    row = trait_row timestamp (str_float env ccVal) plotname.

Inductive iterations (timestamp : string)
    : list (string * string) → nat * Traits → M Float (nat * Traits) → Prop :=
| iterations_done st :
    iterations timestamp [] st ([], Ok st)
| iterations_raise plot plots st tr e :
    iteration timestamp st plot (tr, Raise e) →
    iterations timestamp (plot :: plots) st (tr, Raise e)
| iterations_next plot plots st tr st' tr' r :
    iteration timestamp st plot (tr, Ok st') →
    iterations timestamp plots st' (tr', r) →
    iterations timestamp (plot :: plots) st ((tr ++ tr')%list, r).

End Shape.

(** ** Notions the properties are stated with *)

(** The CSV line of a trait record: its values under the header's field
    names, in the header's order. *)
Definition record_row (traits : gmap string TraitVal) : option string :=
  vals ← mapM (λ field, traits !! field) fields;
  Some (csv_line (py_str <$> vals)).

(** Number of commas of a string. *)
Definition commas (s : string) : nat := PyStr.count_char ","%char s.

(** [old] occurs in [s] at one of the first [n] positions. *)
Fixpoint matches_within (old : string) (n : nat) (s : string) : bool :=
  match n, s with
  | S n', String _ s' => String.prefix old s || matches_within old n' s'
  | _, _ => false
  end.

(** The same summary with one more skipped plot. *)
Definition one_more_skipped (s : RunSummary) : RunSummary :=
  {| plots_processed := plots_processed s;
     plots_skipped := plots_skipped s + 1;
     betydb_link := betydb_link s |}.

Section RunNotions.

Context {Float PxArray GeoTrans : Type}.
Variable env : Env Float PxArray GeoTrans.
Variables host secret_key : string.
Variable resource : Resource.

(** The plot with boundary [bounds] clips to an array of fewer than three
    dimensions. *)
Definition flat_plot (bounds : string) : Prop :=
  ∃ path pxarray geotrans,
    res_local_paths resource !! 0 = Some path ∧
    clip_raster env path bounds = Ok (pxarray, geotrans) ∧
    (length (shape env pxarray) < 3)%nat.

(** The acquisition date of the run and its plot registry. *)
Definition enumerated (timestamp : string) (plots : list (string * string)) : Prop :=
  ∃ ds_name,
    get_info_name env host secret_key (res_parent_id resource) = Ok ds_name ∧
    PyStr.split " - " ds_name !! 1 = Some timestamp ∧
    get_site_boundaries env timestamp "Maricopa" = Ok plots.

(** [row] and [dp] are the trait row and the data point of one plot of the
    run, with the same canopy-cover value. *)
Definition run_recorded (row : string) (dp : Datapoint Float) : Prop :=
  ∃ timestamp plots,
    enumerated timestamp plots ∧ recorded env host resource timestamp plots row dp.

(** [row] is the trait row of a plot of the run whose centroid could not be
    read, which raised [e]. *)
Definition run_orphan_row (row : string) (e : Exn) : Prop :=
  ∃ timestamp plots,
    enumerated timestamp plots ∧ orphan_row env resource timestamp plots row e.

(** [dp] is the data point the loop builds for one plot of the run: centroid
    swapped to (lat, lon), noon of the acquisition date at both ends. *)
Definition run_datapoint (dp : Datapoint Float) : Prop :=
  ∃ timestamp plots plotname bounds ccVal coords lon lat,
    enumerated timestamp plots ∧
    (plotname, bounds) ∈ plots ∧
    estimated env resource bounds ccVal ∧
    centroid_coordinates env bounds = Ok coords ∧
    coords !! 0 = Some lon ∧ coords !! 1 = Some lat ∧
    dp_latlon dp = (lat, lon) ∧
    dp_start dp = timestamp +:+ "T12:00:00-07:00" ∧
    dp_end dp = timestamp +:+ "T12:00:00-07:00" ∧
    dp_canopy_cover dp = ccVal.

End RunNotions.

(** ** Concrete field jobs

    The scenario of the specification: site Maricopa, date 2016-07-01, three
    registered plots.  A float is named by its printed form and an array by
    its shape. *)

Module Scenario.

Definition resource : Resource :=
  {| res_id := "5873a8ae";
     res_name := "fullfield_L1_ua-mac_2016-07-01_rgb_thumb.tif";
     res_parent_id := "5873a7f4";
     res_local_paths :=
       ["/home/extractor/sites/ua-mac/Level_1/fullfield/2016-07-01/fullfield_L1_ua-mac_2016-07-01_rgb_thumb.tif"] |}.

Definition self : Extractor :=
  {| extractor_info := "terra.stereo-rgb.canopycover"; bety_key := "k3y" |}.

Definition host : string := "https://terraref.ncsa.illinois.edu/clowder/".
Definition secret_key : string := "s3cret".

Definition plots3 : list (string * string) :=
  [("MAC_001", "poly1"); ("MAC_002", "poly2"); ("MAC_003", "poly3")].

(** Band-first arrays of three bands; [poly0] lies outside the raster and
    clips to a flat array. *)
Definition clip (path bounds : string) : Res (list nat * unit) :=
  if String.eqb bounds "poly0" then Ok ([10; 10], tt)
  else if String.eqb bounds "poly1" then Ok ([3; 10; 10], tt)
  else if String.eqb bounds "poly2" then Ok ([3; 20; 20], tt)
  else Ok ([3; 30; 30], tt).

(** A clipper that fails on [poly1]. *)
Definition clip_failing (path bounds : string) : Res (list nat * unit) :=
  if String.eqb bounds "poly1" then Raise (LibraryError "gdal: cannot clip")
  else clip path bounds.

Definition roll (a : list nat) (axis start : nat) : Res (list nat) :=
  match a with
  | b :: r :: c :: rest => Ok (r :: c :: b :: rest)
  | _ => Raise (LibraryError "numpy: bad axis")
  end.

Definition estimate (a : list nat) : Res string :=
  match a with
  | [10; 10; 3] => Ok "0.31"
  | [20; 20; 3] => Ok "0.42"
  | _ => Ok "0.57"
  end.

Definition centroid (bounds : string) : Res (list string) :=
  if String.eqb bounds "poly1" then Ok ["-111.9750"; "33.0745"]
  else if String.eqb bounds "poly2" then Ok ["-111.9749"; "33.0746"]
  else Ok ["-111.9748"; "33.0747"].

(** A centroid service that fails on [poly2]. *)
Definition centroid_failing (bounds : string) : Res (list string) :=
  if String.eqb bounds "poly2" then Raise (LibraryError "ogr: no geometry")
  else centroid bounds.

Definition deliver (h k : string) (dp : Datapoint string) : Res unit := Ok tt.

(** A geostream store that rejects the point of [MAC_001]. *)
Definition deliver_failing (h k : string) (dp : Datapoint string) : Res unit :=
  if String.eqb (dp_canopy_cover dp) "0.31"
  then Raise (LibraryError "geostreams: connection refused")
  else Ok tt.

(** [log_error(self, resource, msg)] called with one argument. *)
Definition log_strict (msg : string) : Res unit := Raise TypeError.

(** A logger whose [msg] would have a default. *)
Definition log_lenient (msg : string) : Res unit := Ok tt.

(** [end_message(self, resource)] called with no argument. *)
Definition end_strict : Res unit := Raise TypeError.

(** A closing method whose [resource] would have a default. *)
Definition end_lenient : Res unit := Ok tt.

Definition env_with (plots : Res (list (string * string)))
    (clip : string → string → Res (list nat * unit))
    (centroid : string → Res (list string))
    (deliver : string → string → Datapoint string → Res unit)
    (log : string → Res unit) (finish : Res unit) : Env string (list nat) unit :=
  {| str_float := λ x, x;
     shape := λ a, a;
     rollaxis := roll;
     get_info_name := λ _ _ _, Ok "stereoTop - 2016-07-01";
     get_site_boundaries := λ _ _, plots;
     clip_raster := clip;
     calculate_canopycover := estimate;
     centroid_coordinates := centroid;
     create_datapoint_with_dependencies := deliver;
     submit_traits := λ _ _, Ok tt;
     upload_metadata := λ _ _ _ _, Ok tt;
     log_error_msg_only := log;
     end_message_no_resource := finish |}.

(** A host that declares [end_message(self, resource)]. *)
Definition env_of (plots : Res (list (string * string)))
    (clip : string → string → Res (list nat * unit))
    (centroid : string → Res (list string))
    (deliver : string → string → Datapoint string → Res unit)
    (log : string → Res unit) : Env string (list nat) unit :=
  env_with plots clip centroid deliver log end_strict.

(** All three plots clip and estimate. *)
Definition env_ok := env_of (Ok plots3) clip centroid deliver log_strict.

(** [MAC_000] lies outside the raster; the other three plots are fine. *)
Definition env_flat :=
  env_of (Ok (("MAC_000", "poly0") :: plots3)) clip centroid deliver log_strict.

(** Clipping [MAC_001] raises. *)
Definition env_clip_raises :=
  env_of (Ok plots3) clip_failing centroid deliver log_strict.

(** The same job on a host whose logger and closing method accept the calls
    of lines 120 and 154 as they are written. *)
Definition env_clip_raises_lenient :=
  env_with (Ok plots3) clip_failing centroid deliver log_lenient end_lenient.

(** The centroid of [MAC_002] cannot be computed. *)
Definition env_centroid_raises :=
  env_of (Ok plots3) clip centroid_failing deliver log_strict.

(** The geostream store refuses the first data point. *)
Definition env_dispatch_raises :=
  env_of (Ok plots3) clip centroid deliver_failing log_strict.

(** The boundary registry cannot be reached. *)
Definition env_enumeration_raises :=
  env_of (Raise (LibraryError "betydb: timeout")) clip centroid deliver log_strict.

(** No plot is registered for the date. *)
Definition env_no_plots := env_of (Ok []) clip centroid deliver log_strict.

(** A plot whose name holds a comma. *)
Definition env_comma :=
  env_of (Ok [("MAC Field Scanner, Plot 1", "poly1")]) clip centroid deliver log_strict.

Definition run (env : Env string (list nat) unit) : M string unit :=
  process_message env self host secret_key resource.

(** The data point of MAC_001. *)
Definition datapoint_001 : Datapoint string :=
  datapoint_of host resource "2016-07-01" "-111.9750" "33.0745" "0.31".

End Scenario.

(** ** [check_message]

    The gate the host consults before it downloads a file: lines 71-83.  It
    tests the file name with [str.find] and [re.match], then the metadata of
    the parent dataset. *)

Module Re.

(** The regular expressions that the pattern of line 74 is built from. *)
Inductive regex :=
| Void                      (* matches nothing; arises in derivatives only *)
| Eps                       (* the empty string *)
| Dot                       (* [.]: any character but a newline *)
| Digit                     (* [\d] on a byte string: 0-9 *)
| Chr (c : ascii)           (* a literal character *)
| Cat (r s : regex)
| Alt (r s : regex)         (* arises in derivatives only *)
| Star (r : regex).

Definition is_newline (c : ascii) : bool := Ascii.eqb c "010"%char.

Definition is_digit (c : ascii) : bool :=
  (48 <=? nat_of_ascii c)%nat && (nat_of_ascii c <=? 57)%nat.

Fixpoint nullable (r : regex) : bool :=
  match r with
  | Void | Dot | Digit | Chr _ => false
  | Eps | Star _ => true
  | Cat r s => nullable r && nullable s
  | Alt r s => nullable r || nullable s
  end.

(** What is left of [r] after it has read [c]. *)
Fixpoint deriv (c : ascii) (r : regex) : regex :=
  match r with
  | Void | Eps => Void
  | Dot => if is_newline c then Void else Eps
  | Digit => if is_digit c then Eps else Void
  | Chr d => if Ascii.eqb c d then Eps else Void
  | Cat r s =>
      if nullable r then Alt (Cat (deriv c r) s) (deriv c s)
      else Cat (deriv c r) s
  | Alt r s => Alt (deriv c r) (deriv c s)
  | Star r => Cat (deriv c r) (Star r)
  end.

(** Some prefix of [s] is matched by [r]. *)
Fixpoint match_prefix (r : regex) (s : list ascii) : bool :=
  match s with
  | [] => nullable r
  | c :: s' => nullable r || match_prefix (deriv c r) s'
  end.

(** [re.match(r, s)] finds a match: [re.match] anchors the match at the
    start of [s] and lets it end anywhere. *)
Definition py_match (r : regex) (s : string) : bool :=
  match_prefix r (list_ascii_of_string s).

(** The literal [s]. *)
Definition lit (s : string) : regex :=
  foldr (λ c r, Cat (Chr c) r) Eps (list_ascii_of_string s).

(** The words of a regular expression. *)
Inductive Matches : regex → list ascii → Prop :=
| Matches_eps : Matches Eps []
| Matches_dot c : is_newline c = false → Matches Dot [c]
| Matches_digit c : is_digit c = true → Matches Digit [c]
| Matches_chr c : Matches (Chr c) [c]
| Matches_cat r s u v : Matches r u → Matches s v → Matches (Cat r s) (u ++ v)
| Matches_alt_l r s u : Matches r u → Matches (Alt r s) u
| Matches_alt_r r s u : Matches s u → Matches (Alt r s) u
| Matches_star_nil r : Matches (Star r) []
| Matches_star_cons r u v :
    Matches r u → Matches (Star r) v → Matches (Star r) (u ++ v).

End Re.

(** [s.find(sub)] from position [i] on: the lowest index of an occurrence. *)
Fixpoint find_from (sub s : string) (i : nat) : option nat :=
  if String.prefix sub s then Some i
  else match s with
       | EmptyString => None
       | String _ s' => find_from sub s' (S i)
       end.

(** [s.find(sub)]: the lowest index of an occurrence, or -1. *)
Definition find (sub s : string) : Z :=
  match find_from sub s 0 with
  | Some i => Z.of_nat i
  | None => (-1)%Z
  end.

(** The pattern of line 74, ["^.*\d+_rgb_.*thumb.tif"]; the leading [^] is
    the anchoring that [re.match] does anyway. *)
Definition fullfield_pattern : Re.regex :=
  Re.Cat (Re.Star Re.Dot)
    (Re.Cat Re.Digit
      (Re.Cat (Re.Star Re.Digit)
        (Re.Cat (Re.lit "_rgb_")
          (Re.Cat (Re.Star Re.Dot)
            (Re.Cat (Re.lit "thumb")
              (Re.Cat Re.Dot (Re.lit "tif"))))))).

(** The test of line 74 on the file name. *)
Definition name_accepted (name : string) : bool :=
  (-1 <? find "fullfield" name)%Z && Re.py_match fullfield_pattern name.

(** [CheckMessage.ignore] and [CheckMessage.download]. *)
Inductive CheckMessage := Ignore | Download.

(** The effects of [check_message]. *)
Inductive CheckEvent :=
| CkStart                               (* self.start_check(resource) *)
| CkDownloadMetadata (dataset : string) (* download_metadata(...) *)
| CkLogSkip (msg : string).             (* self.log_skip(resource, msg) *)

(** The attributes of [self] that [check_message] reads. *)
Record Checker := {
  checker_name : string;     (* self.extractor_info['name'] *)
  overwrite : bool           (* self.overwrite *)
}.

Section Check.

(** Dataset metadata is opaque to the gate. *)
Context {Md : Type}.

(** The library calls of [check_message]. *)
Record CheckEnv := {
  (** [download_metadata(connector, host, secret_key, dataset_id)] *)
  download_metadata : string → string → string → Res Md;
  (** [get_extractor_metadata(md, name)], as the truth value of its result *)
  get_extractor_metadata : Md → string → Res bool
}.

Variable cenv : CheckEnv.
Variable checker : Checker.
Variables host secret_key : string.
Variable resource : Resource.

Definition check_message : list CheckEvent * Res CheckMessage :=
  if name_accepted (res_name resource) then
    match download_metadata cenv host secret_key (res_parent_id resource) with
    | Raise e => ([CkStart; CkDownloadMetadata (res_parent_id resource)], Raise e)
    | Ok md =>
        match get_extractor_metadata cenv md (checker_name checker) with
        | Raise e => ([CkStart; CkDownloadMetadata (res_parent_id resource)], Raise e)
        | Ok processed =>
            if processed && negb (overwrite checker) then
              ([CkStart; CkDownloadMetadata (res_parent_id resource);
                CkLogSkip "metadata indicates it was already processed"],
               Ok Ignore)
            else
              ([CkStart; CkDownloadMetadata (res_parent_id resource)], Ok Download)
        end
    end
  else
    ([CkStart; CkLogSkip ("regex not matched for " +:+ res_name resource)],
     Ok Ignore).

End Check.

Arguments CheckEnv : clear implicits.

(** The characters of a file name that line 74 accepts: a digit right before
    [_rgb_], later [thumb], one more character and [tif]; no newline up to
    there, anything after. *)
Definition rgb_thumb_shape (name : string) : Prop :=
  ∃ (a : list ascii) (d : ascii) (b : list ascii) (c : ascii) (rest : list ascii),
    list_ascii_of_string name =
      (a ++ d :: list_ascii_of_string "_rgb_" ++ b ++
       list_ascii_of_string "thumb" ++ c :: list_ascii_of_string "tif" ++ rest)%list ∧
    Forall (λ x, Re.is_newline x = false) a ∧
    Re.is_digit d = true ∧
    Forall (λ x, Re.is_newline x = false) b ∧
    Re.is_newline c = false.

(** ** What a run is expected to write *)

Section Expected.

Context {Float PxArray GeoTrans : Type}.
Variable env : Env Float PxArray GeoTrans.
Variables host secret_key : string.
Variable resource : Resource.

(** The value [ccVal] with which the [try] body of lines 109-118 ends for
    the boundary [bounds], if it does: the source image has a local path,
    the clip returns an array of three dimensions or more, and rolling and
    estimation return. *)
Definition estimate_of (bounds : string) : option Float :=
  match res_local_paths resource !! 0 with
  | None => None
  | Some path =>
      match clip_raster env path bounds with
      | Raise _ => None
      | Ok clipped =>
          if (length (shape env clipped.1) <? 3)%nat then None
          else match rollaxis env clipped.1 0 3 with
               | Raise _ => None
               | Ok rolled =>
                   match calculate_canopycover env rolled with
                   | Raise _ => None
                   | Ok ccVal => Some ccVal
                   end
               end
      end
  end.

(** The row of a plot, if the plot is estimated. *)
Definition row_for (timestamp : string) (plot : string * string) : option string :=
  ccVal ← estimate_of plot.2;
  Some (trait_row timestamp (str_float env ccVal) plot.1).

(** The data point of a plot, if the plot is estimated and its centroid has
    two coordinates. *)
Definition datapoint_for (timestamp : string) (plot : string * string)
    : option (Datapoint Float) :=
  ccVal ← estimate_of plot.2;
  match centroid_coordinates env plot.2 with
  | Raise _ => None
  | Ok coords =>
      lon ← coords !! 0;
      lat ← coords !! 1;
      Some (datapoint_of host resource timestamp lon lat ccVal)
  end.

(** The trait row of a plot as lines 123-127 make it, if the plot is
    estimated: the values of the default record updated with the date, the
    estimate and the plot name, under the field names of the header. *)
Definition record_row_for (timestamp : string) (plot : string * string)
    : option string :=
  ccVal ← estimate_of plot.2;
  record_row (updated_traits env timestamp plot.1 ccVal default_traits).

(** The iteration of a plot returns.  For an estimated plot the centroid has
    two coordinates and the geostream store accepts the data point; a plot
    that is not estimated is flat (the [continue] of line 112), or the
    handler's logging call of line 120 returns. *)
Definition iteration_returns (timestamp : string) (plot : string * string) : Prop :=
  match estimate_of plot.2 with
  | Some _ =>
      ∃ dp, datapoint_for timestamp plot = Some dp ∧
            create_datapoint_with_dependencies env host secret_key dp = Ok tt
  | None =>
      flat_plot env resource plot.2 ∨
      log_error_msg_only env ("error generating cc for " +:+ plot.1) = Ok tt
  end.

End Expected.

(** The effects on the CSV file and its submission. *)
Definition is_file_event {Float : Type} (ev : Event Float) : bool :=
  match ev with
  | EvOpen _ | EvWrite _ | EvClose | EvSubmit _ _ => true
  | _ => false
  end.

(** The part of a trace that concerns the CSV file. *)
Definition file_events {Float : Type} (tr : list (Event Float)) : list (Event Float) :=
  filter (λ ev, is_file_event ev = true) tr.

(** ** More field jobs *)

Module Jobs.

(** A dataset whose name has no [" - "] separator. *)
Definition env_unnamed : Env string (list nat) unit :=
  {| str_float := λ x, x;
     shape := λ a, a;
     rollaxis := Scenario.roll;
     get_info_name := λ _ _ _, Ok "stereoTop 2016-07-01";
     get_site_boundaries := λ _ _, Ok Scenario.plots3;
     clip_raster := Scenario.clip;
     calculate_canopycover := Scenario.estimate;
     centroid_coordinates := Scenario.centroid;
     create_datapoint_with_dependencies := Scenario.deliver;
     submit_traits := λ _ _, Ok tt;
     upload_metadata := λ _ _ _ _, Ok tt;
     log_error_msg_only := Scenario.log_strict;
     end_message_no_resource := Scenario.end_strict |}.

(** The trait database refuses the bulk submission. *)
Definition env_submit_raises : Env string (list nat) unit :=
  {| str_float := λ x, x;
     shape := λ a, a;
     rollaxis := Scenario.roll;
     get_info_name := λ _ _ _, Ok "stereoTop - 2016-07-01";
     get_site_boundaries := λ _ _, Ok Scenario.plots3;
     clip_raster := Scenario.clip;
     calculate_canopycover := Scenario.estimate;
     centroid_coordinates := Scenario.centroid;
     create_datapoint_with_dependencies := Scenario.deliver;
     submit_traits := λ _ _, Raise (LibraryError "betydb: 401");
     upload_metadata := λ _ _ _ _, Ok tt;
     log_error_msg_only := Scenario.log_strict;
     end_message_no_resource := Scenario.end_strict |}.

(** A file whose name passes the gate of line 74 and holds no [.tif]. *)
Definition resource_no_extension : Resource :=
  {| res_id := "5873a8af";
     res_name := "fullfield_L1_ua-mac_2016-07-01_rgb_thumb_tif";
     res_parent_id := "5873a7f4";
     res_local_paths := ["/tmp/tmpQx3/fullfield_L1_ua-mac_2016-07-01_rgb_thumb_tif"] |}.

(** A file of the same dataset that is not a full-field thumbnail. *)
Definition resource_other : Resource :=
  {| res_id := "5873a8b0";
     res_name := "stereoTop_2016-07-01_metadata.json";
     res_parent_id := "5873a7f4";
     res_local_paths := ["/tmp/tmpQx4/stereoTop_2016-07-01_metadata.json"] |}.

(** The sidecar file that GDAL writes next to the thumbnail. *)
Definition resource_sidecar : Resource :=
  {| res_id := "5873a8b1";
     res_name := "fullfield_L1_ua-mac_2016-07-01_rgb_thumb.tif.aux.xml";
     res_parent_id := "5873a7f4";
     res_local_paths := ["/tmp/tmpQx5/fullfield_L1_ua-mac_2016-07-01_rgb_thumb.tif.aux.xml"] |}.

(** A traits dictionary that lost its [site] entry. *)
Definition traits_without_site : gmap string TraitVal :=
  delete "site" default_traits.

(** A dataset that carries the extractor's metadata already. *)
Definition cenv_processed : CheckEnv unit :=
  {| download_metadata := λ _ _ _, Ok tt;
     get_extractor_metadata := λ _ _, Ok true |}.

Definition checker_overwriting : Checker :=
  {| checker_name := "terra.stereo-rgb.canopycover"; overwrite := true |}.

Definition checker_plain : Checker :=
  {| checker_name := "terra.stereo-rgb.canopycover"; overwrite := false |}.

End Jobs.

(** ** Monad laws *)

Section Monad.

Context {Float : Type}.

Lemma bind_ret_l {A B} (a : A) (k : A → M Float B) : bind (ret a) k = k a.
Proof. unfold bind, ret. simpl. by destruct (k a). Qed.

Lemma bind_assoc {A B C} (m : M Float A) (k : A → M Float B) (h : B → M Float C) :
  bind (bind m k) h = bind m (λ a, bind (k a) h).
Proof.
  destruct m as [t [a|e]]; unfold bind; simpl; [|done].
  destruct (k a) as [t' [b|e]]; simpl; [|done].
  by rewrite app_assoc.
Qed.

Lemma bind_ok {A B} (m : M Float A) (k : A → M Float B) t a :
  m = (t, Ok a) → bind m k = ((t ++ (k a).1)%list, (k a).2).
Proof. by intros ->. Qed.

Lemma bind_raise {A B} (m : M Float A) (k : A → M Float B) t e :
  m = (t, Raise e) → bind m k = (t, Raise e).
Proof. by intros ->. Qed.

Lemma bind_raise_l {A B} (e : Exn) (k : A → M Float B) : bind (raise e) k = raise e.
Proof. reflexivity. Qed.

Lemma bind_call_ok {A B} (a : A) (k : A → M Float B) : bind (call (Ok a)) k = k a.
Proof. apply bind_ret_l. Qed.

Lemma bind_call_raise {A B} (e : Exn) (k : A → M Float B) :
  bind (call (Raise e)) k = raise e.
Proof. reflexivity. Qed.

Lemma bind_effect_ok {A B} (t : list (Event Float)) (a : A) (k : A → M Float B) :
  bind (t, Ok a) k = ((t ++ (k a).1)%list, (k a).2).
Proof. reflexivity. Qed.

Lemma bind_effect_raise {A B} (t : list (Event Float)) (e : Exn) (k : A → M Float B) :
  bind (t, Raise e) k = (t, Raise e).
Proof. reflexivity. Qed.

Lemma bind_emit {B} (ev : Event Float) (k : unit → M Float B) :
  bind (emit ev) k = (ev :: (k tt).1, (k tt).2).
Proof. reflexivity. Qed.

Lemma try_except_raise {A} (e : Exn) (h : Exn → M Float A) :
  try_except (raise e) h = h e.
Proof. unfold try_except, raise. simpl. by destruct (h e). Qed.

Lemma try_except_ok {A} (t : list (Event Float)) (a : A) (h : Exn → M Float A) :
  try_except (t, Ok a) h = (t, Ok a).
Proof. reflexivity. Qed.

End Monad.

(** ** One iteration *)

Section Iteration.

Context {Float PxArray GeoTrans : Type}.
Variable env : Env Float PxArray GeoTrans.
Variables host secret_key : string.
Variable resource : Resource.

Local Abbreviation Traits := (gmap string TraitVal).

Lemma constant_fields_default : constant_fields default_traits.
Proof. by repeat split. Qed.

Lemma constant_fields_updated timestamp plotname (ccVal : Float) traits :
  constant_fields traits →
  constant_fields (updated_traits env timestamp plotname ccVal traits).
Proof.
  unfold constant_fields, updated_traits.
  intros (? & ? & ? & ? & ? & ?).
  by rewrite !lookup_insert_ne.
Qed.

(** On a dictionary that went through lines 123-125 every key of
    [generate_traits_list] is present. *)
Lemma generate_traits_list_updated timestamp plotname (ccVal : Float) traits :
  constant_fields traits →
  generate_traits_list (Float := Float)
      (updated_traits env timestamp plotname ccVal traits) =
    ret [TStr (timestamp +:+ "T12:00:00"); TStr (str_float env ccVal);
         TStr "2"; TStr "Sorghum bicolor"; TStr plotname;
         TStr citation_author; TStr "2016";
         TStr "Maricopa Field Station Data and Metadata";
         TStr "Canopy Cover Estimation from RGB images"].
Proof.
  intros (Ha & Hs & Hc & Hy & Ht & Hm).
  unfold generate_traits_list, trait_list_keys, updated_traits; simpl.
  unfold getitem.
  rewrite lookup_insert_eq.
  rewrite (lookup_insert_ne _ "local_datetime" "canopy_cover") by done.
  rewrite (lookup_insert_ne _ "site" "canopy_cover") by done.
  rewrite lookup_insert_eq.
  rewrite (lookup_insert_ne _ "local_datetime" "site") by done.
  rewrite lookup_insert_eq.
  rewrite !lookup_insert_ne by done.
  rewrite Ha, Hs, Hc, Hy, Ht, Hm.
  reflexivity.
Qed.

Lemma trait_row_csv_line timestamp cc site :
  csv_line (py_str <$>
    [TStr (timestamp +:+ "T12:00:00"); TStr cc; TStr "2"; TStr "Sorghum bicolor";
     TStr site; TStr citation_author; TStr "2016";
     TStr "Maricopa Field Station Data and Metadata";
     TStr "Canopy Cover Estimation from RGB images"]) =
  trait_row timestamp cc site.
Proof. reflexivity. Qed.

(** The body of the [try] raised: the handler's own logging call decides. *)
Ltac handler_case :=
  rewrite try_except_raise; unfold on_error;
  destruct (log_error_msg_only _ _) as [[]|?];
  [ left; eexists; split; [|reflexivity]; by repeat constructor
  | right; left; do 2 eexists; split; [|split; reflexivity]; by repeat constructor ].

(** The three ways the [try] statement of lines 108-121 ends. *)
Lemma try_cases nplots n plotname bounds :
  let t := try_except (clip_and_estimate env resource nplots n plotname bounds)
                      (on_error env plotname) in
  (∃ logs, Forall (λ ev, is_log ev = true) logs ∧ t = (logs, Ok None)) ∨
  (∃ logs e, Forall (λ ev, is_log ev = true) logs ∧
     log_error_msg_only env ("error generating cc for " +:+ plotname) = Raise e ∧
     t = (logs, Raise e)) ∨
  (∃ logs ccVal, Forall (λ ev, is_log ev = true) logs ∧
     estimated env resource bounds ccVal ∧ t = (logs, Ok (Some (ccVal, S n)))).
Proof.
  unfold clip_and_estimate, estimated, index.
  destruct (res_local_paths resource !! 0) as [path|] eqn:Hpath.
  2:{ rewrite bind_raise_l. handler_case. }
  rewrite bind_ret_l.
  destruct (clip_raster env path bounds) as [[pxarray geotrans]|e0] eqn:Hclip.
  2:{ rewrite bind_call_raise. handler_case. }
  rewrite bind_call_ok. cbn [fst].
  destruct (length (shape env pxarray) <? 3)%nat eqn:Hdim.
  { left. eexists. split; [|reflexivity]. by repeat constructor. }
  apply Nat.ltb_ge in Hdim.
  destruct (rollaxis env pxarray 0 3) as [rolled|e0] eqn:Hroll.
  2:{ rewrite bind_call_raise. handler_case. }
  rewrite bind_call_ok.
  destruct (calculate_canopycover env rolled) as [ccVal|e0] eqn:Hcc.
  2:{ rewrite bind_call_raise. handler_case. }
  rewrite bind_call_ok.
  right; right.
  destruct (S n mod 10 =? 0)%nat;
    do 2 eexists; (split; [|split; [|reflexivity]]);
    [by repeat constructor|by eauto 10|by repeat constructor|by eauto 10].
Qed.

(** The two ways lines 123-138 end. *)
Lemma record_plot_cases timestamp traits plotname bounds (ccVal : Float) :
  constant_fields traits →
  let row := trait_row timestamp (str_float env ccVal) plotname in
  (∃ e, centroid_raises env bounds e ∧
     record_plot env host secret_key resource timestamp traits plotname bounds ccVal
       = ([EvWrite row], Raise e)) ∨
  (∃ coords lon lat,
     centroid_coordinates env bounds = Ok coords ∧
     coords !! 0 = Some lon ∧ coords !! 1 = Some lat ∧
     record_plot env host secret_key resource timestamp traits plotname bounds ccVal
       = ([EvWrite row; EvDatapoint (datapoint_of host resource timestamp lon lat ccVal)],
          match create_datapoint_with_dependencies env host secret_key
                  (datapoint_of host resource timestamp lon lat ccVal) with
          | Ok _ => Ok (updated_traits env timestamp plotname ccVal traits)
          | Raise e => Raise e
          end)).
Proof.
  intros Hconst row. unfold record_plot.
  fold (updated_traits env timestamp plotname ccVal traits).
  rewrite (generate_traits_list_updated _ _ _ _ Hconst), bind_ret_l.
  rewrite trait_row_csv_line. fold row.
  unfold centroid_raises, call, index.
  destruct (centroid_coordinates env bounds) as [coords|e] eqn:Hcen.
  2:{ left. exists e. split; [by left|reflexivity]. }
  destruct (coords !! 1) as [lat|] eqn:Hlat.
  2:{ left. exists IndexError. split; [right; eauto|].
      unfold bind; cbn. by rewrite Hlat. }
  destruct (coords !! 0) as [lon|] eqn:Hlon.
  2:{ left. exists IndexError. split; [right; eauto|].
      unfold bind; cbn. by rewrite Hlat, Hlon. }
  right. exists coords, lon, lat. repeat (split; [done|]).
  unfold bind; cbn. rewrite Hlat, Hlon; cbn.
  fold (datapoint_of host resource timestamp lon lat ccVal).
  by destruct (create_datapoint_with_dependencies env host secret_key _) as [[]|e].
Qed.

(** Every iteration has one of the four shapes. *)
Lemma process_plot_iteration timestamp nplots st plot :
  constant_fields st.2 →
  iteration env host secret_key resource timestamp st plot
    (process_plot env host secret_key resource timestamp nplots st plot).
Proof.
  intros Hconst. unfold process_plot.
  destruct (try_cases nplots st.1 plot.1 plot.2)
    as [(logs & Hlogs & ->)|[(logs & e & Hlogs & Hlog & ->)|(logs & cc & Hlogs & Hest & ->)]].
  - unfold bind; cbn. rewrite app_nil_r. by constructor.
  - unfold bind; cbn. by constructor.
  - destruct (record_plot_cases timestamp st.2 plot.1 plot.2 cc Hconst)
      as [(e & Hraise & Hrec)|(coords & lon & lat & Hcen & Hlon & Hlat & Hrec)].
    + unfold bind; cbn. rewrite Hrec; cbn. by econstructor.
    + unfold bind; cbn. rewrite Hrec; cbn.
      destruct (create_datapoint_with_dependencies env host secret_key _)
        as [[]|e] eqn:Hsend; cbn.
      * pose proof (iteration_dispatched env host secret_key resource timestamp
                      st plot logs cc coords lon lat Hlogs Hest Hcen Hlon Hlat) as H.
        by rewrite Hsend in H.
      * pose proof (iteration_dispatched env host secret_key resource timestamp
                      st plot logs cc coords lon lat Hlogs Hest Hcen Hlon Hlat) as H.
        by rewrite Hsend in H.
Qed.

End Iteration.

(** ** Reading traces piecewise *)

Section Reading.

Context {Float : Type}.
Implicit Types tr logs : list (Event Float).

Lemma csv_writes_app tr tr' : csv_writes (tr ++ tr') = (csv_writes tr ++ csv_writes tr')%list.
Proof. apply omap_app. Qed.

Lemma datapoints_app tr tr' : datapoints (tr ++ tr') = (datapoints tr ++ datapoints tr')%list.
Proof. apply omap_app. Qed.

Lemma opens_app tr tr' : opens (tr ++ tr') = (opens tr ++ opens tr')%list.
Proof. apply omap_app. Qed.

Lemma submits_app tr tr' : submits (tr ++ tr') = (submits tr ++ submits tr')%list.
Proof. apply omap_app. Qed.

Lemma summaries_app tr tr' : summaries (tr ++ tr') = (summaries tr ++ summaries tr')%list.
Proof. apply omap_app. Qed.

Lemma closes_app tr tr' : closes (tr ++ tr') = closes tr + closes tr'.
Proof. unfold closes. by rewrite omap_app, length_app. Qed.

Lemma outputs_app tr tr' : outputs (tr ++ tr') = (outputs tr ++ outputs tr')%list.
Proof. apply filter_app. Qed.

(** Log lines touch neither the file nor the remote services. *)
Lemma logs_silent logs :
  Forall (λ ev, is_log ev = true) logs →
  csv_writes logs = [] ∧ datapoints logs = [] ∧ opens logs = [] ∧
  closes logs = 0 ∧ submits logs = [] ∧ summaries logs = [] ∧ outputs logs = [].
Proof.
  induction 1 as [|ev logs Hev _ IH]; [done|].
  destruct IH as (? & ? & ? & ? & ? & ? & ?).
  unfold csv_writes, datapoints, opens, closes, submits, summaries, outputs in *.
  rewrite filter_cons.
  destruct ev; try discriminate Hev; simpl; by repeat split.
Qed.

Lemma omap_outputs {B} (f : Event Float → option B) tr :
  (∀ ev, is_log ev = true → f ev = None) →
  omap f (outputs tr) = omap f tr.
Proof.
  intros Hf. induction tr as [|ev tr IH]; [done|].
  unfold outputs. rewrite filter_cons. fold (outputs tr).
  destruct (decide (is_log ev = false)) as [Hev|Hev].
  - change (omap f (ev :: outputs tr))
      with (match f ev with Some y => y :: omap f (outputs tr) | None => omap f (outputs tr) end).
    change (omap f (ev :: tr))
      with (match f ev with Some y => y :: omap f tr | None => omap f tr end).
    by rewrite IH.
  - change (omap f (ev :: tr))
      with (match f ev with Some y => y :: omap f tr | None => omap f tr end).
    rewrite Hf by (by destruct (is_log ev)). exact IH.
Qed.

(** The file and the remote services see the trace without its log lines. *)
Lemma observed_outputs tr :
  csv_writes (outputs tr) = csv_writes tr ∧
  datapoints (outputs tr) = datapoints tr ∧
  closes (outputs tr) = closes tr ∧
  summaries (outputs tr) = summaries tr.
Proof.
  unfold csv_writes, datapoints, closes, summaries.
  rewrite !omap_outputs; [done|by intros []..].
Qed.

End Reading.

(** ** The loop over the plots *)

Section Loop.

Context {Float PxArray GeoTrans : Type}.
Variable env : Env Float PxArray GeoTrans.
Variables host secret_key : string.
Variable resource : Resource.
Variable timestamp : string.

Local Abbreviation Traits := (gmap string TraitVal).
Local Abbreviation iteration := (iteration env host secret_key resource timestamp).
Local Abbreviation iterations := (iterations env host secret_key resource timestamp).
Local Abbreviation the_plots := (process_plots env host secret_key resource timestamp).

Lemma iteration_constant_fields st plot tr st' :
  iteration st plot (tr, Ok st') → constant_fields st.2 → constant_fields st'.2.
Proof.
  inversion 1; subst; [done|].
  destruct (create_datapoint_with_dependencies _ _ _ _); [|discriminate].
  match goal with H : Ok _ = Ok _ |- _ => injection H as <- end.
  apply constant_fields_updated.
Qed.

Lemma process_plots_iterations nplots plots st :
  constant_fields st.2 →
  iterations plots st (the_plots nplots plots st).
Proof.
  revert st. induction plots as [|plot plots IH]; intros st Hconst; simpl.
  - constructor.
  - pose proof (process_plot_iteration env host secret_key resource timestamp
                  nplots st plot Hconst) as Hit.
    destruct (process_plot _ _ _ _ _ _ _ _) as [tr [st'|e]] eqn:Hplot.
    + rewrite bind_effect_ok.
      pose proof (iteration_constant_fields _ _ _ _ Hit Hconst) as Hconst'.
      specialize (IH st' Hconst').
      destruct (the_plots nplots plots st') as [tr' r]. by econstructor.
    + rewrite bind_effect_raise. by constructor.
Qed.

(** What one iteration leaves on the file and at the geostream store. *)
Lemma iteration_observed st plot tr r :
  iteration st plot (tr, r) →
  opens tr = [] ∧ closes tr = 0 ∧ submits tr = [] ∧ summaries tr = [] ∧
  ((csv_writes tr = [] ∧ datapoints tr = [] ∧ (r = Ok st ∨ ∃ e, r = Raise e)) ∨
   (∃ ccVal e,
      estimated env resource plot.2 ccVal ∧ centroid_raises env plot.2 e ∧
      csv_writes tr = [trait_row timestamp (str_float env ccVal) plot.1] ∧
      datapoints tr = [] ∧ r = Raise e) ∨
   (∃ ccVal coords lon lat,
      estimated env resource plot.2 ccVal ∧
      centroid_coordinates env plot.2 = Ok coords ∧
      coords !! 0 = Some lon ∧ coords !! 1 = Some lat ∧
      csv_writes tr = [trait_row timestamp (str_float env ccVal) plot.1] ∧
      datapoints tr = [datapoint_of host resource timestamp lon lat ccVal] ∧
      r = match create_datapoint_with_dependencies env host secret_key
                  (datapoint_of host resource timestamp lon lat ccVal) with
          | Ok _ => Ok (S st.1, updated_traits env timestamp plot.1 ccVal st.2)
          | Raise e => Raise e
          end)).
Proof.
  inversion 1 as [logs Hlogs|logs e Hlogs Hlog|logs cc e Hlogs Hest Hcen
                 |logs cc coords lon lat Hlogs Hest Hcen Hlon Hlat]; subst;
    match goal with
    | Hl : Forall _ ?l |- _ =>
        destruct (logs_silent l Hl) as (Hw & Hd & Ho & Hc & Hs & Hm & _)
    end.
  - repeat (split; [done|]). left. eauto.
  - repeat (split; [done|]). left. eauto.
  - rewrite opens_app, closes_app, submits_app, summaries_app, csv_writes_app,
      datapoints_app, Hw, Hd, Ho, Hc, Hs, Hm.
    repeat (split; [done|]). right; left. by exists cc, e.
  - rewrite opens_app, closes_app, submits_app, summaries_app, csv_writes_app,
      datapoints_app, Hw, Hd, Ho, Hc, Hs, Hm.
    repeat (split; [done|]). right; right. by exists cc, coords, lon, lat.
Qed.

(** The loop neither opens nor closes the file, and submits nothing. *)
Lemma iterations_handle plots st tr r :
  iterations plots st (tr, r) →
  opens tr = [] ∧ closes tr = 0 ∧ submits tr = [] ∧ summaries tr = [].
Proof.
  intros Hits. remember (tr, r) as m eqn:Hm. revert tr r Hm.
  induction Hits as [st|plot plots st tr0 e Hit|plot plots st tr0 st' tr' r' Hit Hits IH];
    intros tr r [= <- <-].
  - done.
  - by destruct (iteration_observed _ _ _ _ Hit) as (? & ? & ? & ? & _).
  - destruct (iteration_observed _ _ _ _ Hit) as (Ho & Hc & Hs & Hm & _).
    destruct (IH _ _ eq_refl) as (Ho' & Hc' & Hs' & Hm').
    by rewrite opens_app, closes_app, submits_app, summaries_app,
      Ho, Hc, Hs, Hm, Ho', Hc', Hs', Hm'.
Qed.

(** Rows and data points of a loop come in pairs, except for one last row
    when the loop was cut between the write and the hand-over. *)
Lemma iterations_pairs plots st tr r :
  iterations plots st (tr, r) →
  ∃ (pairs : list (string * Datapoint Float)) (extra : list string),
    csv_writes tr = (pairs.*1 ++ extra)%list ∧
    datapoints tr = pairs.*2 ∧
    Forall (λ p, recorded env host resource timestamp plots p.1 p.2) pairs ∧
    (extra = [] ∨
     ∃ row e, extra = [row] ∧ r = Raise e ∧
              orphan_row env resource timestamp plots row e).
Proof.
  intros Hits. remember (tr, r) as m eqn:Hm. revert tr r Hm.
  induction Hits as [st|plot plots st tr0 e Hit|plot plots st tr0 st' tr' r' Hit Hits IH];
    intros tr r [= <- <-].
  - exists [], []. repeat split; [constructor|by left].
  - destruct (iteration_observed _ _ _ _ Hit) as (_ & _ & _ & _ & Hcases).
    destruct Hcases as [(Hw & Hd & _)|[(cc & e' & Hest & Hcen & Hw & Hd & [= ->])
      |(cc & coords & lon & lat & Hest & Hcen & Hlon & Hlat & Hw & Hd & Hr)]].
    + exists [], []. rewrite Hw, Hd. repeat split; [constructor|by left].
    + exists [], [trait_row timestamp (str_float env cc) plot.1].
      rewrite Hw, Hd. repeat split; [constructor|].
      right. do 2 eexists. repeat split.
      exists plot.1, plot.2, cc. destruct plot. repeat split; try done. apply elem_of_cons; by left.
    + eexists [(_, _)], []. rewrite Hw, Hd. repeat split; [|by left].
      constructor; [|constructor].
      exists plot.1, plot.2, cc, coords, lon, lat. destruct plot.
      repeat split; try done. apply elem_of_cons; by left.
  - destruct (iteration_observed _ _ _ _ Hit) as (_ & _ & _ & _ & Hcases).
    destruct (IH _ _ eq_refl) as (pairs & extra & Hw' & Hd' & Hrec & Hextra).
    assert (Hweak : ∀ row dp, recorded env host resource timestamp plots row dp →
                              recorded env host resource timestamp (plot :: plots) row dp).
    { intros row dp (n & b & c & co & lo & la & Hin & Hrest).
      exists n, b, c, co, lo, la. split; [apply elem_of_cons; by right|done]. }
    assert (Hextra' : extra = [] ∨
              ∃ row e, extra = [row] ∧ r' = Raise e ∧
                       orphan_row env resource timestamp (plot :: plots) row e).
    { destruct Hextra as [->|(row & e & -> & -> & n & b & c & Hin & Hrest)]; [by left|].
      right. exists row, e. repeat split. exists n, b, c. split; [apply elem_of_cons; by right|done]. }
    rewrite csv_writes_app, datapoints_app, Hw', Hd'.
    destruct Hcases as [(Hw & Hd & _)|[(cc & e' & _ & _ & _ & _ & [=])
      |(cc & coords & lon & lat & Hest & Hcen & Hlon & Hlat & Hw & Hd & Hr)]].
    + exists pairs, extra. rewrite Hw, Hd. repeat split; [|done].
      eapply Forall_impl; [exact Hrec|]. intros []; apply Hweak.
    + exists ((trait_row timestamp (str_float env cc) plot.1,
               datapoint_of host resource timestamp lon lat cc) :: pairs), extra.
      rewrite Hw, Hd. repeat split; [|done].
      constructor.
      * exists plot.1, plot.2, cc, coords, lon, lat. destruct plot.
        repeat split; try done. apply elem_of_cons; by left.
      * eapply Forall_impl; [exact Hrec|]. intros []; apply Hweak.
Qed.

(** A data point that the store refuses ends the run. *)
Lemma iterations_refused plots st tr r dp e :
  iterations plots st (tr, r) →
  dp ∈ datapoints tr →
  create_datapoint_with_dependencies env host secret_key dp = Raise e →
  r = Raise e ∧ last (datapoints tr) = Some dp.
Proof.
  intros Hits. remember (tr, r) as m eqn:Hm. revert tr r Hm.
  induction Hits as [st|plot plots st tr0 e0 Hit|plot plots st tr0 st' tr' r' Hit Hits IH];
    intros tr r [= <- <-] Hin Hsend.
  - by apply elem_of_nil in Hin.
  - destruct (iteration_observed _ _ _ _ Hit) as (_ & _ & _ & _ & Hcases).
    destruct Hcases as [(_ & Hd & _)|[(cc & e' & _ & _ & _ & Hd & _)
      |(cc & coords & lon & lat & _ & _ & _ & _ & _ & Hd & Hr)]];
      rewrite Hd in Hin |- *.
    + by apply elem_of_nil in Hin.
    + by apply elem_of_nil in Hin.
    + apply list_elem_of_singleton in Hin as ->.
      rewrite Hsend in Hr. by injection Hr as ->.
  - destruct (iteration_observed _ _ _ _ Hit) as (_ & _ & _ & _ & Hcases).
    rewrite datapoints_app in Hin |- *.
    assert (Hrest : dp ∈ datapoints tr' → r' = Raise e ∧
              last (datapoints tr0 ++ datapoints tr') = Some dp).
    { intros Hin'. destruct (IH _ _ eq_refl Hin' Hsend) as [-> Hlast].
      split; [done|]. destruct (datapoints tr') as [|d ds]; [done|].
      by rewrite last_app_cons. }
    destruct Hcases as [(_ & Hd & _)|[(cc & e' & _ & _ & _ & Hd & _)
      |(cc & coords & lon & lat & _ & _ & _ & _ & _ & Hd & Hr)]];
      rewrite Hd in Hin, Hrest |- *.
    + apply Hrest. by rewrite app_nil_l in Hin.
    + apply Hrest. by rewrite app_nil_l in Hin.
    + apply elem_of_app in Hin as [Hin|Hin]; [|by apply Hrest].
      apply list_elem_of_singleton in Hin as ->.
      by rewrite Hsend in Hr.
Qed.

(** Lines 110-112: a flat clip is logged and the plot skipped; the state is
    as before. *)
Lemma process_plot_flat nplots st plotname bounds :
  flat_plot env resource bounds →
  ∃ msg, process_plot env host secret_key resource timestamp nplots st (plotname, bounds) =
           ([EvLogError msg], Ok st).
Proof.
  intros (path & pxarray & geotrans & Hpath & Hclip & Hdim).
  unfold process_plot, clip_and_estimate, index. cbn [fst snd].
  rewrite Hpath, bind_ret_l, Hclip, bind_call_ok. cbn [fst].
  apply Nat.ltb_lt in Hdim. rewrite Hdim.
  eexists. reflexivity.
Qed.

Lemma process_plots_all_flat nplots plots st :
  Forall (λ plot, flat_plot env resource plot.2) plots →
  (the_plots nplots plots st).2 = Ok st.
Proof.
  induction 1 as [|[plotname bounds] plots Hflat _ IH]; [done|].
  cbn [process_plots].
  destruct (process_plot_flat nplots st plotname bounds Hflat) as [msg ->].
  rewrite bind_effect_ok. exact IH.
Qed.

(** [len(all_plots)] only shows in the progress messages. *)
Lemma process_plot_nplots nplots nplots' st plot :
  outputs (process_plot env host secret_key resource timestamp nplots st plot).1 =
  outputs (process_plot env host secret_key resource timestamp nplots' st plot).1 ∧
  (process_plot env host secret_key resource timestamp nplots st plot).2 =
  (process_plot env host secret_key resource timestamp nplots' st plot).2.
Proof.
  unfold process_plot, clip_and_estimate, index.
  destruct (res_local_paths resource !! 0) as [path|]; [|done].
  rewrite !bind_ret_l.
  destruct (clip_raster env path plot.2) as [[pxarray geotrans]|e0]; [|done].
  rewrite !bind_call_ok. cbn [fst].
  destruct (length (shape env pxarray) <? 3)%nat; [done|].
  destruct (rollaxis env pxarray 0 3) as [rolled|e0]; [|done].
  rewrite !bind_call_ok.
  destruct (calculate_canopycover env rolled) as [ccVal|e0]; [|done].
  rewrite !bind_call_ok.
  destruct (record_plot env host secret_key resource timestamp st.2 plot.1 plot.2 ccVal)
    as [tr [traits|e]] eqn:Hrec;
    destruct (S st.1 mod 10 =? 0)%nat;
    unfold try_except, bind, emit, ret; cbn [fst snd]; rewrite Hrec; done.
Qed.

Lemma process_plots_nplots nplots nplots' plots st :
  outputs (the_plots nplots plots st).1 = outputs (the_plots nplots' plots st).1 ∧
  (the_plots nplots plots st).2 = (the_plots nplots' plots st).2.
Proof.
  revert st. induction plots as [|plot plots IH]; intros st; [done|].
  cbn [process_plots].
  destruct (process_plot_nplots nplots nplots' st plot) as [Hout Hres].
  destruct (process_plot env host secret_key resource timestamp nplots st plot)
    as [tr [st'|e]],
    (process_plot env host secret_key resource timestamp nplots' st plot)
    as [tr' [st''|e']]; cbn [fst snd] in *; try discriminate Hres.
  - injection Hres as <-. rewrite !bind_effect_ok. cbn [fst snd].
    destruct (IH st') as [Hout' Hres'].
    by rewrite !outputs_app, Hout, Hout', Hres'.
  - injection Hres as <-. by rewrite !bind_effect_raise.
Qed.

(** A flat plot in the registry changes nothing but the log. *)
Lemma process_plots_without_flat nplots nplots' before plotname bounds after st :
  flat_plot env resource bounds →
  outputs (the_plots nplots (before ++ (plotname, bounds) :: after) st).1 =
  outputs (the_plots nplots' (before ++ after) st).1 ∧
  (the_plots nplots (before ++ (plotname, bounds) :: after) st).2 =
  (the_plots nplots' (before ++ after) st).2.
Proof.
  intros Hflat.
  destruct (process_plots_nplots nplots' nplots (before ++ after) st) as [-> ->].
  revert st. induction before as [|plot before IH]; intros st.
  - cbn [app process_plots].
    destruct (process_plot_flat nplots st plotname bounds Hflat) as [msg ->].
    rewrite bind_effect_ok. cbn [fst snd]. by rewrite outputs_app.
  - cbn [app process_plots].
    destruct (process_plot env host secret_key resource timestamp nplots st plot)
      as [tr [st'|e]].
    + rewrite !bind_effect_ok. cbn [fst snd].
      destruct (IH st') as [Hout Hres]. by rewrite !outputs_app, Hout, Hres.
    + by rewrite !bind_effect_raise.
Qed.

End Loop.

(** ** Python strings: counting cells, replacing a suffix *)

Section Strings.

Lemma prefix_empty s : String.prefix EmptyString s = true.
Proof. by destruct s. Qed.

Lemma prefix_refl s : String.prefix s s = true.
Proof.
  induction s as [|c s IH]; [done|]. simpl.
  by destruct (ascii_dec c c).
Qed.

Lemma append_cons c s t : String c s +:+ t = String c (s +:+ t).
Proof. reflexivity. Qed.

Lemma append_empty_l s : EmptyString +:+ s = s.
Proof. reflexivity. Qed.

Lemma append_empty_r s : s +:+ EmptyString = s.
Proof. induction s as [|c s IH]; [done|]. by rewrite append_cons, IH. Qed.

Lemma count_char_app c s t :
  PyStr.count_char c (s +:+ t) = PyStr.count_char c s + PyStr.count_char c t.
Proof.
  induction s as [|d s IH]; [done|].
  rewrite append_cons. cbn [PyStr.count_char]. rewrite IH. lia.
Qed.

Lemma commas_app s t : commas (s +:+ t) = commas s + commas t.
Proof. apply count_char_app. Qed.

(** Splitting at the commas gives one cell more than there are commas. *)
Lemma cells_length s : length (cells s) = S (commas s).
Proof.
  unfold cells, PyStr.split, commas.
  induction s as [|c s IH]; [done|].
  cbn [PyStr.split_go PyStr.count_char String.prefix].
  destruct (ascii_dec ","%char c) as [<-|Hne].
  - rewrite prefix_empty. cbn [String.length Nat.sub length].
    rewrite IH. reflexivity.
  - assert (Ascii.eqb c ","%char = false) as ->
      by (apply Ascii.eqb_neq; congruence).
    destruct (PyStr.split_go "," 0 s) as [|cell rest]; [discriminate IH|].
    exact IH.
Qed.

Lemma commas_trait_row timestamp cc site :
  commas (trait_row timestamp cc site) = 9 + commas timestamp + commas cc + commas site.
Proof.
  unfold trait_row, csv_line, PyStr.join. cbn [String.concat].
  rewrite !commas_app.
  change (commas ",") with 1.
  change (commas "T12:00:00") with 0.
  change (commas "2") with 0.
  change (commas "Sorghum bicolor") with 0.
  change (commas citation_author) with 1.
  change (commas "2016") with 0.
  change (commas "Maricopa Field Station Data and Metadata") with 0.
  change (commas "Canopy Cover Estimation from RGB images") with 0.
  change (commas nl) with 0.
  lia.
Qed.

Lemma replace_go_skip_all old new k s :
  (String.length s ≤ k)%nat → PyStr.replace_go old new k s = EmptyString.
Proof.
  revert k. induction s as [|c s IH]; intros k Hk; [done|].
  destruct k as [|k]; simpl in Hk; [lia|].
  simpl. apply IH. lia.
Qed.

(** [replace] turns a name that ends in [old], and has no other occurrence
    of it, into the same name with [new] at the end. *)
Lemma replace_suffix old new stem :
  old ≠ EmptyString →
  matches_within old (String.length stem) (stem +:+ old) = false →
  PyStr.replace old new (stem +:+ old) = stem +:+ new.
Proof.
  intros Hold. unfold PyStr.replace.
  induction stem as [|c stem IH]; intros Hclean.
  - destruct old as [|c old]; [done|].
    rewrite !append_empty_l. cbn [PyStr.replace_go].
    rewrite prefix_refl.
    rewrite replace_go_skip_all by (simpl; lia).
    apply append_empty_r.
  - rewrite append_cons in Hclean. cbn [String.length matches_within] in Hclean.
    apply orb_false_elim in Hclean as [Hhere Hlater].
    rewrite !append_cons. cbn [PyStr.replace_go].
    rewrite Hhere.
    by rewrite (IH Hlater).
Qed.

End Strings.

(** ** The run as a whole *)

Section Anatomy.

Context {Float PxArray GeoTrans : Type}.
Variable env : Env Float PxArray GeoTrans.
Variable self : Extractor.
Variables host secret_key : string.
Variable resource : Resource.

Local Abbreviation the_run := (process_message env self host secret_key resource).
Local Abbreviation the_loop := (enumerate_and_loop env host secret_key resource).
Local Abbreviation the_report := (close_and_report env self host secret_key resource).
Local Abbreviation the_plots := (process_plots env host secret_key resource).

Lemma header_line_fields : csv_line fields = header_line.
Proof. reflexivity. Qed.

(** Lines 86-98, then the loop, then the report. *)
Lemma process_message_eq :
  the_run =
    match get_info_name env host secret_key (res_parent_id resource) with
    | Raise e => ([EvStart], Raise e)
    | Ok ds_name =>
        match PyStr.split " - " ds_name !! 1 with
        | None => ([EvStart], Raise IndexError)
        | Some timestamp =>
            let rest :=
              counts <- the_loop timestamp default_traits ;;
              the_report (out_csv_path resource) counts.1 counts.2 in
            ([EvStart;
              EvLogInfo ("Writing CSV to " +:+ out_csv_path resource);
              EvOpen (out_csv_path resource);
              EvWrite header_line] ++ rest.1, rest.2)%list
        end
    end.
Proof.
  unfold process_message. rewrite bind_emit.
  destruct (get_info_name env host secret_key (res_parent_id resource))
    as [ds_name|e]; [|reflexivity].
  rewrite bind_call_ok. unfold index.
  destruct (PyStr.split " - " ds_name !! 1) as [timestamp|]; [|reflexivity].
  rewrite bind_ret_l. reflexivity.
Qed.

Lemma enumerate_and_loop_eq timestamp traits :
  the_loop timestamp traits =
    match get_site_boundaries env timestamp "Maricopa" with
    | Raise e => ([], Raise e)
    | Ok plots =>
        let loop := the_plots timestamp (length plots) plots (0, traits) in
        (EvLogInfo ("found " +:+ pretty (length plots) +:+ " plots on " +:+ timestamp)
           :: loop.1,
         match loop.2 with
         | Ok st => Ok (st.1, length plots)
         | Raise e => Raise e
         end)
    end.
Proof.
  unfold enumerate_and_loop.
  destruct (get_site_boundaries env timestamp "Maricopa") as [plots|e]; [|reflexivity].
  rewrite bind_call_ok, bind_emit.
  destruct (the_plots timestamp (length plots) plots (0, traits)) as [tr [st|e]];
    [|reflexivity].
  rewrite bind_effect_ok. cbn. by rewrite app_nil_r.
Qed.

(** Lines 141-154 close the file once and write nothing; the outcome of a
    report that got through the upload is the outcome of line 154. *)
Lemma close_and_report_eq out n len :
  the_report out n len =
    let summary :=
      {| plots_processed := n;
         plots_skipped := Z.of_nat len - Z.of_nat n;
         betydb_link :=
           "https://terraref.ncsa.illinois.edu/bety/api/beta/variables?name=canopy_cover" |} in
    let md := build_metadata host (extractor_info self) (res_parent_id resource)
                summary "dataset" in
    match submit_traits env out (bety_key self) with
    | Raise e =>
        ([EvClose; EvLogInfo "submitting CSV to bety"; EvSubmit out (bety_key self)],
         Raise e)
    | Ok _ =>
        match upload_metadata env host secret_key (res_parent_id resource) md with
        | Raise e =>
            ([EvClose; EvLogInfo "submitting CSV to bety"; EvSubmit out (bety_key self);
              EvLogInfo ("updating dataset metadata (" +:+ res_parent_id resource +:+ ")");
              EvUpload (res_parent_id resource) md], Raise e)
        | Ok _ =>
            ([EvClose; EvLogInfo "submitting CSV to bety"; EvSubmit out (bety_key self);
              EvLogInfo ("updating dataset metadata (" +:+ res_parent_id resource +:+ ")");
              EvUpload (res_parent_id resource) md; EvEnd],
             end_message_no_resource env)
        end
    end.
Proof.
  unfold close_and_report. rewrite !bind_emit.
  destruct (submit_traits env out (bety_key self)) as [[]|e]; [|reflexivity].
  rewrite bind_effect_ok.
  destruct (upload_metadata env host secret_key _ _) as [[]|e]; [|reflexivity].
  rewrite bind_effect_ok. cbn [fst snd].
  by destruct (end_message_no_resource env).
Qed.

Lemma the_report_observed out n len :
  csv_writes (the_report out n len).1 = [] ∧
  datapoints (the_report out n len).1 = [] ∧
  opens (the_report out n len).1 = [] ∧
  closes (the_report out n len).1 = 1 ∧
  Forall (λ s, plots_processed s = n ∧
               plots_skipped s = (Z.of_nat len - Z.of_nat n)%Z)
         (summaries (the_report out n len).1).
Proof.
  rewrite close_and_report_eq. cbn zeta.
  destruct (submit_traits env out (bety_key self)) as [[]|e].
  - destruct (upload_metadata env host secret_key _ _) as [[]|e];
      repeat split; by repeat constructor.
  - repeat split; by repeat constructor.
Qed.

Lemma the_report_summaries out n len :
  summaries (the_report out n len).1 =
    match submit_traits env out (bety_key self) with
    | Ok _ =>
        [ {| plots_processed := n;
             plots_skipped := Z.of_nat len - Z.of_nat n;
             betydb_link :=
               "https://terraref.ncsa.illinois.edu/bety/api/beta/variables?name=canopy_cover" |} ]
    | Raise _ => []
    end.
Proof.
  rewrite close_and_report_eq. cbn zeta.
  destruct (submit_traits env out (bety_key self)) as [[]|e]; [|done].
  by destruct (upload_metadata env host secret_key _ _) as [[]|e].
Qed.

(** What a run that got as far as the plot registry leaves behind, in terms
    of its loop. *)
Lemma run_observed timestamp plots :
  enumerated env host secret_key resource timestamp plots →
  let loop := the_plots timestamp (length plots) plots (0, default_traits) in
  csv_writes the_run.1 = header_line :: csv_writes loop.1 ∧
  datapoints the_run.1 = datapoints loop.1 ∧
  opens the_run.1 = [out_csv_path resource] ∧
  closes the_run.1 = match loop.2 with Ok _ => 1 | Raise _ => 0 end ∧
  summaries the_run.1 =
    match loop.2 with
    | Ok st => summaries (the_report (out_csv_path resource) st.1 (length plots)).1
    | Raise _ => []
    end ∧
  the_run.2 =
    match loop.2 with
    | Ok st => (the_report (out_csv_path resource) st.1 (length plots)).2
    | Raise e => Raise e
    end.
Proof.
  intros (ds_name & Hinfo & Hts & Hplots) loop.
  pose proof (process_plots_iterations env host secret_key resource timestamp
                (length plots) plots (0, default_traits) constant_fields_default) as Hits.
  fold loop in Hits.
  rewrite process_message_eq, Hinfo, Hts. cbn zeta.
  rewrite enumerate_and_loop_eq, Hplots. cbn zeta. fold loop.
  destruct loop as [tr [st|e]] eqn:Hloop.
  - destruct (iterations_handle _ _ _ _ _ _ _ _ _ Hits) as (Ho & Hc & _ & Hm).
    destruct (the_report_observed (out_csv_path resource) st.1 (length plots))
      as (Hw' & Hd' & Ho' & Hc' & _).
    cbn [fst snd]. rewrite bind_effect_ok. cbn [fst snd].
    unfold csv_writes, datapoints, opens, closes, summaries in *.
    cbn -[header_line out_csv_path pretty close_and_report].
    rewrite !omap_app, length_app, Ho, Hm, Hw', Hd', Ho', Hc'.
    apply length_zero_iff_nil in Hc. rewrite Hc, !app_nil_r.
    by repeat split.
  - destruct (iterations_handle _ _ _ _ _ _ _ _ _ Hits) as (Ho & Hc & _ & Hm).
    cbn [fst snd]. rewrite bind_effect_raise. cbn [fst snd].
    unfold csv_writes, datapoints, opens, closes, summaries in *.
    cbn -[header_line out_csv_path pretty].
    rewrite Ho, Hm, Hc. by repeat split.
Qed.

(** The three ways a run goes: it stops before the file is opened, it stops
    at the plot registry, or it enters the loop. *)
Lemma run_cases :
  (∃ e, the_run = ([EvStart], Raise e)) ∨
  (∃ e, the_run = ([EvStart;
                    EvLogInfo ("Writing CSV to " +:+ out_csv_path resource);
                    EvOpen (out_csv_path resource);
                    EvWrite header_line], Raise e)) ∨
  (∃ timestamp plots, enumerated env host secret_key resource timestamp plots).
Proof.
  rewrite process_message_eq. unfold enumerated.
  destruct (get_info_name env host secret_key (res_parent_id resource))
    as [ds_name|e] eqn:Hinfo; [|left; by eexists].
  destruct (PyStr.split " - " ds_name !! 1) as [timestamp|] eqn:Hts;
    [|left; by eexists].
  cbn zeta. rewrite enumerate_and_loop_eq.
  destruct (get_site_boundaries env timestamp "Maricopa") as [plots|e] eqn:Hplots.
  - right; right. exists timestamp, plots, ds_name. by rewrite Hts.
  - right; left. by eexists.
Qed.

End Anatomy.

(** ** Properties of a run *)

Section Claims.

Context {Float PxArray GeoTrans : Type}.
Variable env : Env Float PxArray GeoTrans.
Variable self : Extractor.
Variables host secret_key : string.
Variable resource : Resource.

Local Abbreviation the_run := (process_message env self host secret_key resource).
Local Abbreviation the_loop := (enumerate_and_loop env host secret_key resource).
Local Abbreviation the_plots := (process_plots env host secret_key resource).

(** The trait row of a plot is the row of the default record updated by
    lines 123-125. *)
Lemma record_row_updated timestamp plotname (ccVal : Float) :
  record_row (updated_traits env timestamp plotname ccVal default_traits) =
    Some (trait_row timestamp (str_float env ccVal) plotname).
Proof. reflexivity. Qed.

(** Every row the loop writes is the trait row of an estimated plot. *)
Lemma loop_rows timestamp plots st tr r :
  iterations env host secret_key resource timestamp plots st (tr, r) →
  Forall (λ row, ∃ plotname bounds ccVal,
            (plotname, bounds) ∈ plots ∧
            estimated env resource bounds ccVal ∧
            row = trait_row timestamp (str_float env ccVal) plotname)
         (csv_writes tr).
Proof.
  intros Hits.
  destruct (iterations_pairs _ _ _ _ _ _ _ _ _ Hits)
    as (pairs & extra & -> & _ & Hrec & Hextra).
  apply Forall_app. split.
  - apply Forall_fmap. eapply Forall_impl; [exact Hrec|].
    intros [row dp] (n & b & c & co & lo & la & Hin & Hest & _ & _ & _ & Hrow & _).
    by exists n, b, c.
  - destruct Hextra as [->|(row & e & -> & _ & n & b & c & Hin & Hest & _ & ->)];
      [constructor|].
    constructor; [|constructor]. by exists n, b, c.
Qed.

(** Every data point of the loop is the one lines 130-138 build for an
    estimated plot. *)
Lemma loop_datapoints timestamp plots st tr r :
  iterations env host secret_key resource timestamp plots st (tr, r) →
  Forall (λ dp, ∃ row, recorded env host resource timestamp plots row dp)
         (datapoints tr).
Proof.
  intros Hits.
  destruct (iterations_pairs _ _ _ _ _ _ _ _ _ Hits)
    as (pairs & extra & _ & -> & Hrec & _).
  apply Forall_fmap. eapply Forall_impl; [exact Hrec|].
  intros [row dp] Hpair. by exists row.
Qed.

(** C1, as the code has it: the rows below the header and the data points
    handed to the geostream store come in pairs, one pair per recorded plot,
    in the same order and with the same canopy-cover value; the only row
    without a data point is the last one of a run that raised between the
    write and the hand-over, when the centroid of the plot could not be
    read. *)
Theorem rows_and_datapoints_paired :
  ∃ (pairs : list (string * Datapoint Float)) (extra : list string),
    data_rows the_run.1 = (pairs.*1 ++ extra)%list ∧
    datapoints the_run.1 = pairs.*2 ∧
    Forall (λ p, run_recorded env host secret_key resource p.1 p.2) pairs ∧
    (extra = [] ∨
     ∃ row e, extra = [row] ∧ the_run.2 = Raise e ∧
              run_orphan_row env host secret_key resource row e).
Proof.
  destruct (run_cases env self host secret_key resource)
    as [(e & ->)|[(e & ->)|(timestamp & plots & Henum)]].
  - exists [], []. repeat split; [constructor|by left].
  - exists [], []. repeat split; [constructor|by left].
  - destruct (run_observed env self host secret_key resource timestamp plots Henum)
      as (Hw & -> & _ & _ & _ & Hres).
    unfold data_rows. rewrite Hw, Hres. clear Hw Hres. cbn [tail].
    pose proof (process_plots_iterations env host secret_key resource timestamp
                  (length plots) plots (0, default_traits) constant_fields_default) as Hits.
    destruct (the_plots timestamp (length plots) plots (0, default_traits)) as [tr r].
    destruct (iterations_pairs _ _ _ _ _ _ _ _ _ Hits)
      as (pairs & extra & Hw & Hd & Hrec & Hextra).
    exists pairs, extra. cbn [fst snd]. repeat split; [done..| |].
    + eapply Forall_impl; [exact Hrec|]. intros [row dp] Hpair.
      by exists timestamp, plots.
    + destruct Hextra as [->|(row & e & -> & -> & Horphan)]; [by left|].
      right. exists row, e. repeat split. by exists timestamp, plots.
Qed.

(** C3, as the code has it: the hand-over of the data point comes after the
    per-plot [try] statement, so an exception it raises is not caught: it
    ends the run.  The refused data point is the last one handed over, the
    file is never closed and no summary is attached to the dataset. *)
Theorem refused_datapoint_ends_run dp e :
  dp ∈ datapoints the_run.1 →
  create_datapoint_with_dependencies env host secret_key dp = Raise e →
  the_run.2 = Raise e ∧
  last (datapoints the_run.1) = Some dp ∧
  closes the_run.1 = 0 ∧
  summaries the_run.1 = [].
Proof.
  destruct (run_cases env self host secret_key resource)
    as [(e' & ->)|[(e' & ->)|(timestamp & plots & Henum)]].
  - intros Hin. by apply elem_of_nil in Hin.
  - intros Hin. by apply elem_of_nil in Hin.
  - destruct (run_observed env self host secret_key resource timestamp plots Henum)
      as (_ & -> & _ & -> & -> & ->).
    pose proof (process_plots_iterations env host secret_key resource timestamp
                  (length plots) plots (0, default_traits) constant_fields_default) as Hits.
    destruct (the_plots timestamp (length plots) plots (0, default_traits)) as [tr r].
    intros Hin Hsend. cbn [fst snd] in *.
    destruct (iterations_refused _ _ _ _ _ _ _ _ _ _ _ Hits Hin Hsend) as [-> Hlast].
    by repeat split.
Qed.

(** C4, as the code has it: the file is opened once, and closed exactly once
    when enumeration and the plot loop return, whatever the number of plots
    and of plots skipped, and whatever happens after the close; when
    enumeration or the loop raises, the handle is not closed at all.  In
    particular a registry whose plots all clip to flat arrays (or that has
    no plot) has its file closed once. *)
Theorem handle_closed_iff_loop_returns ds_name timestamp :
  get_info_name env host secret_key (res_parent_id resource) = Ok ds_name →
  PyStr.split " - " ds_name !! 1 = Some timestamp →
  opens the_run.1 = [out_csv_path resource] ∧
  closes the_run.1 =
    match (the_loop timestamp default_traits).2 with
    | Ok _ => 1
    | Raise _ => 0
    end ∧
  (∀ plots, get_site_boundaries env timestamp "Maricopa" = Ok plots →
            Forall (λ plot, flat_plot env resource plot.2) plots →
            closes the_run.1 = 1).
Proof.
  intros Hinfo Hts.
  assert (Hmain : opens the_run.1 = [out_csv_path resource] ∧
            closes the_run.1 =
              match (the_loop timestamp default_traits).2 with
              | Ok _ => 1
              | Raise _ => 0
              end).
  { rewrite enumerate_and_loop_eq.
    destruct (get_site_boundaries env timestamp "Maricopa") as [plots|e] eqn:Hplots.
    - assert (Henum : enumerated env host secret_key resource timestamp plots)
        by (by exists ds_name).
      destruct (run_observed env self host secret_key resource timestamp plots Henum)
        as (_ & _ & -> & -> & _).
      cbn zeta. cbn [snd].
      by destruct (the_plots timestamp (length plots) plots (0, default_traits)) as [tr [st|e]].
    - rewrite process_message_eq, Hinfo, Hts. cbn zeta.
      rewrite enumerate_and_loop_eq, Hplots. done. }
  destruct Hmain as [Hopen Hclose]. repeat split; [done..|].
  intros plots Hplots Hflat. rewrite Hclose, enumerate_and_loop_eq, Hplots.
  cbn zeta. cbn [snd].
  rewrite (process_plots_all_flat env host secret_key resource timestamp); done.
Qed.

(** A run on an empty registry goes from the header straight to the report;
    when the bulk submission and the metadata upload return, its outcome is
    the outcome of the [self.end_message()] call of line 154. *)
Lemma empty_registry_run ds_name timestamp :
  get_info_name env host secret_key (res_parent_id resource) = Ok ds_name →
  PyStr.split " - " ds_name !! 1 = Some timestamp →
  get_site_boundaries env timestamp "Maricopa" = Ok [] →
  submit_traits env (out_csv_path resource) (bety_key self) = Ok tt →
  upload_metadata env host secret_key (res_parent_id resource)
    (build_metadata host (extractor_info self) (res_parent_id resource)
       {| plots_processed := 0; plots_skipped := 0;
          betydb_link :=
            "https://terraref.ncsa.illinois.edu/bety/api/beta/variables?name=canopy_cover" |}
       "dataset") = Ok tt →
  the_run.2 = end_message_no_resource env ∧
  last the_run.1 = Some EvEnd ∧
  csv_writes the_run.1 = [header_line] ∧
  datapoints the_run.1 = [] ∧
  closes the_run.1 = 1 ∧
  summaries the_run.1 =
    [ {| plots_processed := 0; plots_skipped := 0;
         betydb_link :=
           "https://terraref.ncsa.illinois.edu/bety/api/beta/variables?name=canopy_cover" |} ].
Proof.
  intros Hinfo Hts Hplots Hsubmit Hupload.
  rewrite process_message_eq, Hinfo, Hts. cbn zeta.
  rewrite enumerate_and_loop_eq, Hplots. cbn zeta. cbn [process_plots fst snd ret].
  rewrite bind_effect_ok. cbn [fst snd length].
  rewrite close_and_report_eq. cbn zeta.
  change (Z.of_nat 0 - Z.of_nat 0)%Z with 0%Z.
  rewrite Hsubmit, Hupload.
  by repeat split.
Qed.

(** C10, as the code has it: the default [citation_author] is
    ['"Zongyang, Li"'], which holds one comma; the header splits into 9
    cells and every data row into at least 10, so no row lines up with the
    header.  A row has exactly 10 cells when the date, the printed
    canopy-cover value and the plot name hold no comma, and one more for
    each comma they hold. *)
Theorem rows_have_ten_cells_or_more :
  py_str <$> default_traits !! "citation_author" = Some citation_author ∧
  commas citation_author = 1 ∧
  length (cells header_line) = 9 ∧
  Forall (λ row,
            (10 ≤ length (cells row))%nat ∧
            ∃ timestamp plots plotname bounds ccVal,
              enumerated env host secret_key resource timestamp plots ∧
              (plotname, bounds) ∈ plots ∧
              row = trait_row timestamp (str_float env ccVal) plotname ∧
              length (cells row) =
                10 + commas timestamp + commas (str_float env ccVal) + commas plotname)
         (data_rows the_run.1).
Proof.
  repeat split; [reflexivity..|].
  unfold data_rows.
  destruct (run_cases env self host secret_key resource)
    as [(e & ->)|[(e & ->)|(timestamp & plots & Henum)]]; [constructor..|].
  destruct (run_observed env self host secret_key resource timestamp plots Henum)
    as (-> & _).
  cbn [tail].
  pose proof (process_plots_iterations env host secret_key resource timestamp
                (length plots) plots (0, default_traits) constant_fields_default) as Hits.
  destruct (the_plots timestamp (length plots) plots (0, default_traits)) as [tr r].
  eapply Forall_impl; [exact (loop_rows _ _ _ _ _ Hits)|].
  intros row (n & b & c & Hin & _ & ->).
  rewrite cells_length, commas_trait_row.
  split; [lia|]. exists timestamp, plots, n, b, c.
  split; [done|]. split; [done|]. split; [done|lia].
Qed.

End Claims.

(** ** The handler of line 119 and the output path of line 91 *)

Section Slips.

Context {Float PxArray GeoTrans : Type}.
Variable env : Env Float PxArray GeoTrans.
Variables host secret_key : string.
Variable resource : Resource.

(** When clipping raises, the iteration is what the handler's own
    [log_error] call makes of it: the plot is skipped if the call returns,
    and the exception of the call escapes the loop if it raises. *)
Lemma process_plot_clip_raised timestamp nplots st plotname bounds path e0 :
  res_local_paths resource !! 0 = Some path →
  clip_raster env path bounds = Raise e0 →
  process_plot env host secret_key resource timestamp nplots st (plotname, bounds) =
    ([EvLogErrorMsgOnly ("error generating cc for " +:+ plotname)],
     match log_error_msg_only env ("error generating cc for " +:+ plotname) with
     | Ok _ => Ok st
     | Raise e => Raise e
     end).
Proof.
  intros Hpath Hclip.
  unfold process_plot, clip_and_estimate, index. cbn [fst snd].
  rewrite Hpath, bind_ret_l, Hclip, bind_call_raise, try_except_raise.
  unfold on_error.
  by destruct (log_error_msg_only env _) as [[]|e].
Qed.

(** X17: for a name that ends in [.tif] and has no other [.tif] in it, line 91
    replaces the extension. *)
Lemma out_csv_path_extension stem :
  res_name resource = stem +:+ ".tif" →
  matches_within ".tif" (String.length stem) (stem +:+ ".tif") = false →
  out_csv_path resource = stem +:+ "_canopycover.csv".
Proof.
  intros Hname Hclean. unfold out_csv_path. rewrite Hname.
  by apply replace_suffix.
Qed.

End Slips.

(** ** The scenario of the specification, evaluated *)

Section Evaluated.

Import Scenario.

(** On a host whose logger and closing method accept the calls of lines 120
    and 154, the example of the specification comes out as it says: MAC_001
    fails clipping, two rows, two data points, summary 2 processed / 1
    skipped. *)
Example scenario_with_lenient_logger :
  (run env_clip_raises_lenient).2 = Ok tt ∧
  data_rows (run env_clip_raises_lenient).1 =
    [trait_row "2016-07-01" "0.42" "MAC_002"; trait_row "2016-07-01" "0.57" "MAC_003"] ∧
  dp_start <$> datapoints (run env_clip_raises_lenient).1 =
    ["2016-07-01T12:00:00-07:00"; "2016-07-01T12:00:00-07:00"] ∧
  (λ s, (plots_processed s, plots_skipped s)) <$> summaries (run env_clip_raises_lenient).1 =
    [(2, 1%Z)].
Proof. vm_compute. by repeat split. Qed.

(** C2: line 120 calls [self.log_error] with the message alone, where every
    other call passes [(resource, msg)].  With the logger declared
    [log_error(self, resource, msg)] the call raises [TypeError] inside the
    handler: when clipping MAC_001 raises, the run ends there.  MAC_002 and
    MAC_003 are never processed, the file is not closed, nothing is
    submitted and no summary is attached. *)
Theorem handler_log_call_aborts_run :
  (run env_clip_raises).2 = Raise TypeError ∧
  handler_logs (run env_clip_raises).1 = ["error generating cc for MAC_001"] ∧
  data_rows (run env_clip_raises).1 = [] ∧
  datapoints (run env_clip_raises).1 = [] ∧
  closes (run env_clip_raises).1 = 0 ∧
  submits (run env_clip_raises).1 = [] ∧
  summaries (run env_clip_raises).1 = [].
Proof. vm_compute. by repeat split. Qed.

(** C5: the path of line 91 is derived from [resource['name']], the file
    name the host reports, not from [resource['local_paths'][0]], the file
    that is read.  The CSV file is opened under a bare file name, in the
    working directory, and not in the directory of the source image. *)
Theorem csv_path_not_beside_source :
  out_csv_path resource =
    "fullfield_L1_ua-mac_2016-07-01_rgb_thumb_canopycover.csv" ∧
  opens (run env_ok).1 = [out_csv_path resource] ∧
  dirname (out_csv_path resource) = EmptyString ∧
  dirname <$> res_local_paths resource !! 0 =
    Some "/home/extractor/sites/ua-mac/Level_1/fullfield/2016-07-01" ∧
  Some (dirname (out_csv_path resource)) ≠ (dirname <$> res_local_paths resource !! 0).
Proof. vm_compute. by repeat split. Qed.

(** A centroid that cannot be read leaves the row of MAC_002 in the file
    with no data point for it. *)
Lemma row_without_datapoint :
  trait_row "2016-07-01" "0.42" "MAC_002" ∈ data_rows (run env_centroid_raises).1 ∧
  (∀ dp, dp ∈ datapoints (run env_centroid_raises).1 → dp_canopy_cover dp ≠ "0.42") ∧
  length (data_rows (run env_centroid_raises).1) = 2 ∧
  length (datapoints (run env_centroid_raises).1) = 1.
Proof.
  vm_compute. repeat split.
  - apply elem_of_cons; right. apply elem_of_cons; by left.
  - intros dp Hdp. apply list_elem_of_singleton in Hdp as ->. discriminate.
Qed.

(** An exception of the hand-over is not caught by the handler of line 119:
    the run ends with it, the handler never runs, and MAC_002 and MAC_003
    are not processed. *)
Lemma dispatch_exception_escapes :
  (run env_dispatch_raises).2 = Raise (LibraryError "geostreams: connection refused") ∧
  handler_logs (run env_dispatch_raises).1 = [] ∧
  data_rows (run env_dispatch_raises).1 = [trait_row "2016-07-01" "0.31" "MAC_001"] ∧
  closes (run env_dispatch_raises).1 = 0.
Proof. vm_compute. by repeat split. Qed.

(** When the registry cannot be reached the file stays open. *)
Lemma handle_left_open :
  opens (run env_enumeration_raises).1 = [out_csv_path resource] ∧
  closes (run env_enumeration_raises).1 ≠ 1 ∧
  (run env_enumeration_raises).2 = Raise (LibraryError "betydb: timeout").
Proof. vm_compute. by repeat split. Qed.

(** A plot name with a comma gives a row of 11 cells. *)
Lemma row_of_eleven_cells :
  ¬ Forall (λ row, length (cells row) = 10) (data_rows (run env_comma).1).
Proof.
  intros Hall.
  assert (Hrow : trait_row "2016-07-01" "0.31" "MAC Field Scanner, Plot 1"
                   ∈ data_rows (run env_comma).1).
  { vm_compute. apply elem_of_cons; by left. }
  pose proof (proj1 (Forall_forall _ _) Hall _ Hrow) as Hten.
  vm_compute in Hten. discriminate Hten.
Qed.

(** The refused data point of MAC_001 ends the run. *)
Lemma refused_datapoint_ends_run_witness :
  datapoint_001 ∈ datapoints (run env_dispatch_raises).1 ∧
  create_datapoint_with_dependencies env_dispatch_raises host secret_key datapoint_001 =
    Raise (LibraryError "geostreams: connection refused") ∧
  (run env_dispatch_raises).2 = Raise (LibraryError "geostreams: connection refused") ∧
  last (datapoints (run env_dispatch_raises).1) = Some datapoint_001 ∧
  closes (run env_dispatch_raises).1 = 0 ∧
  summaries (run env_dispatch_raises).1 = [].
Proof.
  assert (Hin : datapoint_001 ∈ datapoints (run env_dispatch_raises).1)
    by (vm_compute; constructor).
  assert (Hsend : create_datapoint_with_dependencies env_dispatch_raises host
                    secret_key datapoint_001 =
                  Raise (LibraryError "geostreams: connection refused"))
    by reflexivity.
  split; [exact Hin|]. split; [exact Hsend|].
  exact (refused_datapoint_ends_run env_dispatch_raises self host secret_key resource
           datapoint_001 _ Hin Hsend).
Defined.

(** In the run where all three plots succeed the file is closed once. *)
Lemma handle_closed_iff_loop_returns_witness :
  get_info_name env_ok host secret_key (res_parent_id resource) =
    Ok "stereoTop - 2016-07-01" ∧
  PyStr.split " - " "stereoTop - 2016-07-01" !! 1 = Some "2016-07-01" ∧
  opens (run env_ok).1 = [out_csv_path resource] ∧
  closes (run env_ok).1 = 1.
Proof.
  assert (Hinfo : get_info_name env_ok host secret_key (res_parent_id resource) =
                  Ok "stereoTop - 2016-07-01") by reflexivity.
  assert (Hts : PyStr.split " - " "stereoTop - 2016-07-01" !! 1 = Some "2016-07-01")
    by reflexivity.
  split; [exact Hinfo|]. split; [exact Hts|].
  destruct (handle_closed_iff_loop_returns env_ok self host secret_key resource
              _ _ Hinfo Hts) as (Hopen & Hclose & _).
  split; [exact Hopen|]. etransitivity; [exact Hclose|reflexivity].
Defined.

(** C9: on a registry with no plot the file holds the header line only and
    is closed, and the summary attached to the dataset has
    [plots_processed = 0] and [plots_skipped = 0], as the claim says; but
    the run does not complete.  Line 154 calls [self.end_message()] with no
    argument, where line 86 calls [self.start_message(resource)]: with the
    method declared [end_message(self, resource)] the call raises
    [TypeError], and that exception is how [process_message] ends. *)
Theorem empty_registry_run_raises :
  get_site_boundaries env_no_plots "2016-07-01" "Maricopa" = Ok [] ∧
  (run env_no_plots).2 = Raise TypeError ∧
  last (run env_no_plots).1 = Some EvEnd ∧
  csv_writes (run env_no_plots).1 = [header_line] ∧
  datapoints (run env_no_plots).1 = [] ∧
  closes (run env_no_plots).1 = 1 ∧
  (λ s, (plots_processed s, plots_skipped s)) <$> summaries (run env_no_plots).1 =
    [(0, 0%Z)].
Proof. vm_compute. by repeat split. Qed.

End Evaluated.

(** ** Python strings: splitting, replacing, suffixes *)

Section MoreStrings.

Lemma append_assoc s t u : (s +:+ t) +:+ u = s +:+ (t +:+ u).
Proof.
  induction s as [|c s IH]; [done|]. by rewrite !append_cons, IH.
Qed.

Lemma length_append s t :
  String.length (s +:+ t) = String.length s + String.length t.
Proof.
  induction s as [|c s IH]; [done|]. rewrite append_cons. simpl. by rewrite IH.
Qed.

Lemma prefix_append p s : String.prefix p (p +:+ s) = true.
Proof.
  induction p as [|c p IH]; [apply prefix_empty|].
  rewrite append_cons. simpl. by destruct (ascii_dec c c).
Qed.

(** Without an occurrence of [old], [replace] changes nothing. *)
Lemma replace_no_match old new s :
  matches_within old (String.length s) s = false →
  PyStr.replace old new s = s.
Proof.
  unfold PyStr.replace. induction s as [|c s IH]; [done|].
  cbn [String.length matches_within PyStr.replace_go].
  intros [Hhere Hlater]%orb_false_elim. rewrite Hhere. by rewrite IH.
Qed.

(** Without an occurrence of [sep], [split] returns the string alone. *)
Lemma split_no_match sep s :
  matches_within sep (String.length s) s = false →
  PyStr.split sep s = [s].
Proof.
  unfold PyStr.split. induction s as [|c s IH]; [done|].
  cbn [String.length matches_within PyStr.split_go].
  intros [Hhere Hlater]%orb_false_elim. rewrite Hhere. by rewrite IH.
Qed.

(** The characters of a match are skipped. *)
Lemma split_go_skip sep u s :
  PyStr.split_go sep (String.length u) (u +:+ s) = PyStr.split_go sep 0 s.
Proof.
  induction u as [|c u IH]; [done|].
  rewrite append_cons. cbn [String.length PyStr.split_go]. exact IH.
Qed.

(** The first cell ends at the first occurrence of [sep]. *)
Lemma split_first sep a rest :
  sep ≠ EmptyString →
  matches_within sep (String.length a) (a +:+ sep +:+ rest) = false →
  PyStr.split sep (a +:+ sep +:+ rest) = a :: PyStr.split sep rest.
Proof.
  intros Hsep. unfold PyStr.split. induction a as [|c a IH]; intros Hclean.
  - rewrite append_empty_l. destruct sep as [|c sep]; [done|].
    rewrite append_cons. cbn [PyStr.split_go].
    rewrite <- append_cons, prefix_append.
    cbn [String.length Nat.sub]. rewrite Nat.sub_0_r. by rewrite split_go_skip.
  - rewrite append_cons in Hclean |- *.
    cbn [String.length matches_within PyStr.split_go] in Hclean |- *.
    apply orb_false_elim in Hclean as [Hhere Hlater].
    rewrite Hhere. by rewrite (IH Hlater).
Qed.

Lemma eqb_string_refl s : String.eqb s s = true.
Proof. by apply String.eqb_eq. Qed.

(** [s.endswith(suffix)] says that [s] ends with [suffix]. *)
Lemma endswith_spec s suffix :
  PyStr.endswith s suffix = true ↔ ∃ base, s = base +:+ suffix.
Proof.
  induction s as [|c s IH]; cbn [PyStr.endswith].
  - rewrite orb_false_r. split.
    + intros ->%String.eqb_eq. by exists EmptyString.
    + intros (base & Hb). destruct base; [|done].
      rewrite append_empty_l in Hb. subst. apply eqb_string_refl.
  - rewrite orb_true_iff, IH. split.
    + intros [->%String.eqb_eq|(base & ->)].
      * by exists EmptyString.
      * by exists (String c base).
    + intros (base & Hb). destruct base as [|d base].
      * left. rewrite append_empty_l in Hb. subst. apply eqb_string_refl.
      * right. rewrite append_cons in Hb. injection Hb as _ ->. by exists base.
Qed.

End MoreStrings.

(** ** Regular expressions: derivatives against words *)

Section Regex.

Import Re.

Lemma nullable_Matches r : nullable r = true ↔ Matches r [].
Proof.
  split.
  - induction r; simpl; intros Hn; try discriminate.
    + constructor.
    + apply andb_true_iff in Hn as [H1 H2].
      change (@nil ascii) with (@nil ascii ++ [])%list. constructor; auto.
    + apply orb_true_iff in Hn as [H|H]; [apply Matches_alt_l|apply Matches_alt_r]; auto.
    + constructor.
  - intros H. remember [] as w eqn:Hw.
    induction H; simpl; try discriminate; try reflexivity.
    + apply app_eq_nil in Hw as [-> ->]. by rewrite IHMatches1, IHMatches2.
    + by rewrite IHMatches.
    + rewrite IHMatches by done. apply orb_true_r.
Qed.

Lemma Matches_star_cons_inv r c t :
  Matches (Star r) (c :: t) →
  ∃ u v, t = (u ++ v)%list ∧ Matches r (c :: u) ∧ Matches (Star r) v.
Proof.
  intros H. remember (Star r) as q eqn:Hq. remember (c :: t) as w eqn:Hw.
  revert t Hw.
  induction H as [| | | | | | | |r' u v Hu _ Hv IH]; intros t Hw; try discriminate.
  injection Hq as ->.
  destruct u as [|c' u].
  - apply IH; done.
  - injection Hw as -> <-. by exists u, v.
Qed.

Lemma Matches_cat_inv r s w :
  Matches (Cat r s) w → ∃ u v, w = (u ++ v)%list ∧ Matches r u ∧ Matches s v.
Proof. inversion 1; subst. by eauto. Qed.

Lemma Matches_chr_inv c w : Matches (Chr c) w → w = [c].
Proof. by inversion 1. Qed.

Lemma Matches_dot_inv w : Matches Dot w → ∃ c, w = [c] ∧ is_newline c = false.
Proof. inversion 1; subst. by eauto. Qed.

Lemma Matches_digit_inv w : Matches Digit w → ∃ c, w = [c] ∧ is_digit c = true.
Proof. inversion 1; subst. by eauto. Qed.

Lemma deriv_Matches c r s : Matches (deriv c r) s ↔ Matches r (c :: s).
Proof.
  revert s. induction r as [| | | |d|r1 IH1 r2 IH2|r1 IH1 r2 IH2|r IH]; intros s; simpl.
  - split; inversion 1.
  - split; inversion 1.
  - destruct (is_newline c) eqn:Hc; split; inversion 1; subst.
    + congruence.
    + by constructor.
    + constructor.
  - destruct (is_digit c) eqn:Hc; split; inversion 1; subst.
    + by constructor.
    + constructor.
    + congruence.
  - destruct (Ascii.eqb_spec c d) as [->|Hne]; split; inversion 1; subst.
    + constructor.
    + constructor.
    + done.
  - assert (Hcat : Matches (Cat (deriv c r1) r2) s → Matches (Cat r1 r2) (c :: s)).
    { inversion 1; subst. change (c :: u ++ v)%list with ((c :: u) ++ v)%list.
      constructor; [by apply IH1|done]. }
    assert (Hinv : Matches (Cat r1 r2) (c :: s) →
              Matches (Cat (deriv c r1) r2) s ∨
              (nullable r1 = true ∧ Matches (deriv c r2) s)).
    { intros H. apply Matches_cat_inv in H as (u & v & Heq & Hu & Hv).
      destruct u as [|c' u].
      - right. split; [by apply nullable_Matches|]. apply IH2. by rewrite Heq.
      - injection Heq as <- ->. left. constructor; [by apply IH1|done]. }
    destruct (nullable r1) eqn:Hn.
    + split.
      * inversion 1; subst; [by apply Hcat|].
        change (c :: s) with ([] ++ c :: s)%list.
        constructor; [by apply nullable_Matches|by apply IH2].
      * intros H. destruct (Hinv H) as [H'|[_ H']];
          [by apply Matches_alt_l|by apply Matches_alt_r].
    + split; [exact Hcat|].
      intros H. by destruct (Hinv H) as [H'|[? _]].
  - split.
    + inversion 1; subst; [apply Matches_alt_l|apply Matches_alt_r];
        [by apply IH1|by apply IH2].
    + inversion 1; subst; [apply Matches_alt_l|apply Matches_alt_r];
        [by apply IH1|by apply IH2].
  - split.
    + inversion 1; subst. change (c :: u ++ v)%list with ((c :: u) ++ v)%list.
      constructor; [by apply IH|done].
    + intros H. destruct (Matches_star_cons_inv _ _ _ H) as (u & v & -> & Hu & Hv).
      constructor; [by apply IH|done].
Qed.

(** [match_prefix] decides whether a prefix of the word is in the language. *)
Lemma match_prefix_spec r s :
  match_prefix r s = true ↔ ∃ u v, s = (u ++ v)%list ∧ Matches r u.
Proof.
  revert r. induction s as [|c s IH]; intros r; simpl.
  - rewrite nullable_Matches. split.
    + intros H. by exists [], [].
    + intros (u & v & Heq & H). symmetry in Heq.
      by apply app_eq_nil in Heq as [-> _].
  - rewrite orb_true_iff, nullable_Matches, IH. split.
    + intros [H|(u & v & -> & H)].
      * by exists [], (c :: s).
      * exists (c :: u), v. split; [done|]. by apply deriv_Matches.
    + intros (u & v & Heq & H). destruct u as [|c' u].
      * by left.
      * injection Heq as -> ->. right. exists u, v. split; [done|].
        by apply deriv_Matches.
Qed.

Lemma Matches_lit w u : Matches (lit w) u ↔ u = list_ascii_of_string w.
Proof.
  unfold lit. revert u.
  induction (list_ascii_of_string w) as [|c l IH]; intros u; simpl.
  - split; [by inversion 1|intros ->; constructor].
  - split.
    + intros H. apply Matches_cat_inv in H as (u1 & u2 & -> & H1 & H2).
      apply Matches_chr_inv in H1 as ->. simpl. f_equal. by apply IH.
    + intros ->. change (c :: l) with ([c] ++ l)%list.
      constructor; [constructor|by apply IH].
Qed.

Lemma Matches_star_dot u :
  Matches (Star Dot) u ↔ Forall (λ x, is_newline x = false) u.
Proof.
  split.
  - intros H. remember (Star Dot) as q eqn:Hq.
    induction H as [| | | | | | | |r u v Hu _ Hv IH]; try discriminate; [constructor|].
    injection Hq as ->. inversion Hu; subst. constructor; [done|by apply IH].
  - induction 1 as [|c u Hc _ IH]; [constructor|].
    change (c :: u) with ([c] ++ u)%list. constructor; [by constructor|done].
Qed.

Lemma Matches_star_digit u :
  Matches (Star Digit) u ↔ Forall (λ x, is_digit x = true) u.
Proof.
  split.
  - intros H. remember (Star Digit) as q eqn:Hq.
    induction H as [| | | | | | | |r u v Hu _ Hv IH]; try discriminate; [constructor|].
    injection Hq as ->. inversion Hu; subst. constructor; [done|by apply IH].
  - induction 1 as [|c u Hc _ IH]; [constructor|].
    change (c :: u) with ([c] ++ u)%list. constructor; [by constructor|done].
Qed.

Lemma digit_not_newline c : is_digit c = true → is_newline c = false.
Proof.
  unfold is_digit, is_newline. intros H.
  destruct (Ascii.eqb_spec c "010"%char) as [->|]; [discriminate H|done].
Qed.

End Regex.

(** ** The gate of line 74 *)

Section Gate.

Import Re.

Lemma prefix_spec p s : String.prefix p s = true ↔ ∃ b, s = p +:+ b.
Proof.
  revert s. induction p as [|c p IH]; intros s.
  - rewrite prefix_empty. split; [by exists s|done].
  - destruct s as [|d s]; simpl.
    + split; [done|]. intros (b & Hb). rewrite append_cons in Hb. discriminate Hb.
    + destruct (ascii_dec c d) as [->|Hne].
      * rewrite IH. split; intros (b & Hb); exists b.
        -- by rewrite append_cons, Hb.
        -- rewrite append_cons in Hb. by injection Hb.
      * split; [done|]. intros (b & Hb). rewrite append_cons in Hb.
        injection Hb as ? _. congruence.
Qed.

Lemma find_from_spec sub s i :
  is_Some (find_from sub s i) ↔ ∃ a b, s = a +:+ sub +:+ b.
Proof.
  revert i. induction s as [|c s IH]; intros i; cbn [find_from].
  - destruct (String.prefix sub EmptyString) eqn:Hp.
    + split; [|intros _; by eexists]. intros _. apply prefix_spec in Hp as (b & Hb).
      by exists EmptyString, b.
    + split; [by intros [? ?]|]. intros (a & b & Hab).
      destruct a; [|done]. rewrite append_empty_l in Hab.
      assert (String.prefix sub EmptyString = true) by (apply prefix_spec; eauto).
      congruence.
  - destruct (String.prefix sub (String c s)) eqn:Hp.
    + split; [|intros _; by eexists]. intros _. apply prefix_spec in Hp as (b & Hb).
      by exists EmptyString, b.
    + rewrite IH. split.
      * intros (a & b & ->). by exists (String c a), b.
      * intros (a & b & Hab). destruct a as [|d a].
        -- rewrite append_empty_l in Hab.
           assert (String.prefix sub (String c s) = true)
             by (apply prefix_spec; eauto).
           congruence.
        -- rewrite append_cons in Hab. injection Hab as _ ->. by exists a, b.
Qed.

(** [name.find(sub) > -1] says that [sub] occurs in [name]. *)
Lemma find_found sub s :
  (-1 <? find sub s)%Z = true ↔ ∃ a b, s = a +:+ sub +:+ b.
Proof.
  rewrite <- (find_from_spec sub s 0). unfold find.
  destruct (find_from sub s 0) as [i|].
  - split; [intros _; by eexists|]. intros _. apply Z.ltb_lt. lia.
  - split; [done|]. by intros [? ?].
Qed.

Lemma chars_app s t :
  list_ascii_of_string (s +:+ t) =
    (list_ascii_of_string s ++ list_ascii_of_string t)%list.
Proof.
  induction s as [|c s IH]; [done|].
  rewrite append_cons. simpl. by rewrite IH.
Qed.

Lemma match_prefix_app r s t :
  match_prefix r s = true → match_prefix r (s ++ t) = true.
Proof.
  rewrite !match_prefix_spec. intros (u & v & -> & H).
  exists u, (v ++ t)%list. by rewrite app_assoc.
Qed.

(** The pattern accepts exactly the names of the shape [rgb_thumb_shape]. *)
Lemma fullfield_pattern_shape name :
  py_match fullfield_pattern name = true ↔ rgb_thumb_shape name.
Proof.
  unfold py_match, rgb_thumb_shape. rewrite match_prefix_spec. split.
  - intros (u & rest & Hname & H). unfold fullfield_pattern in H.
    apply Matches_cat_inv in H as (a & w1 & -> & Ha & H).
    apply Matches_cat_inv in H as (d0 & w2 & -> & Hd & H).
    apply Matches_cat_inv in H as (ds & w3 & -> & Hds & H).
    apply Matches_cat_inv in H as (l1 & w4 & -> & Hl1 & H).
    apply Matches_cat_inv in H as (b & w5 & -> & Hb & H).
    apply Matches_cat_inv in H as (l2 & w6 & -> & Hl2 & H).
    apply Matches_cat_inv in H as (c0 & l3 & -> & Hc & Hl3).
    apply Matches_star_dot in Ha, Hb. apply Matches_star_digit in Hds.
    apply Matches_digit_inv in Hd as (d & -> & Hd).
    apply Matches_dot_inv in Hc as (c & -> & Hc).
    apply Matches_lit in Hl1 as ->, Hl2 as ->, Hl3 as ->.
    destruct (decide (ds = [])) as [->|Hne].
    + exists a, d, b, c, rest. rewrite Hname.
      split; [by rewrite <- !app_assoc|by repeat split].
    + destruct (exists_last Hne) as (ds' & d' & ->).
      apply Forall_app in Hds as [Hds' Hd']. rewrite Forall_singleton in Hd'.
      exists (a ++ d :: ds')%list, d', b, c, rest. rewrite Hname.
      split; [by repeat (progress (rewrite <- ?app_assoc; cbn [app]))|].
      split; [|by repeat split].
      apply Forall_app. split; [done|]. constructor; [by apply digit_not_newline|].
      eapply Forall_impl; [exact Hds'|]. apply digit_not_newline.
  - intros (a & d & b & c & rest & Hname & Ha & Hd & Hb & Hc).
    exists (a ++ [d] ++ [] ++ list_ascii_of_string "_rgb_" ++ b ++
            list_ascii_of_string "thumb" ++ [c] ++ list_ascii_of_string "tif")%list,
      rest.
    split; [by rewrite Hname, <- !app_assoc|].
    unfold fullfield_pattern.
    repeat (apply Matches_cat);
      try (by apply Matches_lit);
      try (by apply Matches_star_dot);
      try (by constructor).
Qed.

(** Line 74 accepts a name exactly when it holds [fullfield] and has the
    shape of the pattern. *)
Lemma name_accepted_spec name :
  name_accepted name = true ↔
  (∃ a b, name = a +:+ "fullfield" +:+ b) ∧ rgb_thumb_shape name.
Proof.
  unfold name_accepted.
  by rewrite andb_true_iff, find_found, fullfield_pattern_shape.
Qed.

(** Nothing anchors the end of the name. *)
Lemma name_accepted_app name suffix :
  name_accepted name = true → name_accepted (name +:+ suffix) = true.
Proof.
  unfold name_accepted. rewrite !andb_true_iff, !find_found.
  intros [(a & b & ->) Hm]. split.
  - exists a, (b +:+ suffix). by rewrite !append_assoc.
  - unfold py_match in *. rewrite chars_app. by apply match_prefix_app.
Qed.

End Gate.

(** ** Plots that are estimated and plots that are not *)

Section Estimates.

Context {Float PxArray GeoTrans : Type}.
Variable env : Env Float PxArray GeoTrans.
Variables host secret_key : string.
Variable resource : Resource.
Variable timestamp : string.

Local Abbreviation the_plots := (process_plots env host secret_key resource timestamp).

Lemma estimate_of_estimated bounds ccVal :
  estimate_of env resource bounds = Some ccVal ↔ estimated env resource bounds ccVal.
Proof.
  unfold estimate_of, estimated. split.
  - destruct (res_local_paths resource !! 0) as [path|] eqn:Hpath; [|done].
    destruct (clip_raster env path bounds) as [[pxarray geotrans]|e] eqn:Hclip; [|done].
    cbn [fst].
    destruct (length (shape env pxarray) <? 3)%nat eqn:Hdim; [done|].
    apply Nat.ltb_ge in Hdim.
    destruct (rollaxis env pxarray 0 3) as [rolled|e] eqn:Hroll; [|done].
    destruct (calculate_canopycover env rolled) as [cc|e] eqn:Hcc; [|done].
    intros [= <-]. by exists path, pxarray, geotrans, rolled.
  - intros (path & pxarray & geotrans & rolled & -> & -> & Hdim & Hroll & Hcc).
    cbn [fst]. apply Nat.ltb_ge in Hdim. by rewrite Hdim, Hroll, Hcc.
Qed.

(** For an estimated plot the [try] statement falls through with the
    estimate and the incremented counter. *)
Lemma try_estimated nplots n plotname bounds ccVal :
  estimate_of env resource bounds = Some ccVal →
  ∃ logs, Forall (λ ev, is_log ev = true) logs ∧
    try_except (clip_and_estimate env resource nplots n plotname bounds)
               (on_error env plotname) = (logs, Ok (Some (ccVal, S n))).
Proof.
  unfold estimate_of, clip_and_estimate, index.
  destruct (res_local_paths resource !! 0) as [path|]; [|done].
  rewrite bind_ret_l.
  destruct (clip_raster env path bounds) as [[pxarray geotrans]|e]; [|done].
  rewrite bind_call_ok. cbn [fst].
  destruct (length (shape env pxarray) <? 3)%nat; [done|].
  destruct (rollaxis env pxarray 0 3) as [rolled|e]; [|done].
  rewrite bind_call_ok.
  destruct (calculate_canopycover env rolled) as [cc|e]; [|done].
  rewrite bind_call_ok. intros [= ->].
  destruct (S n mod 10 =? 0)%nat; eexists; (split; [|reflexivity]);
    by repeat constructor.
Qed.

(** What one iteration leaves behind, read off the plot. *)
Lemma process_plot_expected nplots st plot :
  constant_fields st.2 →
  let m := process_plot env host secret_key resource timestamp nplots st plot in
  csv_writes m.1 =
    match row_for env resource timestamp plot with Some row => [row] | None => [] end ∧
  file_events m.1 = EvWrite <$> csv_writes m.1 ∧
  (∀ st', m.2 = Ok st' →
     datapoints m.1 =
       match datapoint_for env host resource timestamp plot with
       | Some dp => [dp]
       | None => []
       end ∧
     length (datapoints m.1) = length (csv_writes m.1) ∧
     st'.1 = st.1 + length (csv_writes m.1) ∧
     constant_fields st'.2).
Proof.
  intros Hconst m. subst m. unfold row_for, datapoint_for.
  destruct (estimate_of env resource plot.2) as [cc|] eqn:Hest; cbn [mbind option_bind].
  - unfold process_plot.
    destruct (try_estimated nplots st.1 plot.1 plot.2 cc Hest) as (logs & Hlogs & ->).
    destruct (logs_silent logs Hlogs) as (Hw & Hd & _).
    assert (Hf : file_events logs = []).
    { clear -Hlogs. induction Hlogs as [|ev logs Hev _ IH]; [done|].
      unfold file_events in *. rewrite filter_cons.
      by destruct ev; try discriminate Hev. }
    rewrite bind_effect_ok. cbn [fst snd].
    destruct (record_plot_cases env host secret_key resource timestamp st.2
                plot.1 plot.2 cc Hconst)
      as [(e & Hraise & Hrec)|(coords & lon & lat & Hcen & Hlon & Hlat & Hrec)];
      rewrite Hrec.
    + rewrite bind_effect_raise. cbn [fst snd].
      rewrite csv_writes_app, Hw. unfold file_events in *.
      rewrite filter_app, Hf. by repeat split.
    + rewrite Hcen. cbn. rewrite Hlon, Hlat. cbn.
      destruct (create_datapoint_with_dependencies env host secret_key _) as [[]|e].
      * rewrite bind_effect_ok. cbn [fst snd ret].
        rewrite csv_writes_app, datapoints_app, Hw, Hd, app_nil_r.
        unfold file_events in *. rewrite filter_app, Hf.
        split; [done|]. split; [done|].
        intros st' [= <-]. cbn. split; [done|]. split; [done|]. split; [lia|].
        by apply constant_fields_updated.
      * rewrite bind_effect_raise. cbn [fst snd].
        rewrite csv_writes_app, Hw. unfold file_events in *.
        rewrite filter_app, Hf. by repeat split.
  - pose proof (process_plot_iteration env host secret_key resource timestamp
                  nplots st plot Hconst) as Hit.
    destruct (process_plot env host secret_key resource timestamp nplots st plot)
      as [tr r].
    destruct (iteration_observed _ _ _ _ _ _ _ _ _ Hit) as (_ & _ & _ & _ & Hcases).
    assert (Hnone : ∀ c, ¬ estimated env resource plot.2 c).
    { intros c Hc. apply estimate_of_estimated in Hc. congruence. }
    destruct Hcases as [(Hw & Hd & Hr)|[(c & e & Hc & _)|(c & ? & ? & ? & Hc & _)]];
      [|by destruct (Hnone c)..].
    cbn [fst snd]. rewrite Hw, Hd.
    assert (Hf : file_events tr = []).
    { inversion Hit as [logs Hlogs|logs e Hlogs|logs c e Hlogs Hc|logs c ? ? ? Hlogs Hc];
        subst; try (by destruct (Hnone c));
        clear -Hlogs; induction Hlogs as [|ev logs Hev _ IH]; try done;
        unfold file_events in *; rewrite filter_cons;
        by destruct ev; try discriminate Hev. }
    rewrite Hf. split; [done|]. split; [done|].
    intros st' ->. destruct Hr as [[= <-]|(e & [=])].
    split; [done|]. split; [done|]. split; [cbn; lia|done].
Qed.

(** The loop writes the rows of the estimated plots in the order of the
    registry, as far as it gets. *)
Lemma process_plots_expected nplots plots st :
  constant_fields st.2 →
  let m := the_plots nplots plots st in
  (∃ rest, omap (row_for env resource timestamp) plots = (csv_writes m.1 ++ rest)%list) ∧
  file_events m.1 = EvWrite <$> csv_writes m.1 ∧
  (∀ st', m.2 = Ok st' →
     csv_writes m.1 = omap (row_for env resource timestamp) plots ∧
     datapoints m.1 = omap (datapoint_for env host resource timestamp) plots ∧
     length (datapoints m.1) = length (csv_writes m.1) ∧
     st'.1 = st.1 + length (csv_writes m.1)).
Proof.
  revert st. induction plots as [|plot plots IH]; intros st Hconst.
  - cbn. split; [by exists []|]. split; [done|].
    intros st' [= <-]. split; [done|]. split; [done|]. split; [done|cbn; lia].
  - cbn [process_plots].
    destruct (process_plot_expected nplots st plot Hconst) as (Hw & Hf & Hok).
    change (omap ?f (plot :: plots))
      with (match f plot with Some y => y :: omap f plots | None => omap f plots end).
    destruct (process_plot env host secret_key resource timestamp nplots st plot)
      as [tr [st1|e]]; cbn [fst snd] in *.
    + destruct (Hok st1 eq_refl) as (Hd & Hlen & Hcount & Hconst1).
      destruct (IH st1 Hconst1) as ((rest & Hrest) & Hf' & Hok').
      rewrite bind_effect_ok. cbn [fst snd].
      rewrite csv_writes_app, datapoints_app. unfold file_events in *.
      rewrite filter_app, Hf, Hf', fmap_app.
      split; [|split; [done|]].
      * exists rest. rewrite Hw, Hrest.
        by destruct (row_for env resource timestamp plot).
      * intros st' Hst'. destruct (Hok' st' Hst') as (Hw2 & Hd2 & Hlen2 & Hcount2).
        rewrite Hw2, Hd2, Hw, Hd in *.
        destruct (row_for env resource timestamp plot),
          (datapoint_for env host resource timestamp plot);
          cbn in *; (split; [done|]); (split; [done|]); split; lia.
    + rewrite bind_effect_raise. cbn [fst snd].
      split; [|split; [done|done]].
      rewrite Hw. destruct (row_for env resource timestamp plot); by eexists.
Qed.

End Estimates.

(** ** More properties of a run *)

Section MoreRun.

Context {Float PxArray GeoTrans : Type}.
Variable env : Env Float PxArray GeoTrans.
Variable self : Extractor.
Variables host secret_key : string.
Variable resource : Resource.

Local Abbreviation the_run := (process_message env self host secret_key resource).
Local Abbreviation the_report := (close_and_report env self host secret_key resource).
Local Abbreviation the_plots := (process_plots env host secret_key resource).

Lemma omap_length_le {A B} (f : A → option B) (l : list A) :
  (length (omap f l) ≤ length l)%nat.
Proof.
  induction l as [|x l IH]; [done|].
  change (omap f (x :: l))
    with (match f x with Some y => y :: omap f l | None => omap f l end).
  destruct (f x); simpl; lia.
Qed.

Lemma enumerated_functional timestamp plots timestamp' plots' :
  enumerated env host secret_key resource timestamp plots →
  enumerated env host secret_key resource timestamp' plots' →
  timestamp' = timestamp ∧ plots' = plots.
Proof.
  intros (n & Hn & Hts & Hp) (n' & Hn' & Hts' & Hp').
  rewrite Hn in Hn'. injection Hn' as <-.
  rewrite Hts in Hts'. injection Hts' as <-.
  rewrite Hp in Hp'. by injection Hp' as <-.
Qed.





End MoreRun.

(** ** Iterations that return *)

Section Returning.

Context {Float PxArray GeoTrans : Type}.
Variable env : Env Float PxArray GeoTrans.
Variables host secret_key : string.
Variable resource : Resource.
Variable timestamp : string.

Local Abbreviation the_plots := (process_plots env host secret_key resource timestamp).
Local Abbreviation returns := (iteration_returns env host secret_key resource timestamp).

Lemma record_row_for_row_for plot :
  record_row_for env resource timestamp plot = row_for env resource timestamp plot.
Proof.
  unfold record_row_for, row_for.
  destruct (estimate_of env resource plot.2) as [cc|]; [|done].
  apply record_row_updated.
Qed.

Lemma omap_record_row_for (plots : list (string * string)) :
  omap (record_row_for env resource timestamp) plots =
  omap (row_for env resource timestamp) plots.
Proof.
  induction plots as [|plot plots IH]; [done|].
  change (omap ?f (plot :: plots))
    with (match f plot with Some y => y :: omap f plots | None => omap f plots end).
  by rewrite record_row_for_row_for, IH.
Qed.

Lemma flat_plot_not_estimated bounds :
  flat_plot env resource bounds → estimate_of env resource bounds = None.
Proof.
  intros (path & pxarray & geotrans & Hpath & Hclip & Hdim).
  unfold estimate_of. rewrite Hpath, Hclip. cbn [fst].
  apply Nat.ltb_lt in Hdim. by rewrite Hdim.
Qed.

(** A [try] statement that ends without an estimate and without an
    exception ended at the [continue] of line 112 or at the one of
    line 121. *)
Lemma try_returns_unestimated nplots n plotname bounds r :
  estimate_of env resource bounds = None →
  (try_except (clip_and_estimate env resource nplots n plotname bounds)
              (on_error env plotname)).2 = Ok r →
  flat_plot env resource bounds ∨
  log_error_msg_only env ("error generating cc for " +:+ plotname) = Ok tt.
Proof.
  unfold estimate_of, flat_plot, clip_and_estimate, index.
  destruct (res_local_paths resource !! 0) as [path|] eqn:Hpath.
  2:{ intros _. rewrite bind_raise_l, try_except_raise. unfold on_error.
      destruct (log_error_msg_only env _) as [[]|e]; [by right|done]. }
  rewrite bind_ret_l.
  destruct (clip_raster env path bounds) as [[pxarray geotrans]|e0] eqn:Hclip.
  2:{ intros _. rewrite bind_call_raise, try_except_raise. unfold on_error.
      destruct (log_error_msg_only env _) as [[]|e]; [by right|done]. }
  rewrite bind_call_ok. cbn [fst].
  destruct (length (shape env pxarray) <? 3)%nat eqn:Hdim.
  { intros _ _. left. apply Nat.ltb_lt in Hdim. by exists path, pxarray, geotrans. }
  destruct (rollaxis env pxarray 0 3) as [rolled|e0] eqn:Hroll.
  2:{ intros _. rewrite bind_call_raise, try_except_raise. unfold on_error.
      destruct (log_error_msg_only env _) as [[]|e]; [by right|done]. }
  rewrite bind_call_ok.
  destruct (calculate_canopycover env rolled) as [ccVal|e0] eqn:Hcc; [done|].
  intros _. rewrite bind_call_raise, try_except_raise. unfold on_error.
  destruct (log_error_msg_only env _) as [[]|e]; [by right|done].
Qed.

(** The iteration of a plot returns exactly when [iteration_returns] says
    so. *)
Lemma process_plot_returns nplots st plot :
  constant_fields st.2 →
  (∃ st', (process_plot env host secret_key resource timestamp nplots st plot).2 = Ok st')
  ↔ returns plot.
Proof.
  intros Hconst. unfold iteration_returns, datapoint_for.
  destruct (estimate_of env resource plot.2) as [cc|] eqn:Hest; cbn [mbind option_bind].
  - unfold process_plot.
    destruct (try_estimated env resource nplots st.1 plot.1 plot.2 cc Hest)
      as (logs & Hlogs & ->).
    rewrite bind_effect_ok. cbn [fst snd].
    destruct (record_plot_cases env host secret_key resource timestamp st.2
                plot.1 plot.2 cc Hconst)
      as [(e & Hraise & Hrec)|(coords & lon & lat & Hcen & Hlon & Hlat & Hrec)];
      rewrite Hrec.
    + rewrite bind_effect_raise. cbn [snd]. split; [by intros [st' [=]]|].
      intros (dp & Hdp & _).
      destruct Hraise as [Hcen|(coords & Hcen & Hnone & _)]; rewrite Hcen in Hdp; [done|].
      destruct (coords !! 0) as [lon|]; cbn in Hdp; [|done].
      destruct (coords !! 1) as [lat|]; cbn in Hdp; [|done].
      by destruct Hnone.
    + rewrite Hcen. cbn. rewrite Hlon, Hlat. cbn.
      destruct (create_datapoint_with_dependencies env host secret_key _)
        as [[]|e] eqn:Hsend.
      * rewrite bind_effect_ok. cbn [snd ret]. split; [|by eauto].
        intros _. by eexists.
      * rewrite bind_effect_raise. cbn [snd]. split; [by intros [st' [=]]|].
        intros (dp & [= <-] & Hok). congruence.
  - split.
    + intros [st' Hret]. unfold process_plot in Hret.
      destruct (try_except _ _) as [tr [r|e]] eqn:Htry.
      * eapply try_returns_unestimated; [exact Hest|]. by rewrite Htry.
      * by rewrite bind_effect_raise in Hret.
    + intros [Hflat|Hlog].
      * destruct plot as [plotname bounds].
        destruct (process_plot_flat env host secret_key resource timestamp nplots st
                    plotname bounds Hflat) as [msg ->]. by eexists.
      * unfold process_plot.
        destruct (try_cases env resource nplots st.1 plot.1 plot.2)
          as [(logs & _ & ->)|[(logs & e & _ & Hraise & _)|(logs & c & _ & Hc & _)]].
        -- rewrite bind_effect_ok. cbn [snd ret]. by eexists.
        -- congruence.
        -- apply estimate_of_estimated in Hc. congruence.
Qed.

(** The loop keeps the entries of the dictionary that it never assigns. *)
Lemma process_plots_constant_fields nplots plots st st' :
  constant_fields st.2 →
  (the_plots nplots plots st).2 = Ok st' →
  constant_fields st'.2.
Proof.
  revert st. induction plots as [|plot plots IH]; intros st Hconst.
  - by intros [= <-].
  - cbn [process_plots].
    destruct (process_plot_expected env host secret_key resource timestamp nplots st
                plot Hconst) as (_ & _ & Hok).
    destruct (process_plot env host secret_key resource timestamp nplots st plot)
      as [tr [st1|e]]; cbn [fst snd] in *.
    + rewrite bind_effect_ok. cbn [snd].
      destruct (Hok st1 eq_refl) as (_ & _ & _ & Hconst1). by apply IH.
    + by rewrite bind_effect_raise.
Qed.

(** The loop returns exactly when every iteration does. *)
Lemma process_plots_return nplots plots st :
  constant_fields st.2 →
  (∃ st', (the_plots nplots plots st).2 = Ok st') ↔ Forall returns plots.
Proof.
  revert st. induction plots as [|plot plots IH]; intros st Hconst.
  - split; [constructor|]. intros _. by eexists.
  - cbn [process_plots].
    pose proof (process_plot_returns nplots st plot Hconst) as Hone.
    destruct (process_plot_expected env host secret_key resource timestamp nplots st
                plot Hconst) as (_ & _ & Hok).
    destruct (process_plot env host secret_key resource timestamp nplots st plot)
      as [tr [st1|e]]; cbn [fst snd] in *.
    + rewrite bind_effect_ok. cbn [snd].
      destruct (Hok st1 eq_refl) as (_ & _ & _ & Hconst1).
      rewrite (IH st1 Hconst1), Forall_cons.
      split; [|by intros [_ ?]]. intros Hrest. split; [|done].
      apply Hone. by eexists.
    + rewrite bind_effect_raise. cbn [snd]. split; [by intros [st' [=]]|].
      intros Hall. apply Forall_cons in Hall as [Hplot _].
      apply Hone in Hplot as [st' [=]].
Qed.

(** The loop on a registry is the loop on its first plots followed by the
    loop on the others. *)
Lemma process_plots_app nplots before after st :
  the_plots nplots (before ++ after) st =
    (st1 <- the_plots nplots before st ;; the_plots nplots after st1).
Proof.
  revert st. induction before as [|plot before IH]; intros st.
  - cbn [app process_plots]. by rewrite bind_ret_l.
  - cbn [app process_plots]. rewrite bind_assoc.
    destruct (process_plot env host secret_key resource timestamp nplots st plot)
      as [tr [st1|e]].
    + by rewrite !bind_effect_ok, IH.
    + by rewrite !bind_effect_raise.
Qed.

End Returning.

(** ** Processed plots and skipped plots *)

Section Processed.

Context {Float PxArray GeoTrans : Type}.
Variable env : Env Float PxArray GeoTrans.
Variable self : Extractor.
Variables host secret_key : string.
Variable resource : Resource.

Local Abbreviation the_run := (process_message env self host secret_key resource).
Local Abbreviation the_plots := (process_plots env host secret_key resource).

(** A run whose iterations all return: every estimated plot has its row and
    its data point, the file is closed, and the summary counts the rows. *)
Lemma returning_run timestamp plots :
  enumerated env host secret_key resource timestamp plots →
  Forall (iteration_returns env host secret_key resource timestamp) plots →
  data_rows the_run.1 = omap (row_for env resource timestamp) plots ∧
  datapoints the_run.1 = omap (datapoint_for env host resource timestamp) plots ∧
  closes the_run.1 = 1 ∧
  (submit_traits env (out_csv_path resource) (bety_key self) = Ok tt →
   summaries the_run.1 =
     [ {| plots_processed := length (data_rows the_run.1);
          plots_skipped :=
            Z.of_nat (length plots) - Z.of_nat (length (data_rows the_run.1));
          betydb_link :=
            "https://terraref.ncsa.illinois.edu/bety/api/beta/variables?name=canopy_cover" |} ]).
Proof.
  intros Henum Hall.
  destruct (proj2 (process_plots_return env host secret_key resource timestamp
                     (length plots) plots (0, default_traits) constant_fields_default)
                  Hall) as [st Hloop].
  destruct (run_observed env self host secret_key resource timestamp plots Henum)
    as (Hw & Hd & _ & Hc & Hm & _).
  unfold data_rows. rewrite Hw, Hd, Hc, Hm, Hloop. cbn [tail].
  destruct (process_plots_expected env host secret_key resource timestamp
              (length plots) plots (0, default_traits) constant_fields_default)
    as (_ & _ & Hok).
  destruct (Hok st Hloop) as (Hrows & Hdps & _ & Hcount).
  split; [done|]. split; [done|]. split; [done|].
  intros Hsubmit. rewrite the_report_summaries, Hsubmit.
  cbn [fst] in Hcount. by rewrite Hcount.
Qed.

(** Every data point a run hands over is the one of an estimated plot of its
    registry, with the centroid swapped and noon at both ends. *)
Lemma dispatched_points_described :
  Forall (run_datapoint env host secret_key resource) (datapoints the_run.1).
Proof.
  destruct (run_cases env self host secret_key resource)
    as [(e & ->)|[(e & ->)|(timestamp & plots & Henum)]]; [constructor..|].
  destruct (run_observed env self host secret_key resource timestamp plots Henum)
    as (_ & -> & _).
  pose proof (process_plots_iterations env host secret_key resource timestamp
                (length plots) plots (0, default_traits) constant_fields_default) as Hits.
  destruct (the_plots timestamp (length plots) plots (0, default_traits)) as [tr r].
  eapply Forall_impl; [exact (loop_datapoints _ _ _ _ _ _ _ _ _ Hits)|].
  intros dp (row & n & b & c & co & lo & la & Hin & Hest & Hcen & Hlo & Hla & _ & ->).
  by exists timestamp, plots, n, b, c, co, lo, la.
Qed.

(** The loop reaches a plot when the iterations before it return; if the
    plot is estimated and its centroid can be read, its data point is the
    next one handed over. *)
Lemma process_plots_reach timestamp nplots before plotname bounds after st
    ccVal coords lon lat :
  constant_fields st.2 →
  Forall (iteration_returns env host secret_key resource timestamp) before →
  estimate_of env resource bounds = Some ccVal →
  centroid_coordinates env bounds = Ok coords →
  coords !! 0 = Some lon →
  coords !! 1 = Some lat →
  let dp := datapoint_of host resource timestamp lon lat ccVal in
  ∃ rest,
    datapoints (the_plots timestamp nplots (before ++ (plotname, bounds) :: after) st).1 =
      (omap (datapoint_for env host resource timestamp) before ++ dp :: rest)%list ∧
    (create_datapoint_with_dependencies env host secret_key dp = Ok tt →
     Forall (iteration_returns env host secret_key resource timestamp) after →
     rest = omap (datapoint_for env host resource timestamp) after).
Proof.
  intros Hconst Hbefore Hest Hcen Hlon Hlat dp.
  rewrite process_plots_app.
  destruct (proj2 (process_plots_return env host secret_key resource timestamp
                     nplots before st Hconst) Hbefore) as [st1 Hloop].
  pose proof (process_plots_constant_fields env host secret_key resource timestamp
                nplots before st st1 Hconst Hloop) as Hconst1.
  destruct (process_plots_expected env host secret_key resource timestamp
              nplots before st Hconst) as (_ & _ & Hok).
  destruct (Hok st1 Hloop) as (_ & Hdps & _).
  destruct (the_plots timestamp nplots before st) as [tr1 r1]; cbn [fst snd] in *.
  subst r1. rewrite bind_effect_ok. cbn [fst snd process_plots].
  rewrite datapoints_app, Hdps.
  unfold process_plot at 1. cbn [fst snd].
  destruct (try_estimated env resource nplots st1.1 plotname bounds ccVal Hest)
    as (logs & Hlogs & ->).
  destruct (logs_silent logs Hlogs) as (_ & Hd & _).
  destruct (record_plot_cases env host secret_key resource timestamp st1.2
              plotname bounds ccVal Hconst1)
    as [(e & Hraise & _)|(coords' & lon' & lat' & Hcen' & Hlon' & Hlat' & Hrec)].
  { destruct Hraise as [Hr|(coords' & Hr & Hnone & _)]; rewrite Hcen in Hr; [done|].
    injection Hr as <-. rewrite Hlon, Hlat in Hnone. by destruct Hnone. }
  rewrite Hcen in Hcen'. injection Hcen' as <-.
  rewrite Hlon in Hlon'. injection Hlon' as <-.
  rewrite Hlat in Hlat'. injection Hlat' as <-.
  rewrite bind_effect_ok. cbn [fst snd]. rewrite Hrec. fold dp.
  destruct (create_datapoint_with_dependencies env host secret_key dp) as [[]|e].
  - rewrite !bind_effect_ok. cbn [fst snd ret]. rewrite bind_effect_ok. cbn [fst snd].
    rewrite !datapoints_app, Hd.
    exists (datapoints (the_plots timestamp nplots after
                          (S st1.1, updated_traits env timestamp plotname ccVal st1.2)).1).
    split; [reflexivity|].
    intros _ Hafter.
    assert (Hconst2 : constant_fields
              (S st1.1, updated_traits env timestamp plotname ccVal st1.2).2)
      by (by apply constant_fields_updated).
    destruct (proj2 (process_plots_return env host secret_key resource timestamp
                       nplots after _ Hconst2) Hafter) as [st2 Hloop2].
    destruct (process_plots_expected env host secret_key resource timestamp
                nplots after _ Hconst2) as (_ & _ & Hok2).
    by destruct (Hok2 st2 Hloop2) as (_ & -> & _).
  - rewrite bind_effect_raise. cbn [fst snd]. rewrite bind_effect_raise. cbn [fst snd].
    rewrite !datapoints_app, Hd.
    exists []. split; [reflexivity|]. intros [=].
Qed.

(** C8: a plot that the loop reaches (the iterations before it return), that
    is estimated and whose centroid can be read has its data point handed
    to the geostream store, right after the points of the plots before it:
    the coordinates are the centroid [lon, lat] swapped to (lat, lon), start
    and end time both are the acquisition date followed by
    [T12:00:00-07:00], and the value is the estimate.  When the store
    accepts the point and the later iterations return, the points of the
    later plots follow.  No other data point is handed over: every point of
    the run is the swapped, noon-stamped point of an estimated plot of the
    registry. *)
Theorem datapoint_centroid_and_noon ds_name timestamp before plotname bounds after
    ccVal coords lon lat :
  get_info_name env host secret_key (res_parent_id resource) = Ok ds_name →
  PyStr.split " - " ds_name !! 1 = Some timestamp →
  get_site_boundaries env timestamp "Maricopa" =
    Ok (before ++ (plotname, bounds) :: after)%list →
  Forall (iteration_returns env host secret_key resource timestamp) before →
  estimate_of env resource bounds = Some ccVal →
  centroid_coordinates env bounds = Ok coords →
  coords !! 0 = Some lon →
  coords !! 1 = Some lat →
  (∃ dp rest,
     datapoints the_run.1 =
       (omap (datapoint_for env host resource timestamp) before ++ dp :: rest)%list ∧
     dp_latlon dp = (lat, lon) ∧
     dp_start dp = timestamp +:+ "T12:00:00-07:00" ∧
     dp_end dp = timestamp +:+ "T12:00:00-07:00" ∧
     dp_canopy_cover dp = ccVal ∧
     (create_datapoint_with_dependencies env host secret_key dp = Ok tt →
      Forall (iteration_returns env host secret_key resource timestamp) after →
      rest = omap (datapoint_for env host resource timestamp) after)) ∧
  Forall (run_datapoint env host secret_key resource) (datapoints the_run.1).
Proof.
  intros Hinfo Hts Hplots Hbefore Hest Hcen Hlon Hlat.
  split; [|apply dispatched_points_described].
  assert (Henum : enumerated env host secret_key resource timestamp
                    (before ++ (plotname, bounds) :: after)) by (by exists ds_name).
  destruct (run_observed env self host secret_key resource timestamp _ Henum)
    as (_ & -> & _).
  destruct (process_plots_reach timestamp
              (length (before ++ (plotname, bounds) :: after))
              before plotname bounds after (0, default_traits) ccVal coords lon lat
              constant_fields_default Hbefore Hest Hcen Hlon Hlat)
    as (rest & Hdps & Hrest).
  exists (datapoint_of host resource timestamp lon lat ccVal), rest.
  by repeat (split; [done|]).
Qed.

(** C7: in a run that gets past lines 89 and 90, the file is opened once
    and the first text written to it is the header line
    [local_datetime,canopy_cover,access_level,species,site,citation_author,citation_year,citation_title,method],
    which is the comma-join of [fields].  Every later text is the comma-join
    of the values of a plot's trait record (the default record with the
    date, the canopy cover and the name of an estimated plot of the
    registry) under those field names, in that order; these rows are, in
    the order of the registry, the rows of the estimated plots as far as the
    loop gets, and all of them when every iteration returns.  When the
    registry cannot be read the header is the only text. *)
Theorem header_then_trait_rows ds_name timestamp :
  get_info_name env host secret_key (res_parent_id resource) = Ok ds_name →
  PyStr.split " - " ds_name !! 1 = Some timestamp →
  header_line = csv_line fields ∧
  opens the_run.1 = [out_csv_path resource] ∧
  csv_writes the_run.1 = header_line :: data_rows the_run.1 ∧
  match get_site_boundaries env timestamp "Maricopa" with
  | Raise _ => data_rows the_run.1 = []
  | Ok plots =>
      Forall (λ row, ∃ plotname bounds ccVal,
                (plotname, bounds) ∈ plots ∧
                estimated env resource bounds ccVal ∧
                record_row (updated_traits env timestamp plotname ccVal
                              default_traits) = Some row)
             (data_rows the_run.1) ∧
      (∃ rest, omap (record_row_for env resource timestamp) plots =
                 (data_rows the_run.1 ++ rest)%list) ∧
      (Forall (iteration_returns env host secret_key resource timestamp) plots →
       data_rows the_run.1 = omap (record_row_for env resource timestamp) plots)
  end.
Proof.
  intros Hinfo Hts. split; [reflexivity|].
  destruct (get_site_boundaries env timestamp "Maricopa") as [plots|e] eqn:Hplots.
  - assert (Henum : enumerated env host secret_key resource timestamp plots)
      by (by exists ds_name).
    destruct (run_observed env self host secret_key resource timestamp plots Henum)
      as (Hw & _ & Ho & _).
    assert (Hrows : data_rows the_run.1 =
              csv_writes (the_plots timestamp (length plots) plots (0, default_traits)).1)
      by (unfold data_rows; by rewrite Hw).
    split; [done|]. split; [by rewrite Hrows|].
    rewrite omap_record_row_for. split; [|split].
    + rewrite Hrows.
      pose proof (process_plots_iterations env host secret_key resource timestamp
                    (length plots) plots (0, default_traits) constant_fields_default)
        as Hits.
      destruct (the_plots timestamp (length plots) plots (0, default_traits)) as [tr r].
      eapply Forall_impl; [exact (loop_rows _ _ _ _ _ _ _ _ _ Hits)|].
      intros row (n & b & c & Hin & Hest & ->).
      exists n, b, c. by rewrite record_row_updated.
    + rewrite Hrows.
      by destruct (process_plots_expected env host secret_key resource timestamp
                     (length plots) plots (0, default_traits) constant_fields_default)
        as (Hprefix & _).
    + intros Hall. by destruct (returning_run timestamp plots Henum Hall) as (-> & _).
  - unfold data_rows.
    rewrite process_message_eq, Hinfo, Hts. cbn zeta.
    rewrite enumerate_and_loop_eq, Hplots. by repeat split.
Qed.

(** C6: a plot whose clipped array has fewer than three dimensions leaves
    one [log_error] line and the loop state as it was.  It is left out of
    the CSV file and of the geostream store and is counted in
    [plots_skipped], and the other plots fare as if it were not registered:
    the run writes the same rows, hands over the same data points and closes
    the file as the run on the registry without that plot does, and its
    summary is the same with one more skipped plot.  The rows are the rows
    of the other plots that are estimated, in the order of the registry, as
    far as the loop gets; when the iterations of the other plots return,
    every one of them that is estimated has its row and its data point, the
    file is closed, and the summary counts the rows as processed and the
    flat plot among the skipped. *)
Theorem flat_plot_is_skipped_alone ds_name timestamp before plotname bounds after :
  get_info_name env host secret_key (res_parent_id resource) = Ok ds_name →
  PyStr.split " - " ds_name !! 1 = Some timestamp →
  get_site_boundaries env timestamp "Maricopa" =
    Ok (before ++ (plotname, bounds) :: after)%list →
  flat_plot env resource bounds →
  let others := (before ++ after)%list in
  let without :=
    process_message (with_site_boundaries (λ _ _, Ok others) env)
      self host secret_key resource in
  (∀ nplots st, ∃ msg,
     process_plot env host secret_key resource timestamp nplots st (plotname, bounds) =
       ([EvLogError msg], Ok st)) ∧
  (data_rows the_run.1 = data_rows without.1 ∧
   datapoints the_run.1 = datapoints without.1 ∧
   closes the_run.1 = closes without.1 ∧
   summaries the_run.1 = one_more_skipped <$> summaries without.1) ∧
  (∃ rest, omap (row_for env resource timestamp) others =
             (data_rows the_run.1 ++ rest)%list) ∧
  (Forall (iteration_returns env host secret_key resource timestamp) others →
   data_rows the_run.1 = omap (row_for env resource timestamp) others ∧
   datapoints the_run.1 = omap (datapoint_for env host resource timestamp) others ∧
   closes the_run.1 = 1 ∧
   (submit_traits env (out_csv_path resource) (bety_key self) = Ok tt →
    summaries the_run.1 =
      [ {| plots_processed := length (data_rows the_run.1);
           plots_skipped :=
             Z.of_nat (length others) - Z.of_nat (length (data_rows the_run.1)) + 1;
           betydb_link :=
             "https://terraref.ncsa.illinois.edu/bety/api/beta/variables?name=canopy_cover" |} ])).
Proof.
  intros Hinfo Hts Hplots Hflat others without.
  assert (Henum : enumerated env host secret_key resource timestamp
                    (before ++ (plotname, bounds) :: after)%list) by (by exists ds_name).
  assert (Hnone : estimate_of env resource bounds = None)
    by (by apply flat_plot_not_estimated).
  assert (Hrows : omap (row_for env resource timestamp)
                    (before ++ (plotname, bounds) :: after)%list =
                  omap (row_for env resource timestamp) others).
  { unfold others. rewrite !omap_app. f_equal.
    change (omap ?f ((plotname, bounds) :: after))
      with (match f (plotname, bounds) with
            | Some y => y :: omap f after | None => omap f after end).
    unfold row_for at 1. cbn [snd]. by rewrite Hnone. }
  assert (Hdps : omap (datapoint_for env host resource timestamp)
                   (before ++ (plotname, bounds) :: after)%list =
                 omap (datapoint_for env host resource timestamp) others).
  { unfold others. rewrite !omap_app. f_equal.
    change (omap ?f ((plotname, bounds) :: after))
      with (match f (plotname, bounds) with
            | Some y => y :: omap f after | None => omap f after end).
    unfold datapoint_for at 1. cbn [snd]. by rewrite Hnone. }
  split; [|split; [|split]].
  - intros nplots st. by apply process_plot_flat.
  - set (env' := with_site_boundaries (λ _ _, Ok others) env) in *.
    assert (Henum' : enumerated env' host secret_key resource timestamp others)
      by (by exists ds_name).
    destruct (run_observed env self host secret_key resource timestamp _ Henum)
      as (Hw & Hd & _ & Hc & Hm & _).
    destruct (run_observed env' self host secret_key resource timestamp _ Henum')
      as (Hw' & Hd' & _ & Hc' & Hm' & _).
    change (process_plots env') with (process_plots env) in *.
    destruct (process_plots_without_flat env host secret_key resource timestamp
                (length (before ++ (plotname, bounds) :: after)%list) (length others)
                before plotname bounds after (0, default_traits) Hflat) as [Hout Hres].
    unfold data_rows, without.
    rewrite Hw, Hd, Hc, Hm, Hw', Hd', Hc', Hm', Hres. clear Hw Hd Hc Hm Hw' Hd' Hc' Hm'.
    cbn [tail]. fold others in Hout |- *.
    destruct (process_plots env host secret_key resource timestamp _
                (before ++ (plotname, bounds) :: after)%list (0, default_traits)) as [tr r],
      (process_plots env host secret_key resource timestamp _
         others (0, default_traits)) as [tr' r']; cbn [fst snd] in *.
    destruct (observed_outputs tr) as (<- & <- & _), (observed_outputs tr') as (<- & <- & _).
    rewrite Hout. repeat split.
    destruct r' as [st|e]; [|done].
    rewrite !the_report_summaries.
    change (submit_traits env') with (submit_traits env).
    destruct (submit_traits env (out_csv_path resource) (bety_key self)); [|done].
    cbn [fmap list_fmap]. unfold one_more_skipped; cbn.
    do 2 f_equal. unfold others. rewrite !length_app. cbn [length]. lia.
  - rewrite <- Hrows.
    destruct (run_observed env self host secret_key resource timestamp _ Henum)
      as (Hw & _).
    unfold data_rows. rewrite Hw. cbn [tail].
    by destruct (process_plots_expected env host secret_key resource timestamp
                   (length (before ++ (plotname, bounds) :: after)%list)
                   (before ++ (plotname, bounds) :: after)%list (0, default_traits)
                   constant_fields_default) as (Hprefix & _).
  - intros Hall.
    assert (Hall' : Forall (iteration_returns env host secret_key resource timestamp)
                      (before ++ (plotname, bounds) :: after)%list).
    { unfold others in Hall. apply Forall_app in Hall as [Hb Ha].
      apply Forall_app. split; [done|]. constructor; [|done].
      unfold iteration_returns. cbn [fst snd]. rewrite Hnone. by left. }
    destruct (returning_run timestamp _ Henum Hall') as (Hr & Hd & Hc & Hm).
    rewrite <- Hrows, <- Hdps. split; [done|]. split; [done|]. split; [done|].
    intros Hsubmit. rewrite (Hm Hsubmit). do 2 f_equal.
    unfold others. rewrite !length_app. cbn [length]. lia.
Qed.

End Processed.

(** ** What a run writes, hands over and reports *)

Section Outputs.

Context {Float PxArray GeoTrans : Type}.
Variable env : Env Float PxArray GeoTrans.
Variable self : Extractor.
Variables host secret_key : string.
Variable resource : Resource.

Local Abbreviation the_run := (process_message env self host secret_key resource).
Local Abbreviation the_report := (close_and_report env self host secret_key resource).
Local Abbreviation the_plots := (process_plots env host secret_key resource).

(** A run that closed its file reached the registry and its loop
    returned. *)
Lemma loop_returned :
  closes the_run.1 = 1 →
  ∃ timestamp plots st,
    enumerated env host secret_key resource timestamp plots ∧
    (the_plots timestamp (length plots) plots (0, default_traits)).2 = Ok st.
Proof.
  destruct (run_cases env self host secret_key resource)
    as [(e & ->)|[(e & ->)|(timestamp & plots & Henum)]]; [done..|].
  destruct (run_observed env self host secret_key resource timestamp plots Henum)
    as (_ & _ & _ & -> & _).
  destruct (the_plots timestamp (length plots) plots (0, default_traits))
    as [tr [st|e]] eqn:Hloop; cbn [fst snd]; [|done].
  intros _. exists timestamp, plots, st. by rewrite Hloop.
Qed.

(** X1: in a run whose plot loop returns, so that the file is closed, the
    rows below the header are the trait rows of the registered plots that
    are estimated, and the data points are theirs, both in the order of the
    registry.  Whether the submission, the upload or the closing call of
    line 154 raise afterwards does not matter. *)
Theorem completed_run_outputs :
  closes the_run.1 = 1 →
  ∃ timestamp plots,
    enumerated env host secret_key resource timestamp plots ∧
    data_rows the_run.1 = omap (row_for env resource timestamp) plots ∧
    datapoints the_run.1 = omap (datapoint_for env host resource timestamp) plots.
Proof.
  intros Hret. destruct (loop_returned Hret) as (timestamp & plots & st & Henum & Hloop).
  exists timestamp, plots. split; [done|].
  destruct (run_observed env self host secret_key resource timestamp plots Henum)
    as (Hw & Hd & _).
  unfold data_rows. rewrite Hw, Hd. cbn [tail].
  destruct (process_plots_expected env host secret_key resource timestamp
              (length plots) plots (0, default_traits) constant_fields_default)
    as (_ & _ & Hok).
  by destruct (Hok st Hloop) as (-> & -> & _).
Qed.

(** X2: in a run whose plot loop and bulk submission return, the summary
    attached to the dataset counts the rows written: [plots_processed] is
    the number of data rows, which is the number of data points, and
    [plots_skipped] is the number of registered plots less that number,
    which is not negative. *)
Theorem completed_run_summary :
  closes the_run.1 = 1 →
  submit_traits env (out_csv_path resource) (bety_key self) = Ok tt →
  ∃ timestamp plots,
    enumerated env host secret_key resource timestamp plots ∧
    summaries the_run.1 =
      [ {| plots_processed := length (data_rows the_run.1);
           plots_skipped :=
             Z.of_nat (length plots) - Z.of_nat (length (data_rows the_run.1));
           betydb_link :=
             "https://terraref.ncsa.illinois.edu/bety/api/beta/variables?name=canopy_cover" |} ] ∧
    length (datapoints the_run.1) = length (data_rows the_run.1) ∧
    (length (data_rows the_run.1) ≤ length plots)%nat.
Proof.
  intros Hret Hsubmit.
  destruct (loop_returned Hret) as (timestamp & plots & st & Henum & Hloop).
  exists timestamp, plots. split; [done|].
  destruct (run_observed env self host secret_key resource timestamp plots Henum)
    as (Hw & Hd & _ & _ & Hm & _).
  unfold data_rows. rewrite Hw, Hd, Hm, Hloop. cbn [tail].
  destruct (process_plots_expected env host secret_key resource timestamp
              (length plots) plots (0, default_traits) constant_fields_default)
    as (_ & _ & Hok).
  destruct (Hok st Hloop) as (Hrows & _ & Hlen & Hcount).
  rewrite the_report_summaries, Hsubmit. cbn [fst] in Hcount. rewrite Hcount.
  split; [done|]. split; [done|].
  rewrite Hrows. apply omap_length_le.
Qed.

(** X3: whatever way a run that reached the registry ends, the rows below
    the header are a prefix of the rows of a complete run: rows are written
    in the order of the registry, and none is left out before the last one
    written. *)
Theorem written_rows_are_a_prefix timestamp plots :
  enumerated env host secret_key resource timestamp plots →
  ∃ rest,
    omap (row_for env resource timestamp) plots = (data_rows the_run.1 ++ rest)%list.
Proof.
  intros Henum.
  destruct (run_observed env self host secret_key resource timestamp plots Henum)
    as (Hw & _).
  unfold data_rows. rewrite Hw. cbn [tail].
  by destruct (process_plots_expected env host secret_key resource timestamp
                 (length plots) plots (0, default_traits) constant_fields_default)
    as (Hprefix & _).
Qed.


(** X5: every data point of a run carries the variable name
    [Canopy Cover], the source URI of the file and the acquisition date as
    its dataset key. *)
Theorem datapoint_labels :
  Forall (λ dp,
            dp_variable dp = "Canopy Cover" ∧
            dp_source dp = source_uri host resource ∧
            ∃ timestamp plots,
              enumerated env host secret_key resource timestamp plots ∧
              dp_dataset dp = timestamp)
         (datapoints the_run.1).
Proof.
  destruct (run_cases env self host secret_key resource)
    as [(e & ->)|[(e & ->)|(timestamp & plots & Henum)]]; [constructor..|].
  destruct (run_observed env self host secret_key resource timestamp plots Henum)
    as (_ & -> & _).
  pose proof (process_plots_iterations env host secret_key resource timestamp
                (length plots) plots (0, default_traits) constant_fields_default) as Hits.
  destruct (the_plots timestamp (length plots) plots (0, default_traits)) as [tr r].
  eapply Forall_impl; [exact (loop_datapoints _ _ _ _ _ _ _ _ _ Hits)|].
  intros dp (row & n & b & c & co & lo & la & _ & _ & _ & _ & _ & _ & ->).
  split; [done|]. split; [done|]. by exists timestamp, plots.
Qed.

(** X6: when the bulk submission raises after the loop has returned, the
    run ends with that exception and no summary is attached to the dataset;
    the file has been closed. *)
Theorem refused_submission e :
  closes the_run.1 = 1 →
  submit_traits env (out_csv_path resource) (bety_key self) = Raise e →
  the_run.2 = Raise e ∧ summaries the_run.1 = [].
Proof.
  destruct (run_cases env self host secret_key resource)
    as [(e' & ->)|[(e' & ->)|(timestamp & plots & Henum)]]; [done..|].
  destruct (run_observed env self host secret_key resource timestamp plots Henum)
    as (_ & _ & _ & -> & -> & ->).
  destruct (the_plots timestamp (length plots) plots (0, default_traits)) as [tr [st|e']];
    cbn [fst snd]; [|done].
  intros _ Hsubmit. rewrite the_report_summaries, close_and_report_eq. cbn zeta.
  by rewrite Hsubmit.
Qed.

(** X7: a dataset whose name has no [" - "] in it makes the run raise
    [IndexError] on line 90, before the CSV file is opened: the trace holds
    the start of the message and nothing else. *)
Theorem unseparated_dataset_name ds_name :
  get_info_name env host secret_key (res_parent_id resource) = Ok ds_name →
  matches_within " - " (String.length ds_name) ds_name = false →
  the_run = ([EvStart], Raise IndexError).
Proof.
  intros Hinfo Hclean.
  rewrite process_message_eq, Hinfo, (split_no_match _ _ Hclean). reflexivity.
Qed.

(** X8: for a dataset named [sensor - date], with no other [" - "] in it,
    the run is stamped with [date]: every data point has it as dataset key
    and as the day of its start and end time, and every data row starts
    with it. *)
Theorem timestamp_is_second_part sensor date :
  get_info_name env host secret_key (res_parent_id resource) =
    Ok (sensor +:+ " - " +:+ date) →
  matches_within " - " (String.length sensor) (sensor +:+ " - " +:+ date) = false →
  matches_within " - " (String.length date) date = false →
  Forall (λ dp, dp_dataset dp = date ∧
                dp_start dp = date +:+ "T12:00:00-07:00" ∧
                dp_end dp = date +:+ "T12:00:00-07:00")
         (datapoints the_run.1) ∧
  Forall (λ row, ∃ cc site, row = trait_row date cc site) (data_rows the_run.1).
Proof.
  intros Hinfo Hsensor Hdate.
  assert (Hts : PyStr.split " - " (sensor +:+ " - " +:+ date) !! 1 = Some date).
  { rewrite split_first by done. by rewrite (split_no_match _ _ Hdate). }
  unfold data_rows.
  destruct (run_cases env self host secret_key resource)
    as [(e & ->)|[(e & ->)|(timestamp & plots & Henum)]];
    [split; constructor..|].
  assert (timestamp = date) as ->.
  { destruct Henum as (n & Hn & Hts' & _). rewrite Hinfo in Hn. injection Hn as <-.
    rewrite Hts in Hts'. by injection Hts'. }
  destruct (run_observed env self host secret_key resource date plots Henum)
    as (-> & -> & _).
  cbn [tail].
  pose proof (process_plots_iterations env host secret_key resource date
                (length plots) plots (0, default_traits) constant_fields_default) as Hits.
  destruct (the_plots date (length plots) plots (0, default_traits)) as [tr r].
  split.
  - eapply Forall_impl; [exact (loop_datapoints _ _ _ _ _ _ _ _ _ Hits)|].
    by intros dp (row & n & b & c & co & lo & la & _ & _ & _ & _ & _ & _ & ->).
  - eapply Forall_impl; [exact (loop_rows _ _ _ _ _ _ _ _ _ Hits)|].
    intros row (n & b & c & _ & _ & ->). by eauto.
Qed.

(** X9: a file name without [.tif] in it is its own CSV path: line 91
    replaces nothing and line 96 opens the name of the image for writing. *)
Theorem csv_path_is_image_name :
  matches_within ".tif" (String.length (res_name resource)) (res_name resource) = false →
  out_csv_path resource = res_name resource ∧
  (opens the_run.1 = [] ∨ opens the_run.1 = [res_name resource]).
Proof.
  intros Hclean.
  assert (Hpath : out_csv_path resource = res_name resource)
    by (by apply replace_no_match).
  split; [done|]. rewrite <- Hpath.
  destruct (run_cases env self host secret_key resource)
    as [(e & ->)|[(e & ->)|(timestamp & plots & Henum)]].
  - by left.
  - by right.
  - right.
    by destruct (run_observed env self host secret_key resource timestamp plots Henum)
      as (_ & _ & -> & _).
Qed.

(** X10: the source URI of a data point joins the host and [files/<id>]
    with exactly one slash: a host given with a trailing slash and the same
    host without it give the same URI. *)
Theorem source_uri_trailing_slash base :
  PyStr.endswith base "/" = false →
  source_uri (base +:+ "/") resource = source_uri base resource ∧
  source_uri base resource = base +:+ "/files/" +:+ res_id resource.
Proof.
  intros Hbase. unfold source_uri. rewrite Hbase.
  assert (PyStr.endswith (base +:+ "/") "/" = true) as ->
    by (apply endswith_spec; by exists base).
  rewrite append_empty_l, !append_assoc. by split.
Qed.

End Outputs.

(** ** One plot *)

Section OnePlot.

Context {Float PxArray GeoTrans : Type}.
Variable env : Env Float PxArray GeoTrans.
Variables host secret_key : string.
Variable resource : Resource.

(** X11: a plot that is not estimated (the image has no local path, the
    clip raises or is flat, rolling or estimation raises) leaves no row and
    no data point, and the counter and the traits are as before; the only
    exception that can leave the iteration is the one of the handler's own
    logging call. *)
Theorem unestimated_plot_leaves_no_output timestamp nplots st plotname bounds :
  estimate_of env resource bounds = None →
  let m := process_plot env host secret_key resource timestamp nplots st
             (plotname, bounds) in
  csv_writes m.1 = [] ∧ datapoints m.1 = [] ∧
  (m.2 = Ok st ∨
   ∃ e, m.2 = Raise e ∧
        log_error_msg_only env ("error generating cc for " +:+ plotname) = Raise e).
Proof.
  intros Hnone m. subst m. unfold process_plot. cbn [fst snd].
  destruct (try_cases env resource nplots st.1 plotname bounds)
    as [(logs & Hlogs & ->)|[(logs & e & Hlogs & Hlog & ->)|(logs & cc & _ & Hest & _)]].
  - destruct (logs_silent logs Hlogs) as (Hw & Hd & _).
    rewrite bind_effect_ok. cbn [fst snd ret].
    rewrite app_nil_r, Hw, Hd. split; [done|]. split; [done|]. by left.
  - destruct (logs_silent logs Hlogs) as (Hw & Hd & _).
    rewrite bind_effect_raise. cbn [fst snd].
    rewrite Hw, Hd. split; [done|]. split; [done|]. right. by exists e.
  - apply estimate_of_estimated in Hest. congruence.
Qed.

End OnePlot.

(** ** [generate_traits_list] on any dictionary *)

Section TraitsList.

Context {Float : Type}.

Lemma getitems_missing (d : gmap string TraitVal) before key after :
  Forall (λ k, is_Some (d !! k)) before →
  d !! key = None →
  getitems (Float := Float) d (before ++ key :: after) = raise (KeyError key).
Proof.
  intros Hbefore Hkey.
  induction Hbefore as [|k before [v Hv] _ IH]; cbn [app getitems].
  - unfold getitem. by rewrite Hkey.
  - unfold getitem at 1. rewrite Hv, bind_ret_l, IH. reflexivity.
Qed.

Lemma getitems_returns (d : gmap string TraitVal) keys vals :
  getitems (Float := Float) d keys = ret vals ↔
  Forall2 (λ k v, d !! k = Some v) keys vals.
Proof.
  revert vals. induction keys as [|k keys IH]; intros vals; cbn [getitems].
  - split.
    + intros [= <-]. constructor.
    + by inversion 1.
  - unfold getitem at 1. split.
    + destruct (d !! k) as [v|] eqn:Hk; [|done].
      rewrite bind_ret_l.
      destruct (getitems d keys) as [tr [vs|e]] eqn:Hrest; [|done].
      rewrite bind_effect_ok. cbn [fst snd ret].
      intros [= Htr <-]. rewrite app_nil_r in Htr. subst tr.
      constructor; [done|]. by apply IH.
    + inversion 1 as [|? v ? vs Hk Hrest]; subst.
      rewrite Hk, bind_ret_l. apply IH in Hrest. by rewrite Hrest.
Qed.

(** X12: [generate_traits_list] on a dictionary that lacks one of the nine
    keys raises [KeyError] for the first missing key, in the order of the
    header. *)
Theorem generate_traits_list_key_error (traits : gmap string TraitVal)
    before key after :
  trait_list_keys = (before ++ key :: after)%list →
  Forall (λ k, is_Some (traits !! k)) before →
  traits !! key = None →
  generate_traits_list (Float := Float) traits = raise (KeyError key).
Proof.
  intros Hkeys Hbefore Hkey. unfold generate_traits_list. rewrite Hkeys.
  by apply getitems_missing.
Qed.

(** X13: [generate_traits_list] returns, without any effect, exactly when
    the nine keys are present, and then with their values in the order of
    the header. *)
Theorem generate_traits_list_returns (traits : gmap string TraitVal) vals :
  generate_traits_list (Float := Float) traits = ([], Ok vals) ↔
  Forall2 (λ k v, traits !! k = Some v) fields vals.
Proof. apply getitems_returns. Qed.

End TraitsList.

(** ** [check_message] *)

Section CheckMessage.

Context {Md : Type}.
Variable cenv : CheckEnv Md.
Variable checker : Checker.
Variables host secret_key : string.

(** X14: [check_message] answers [download] exactly when the file name holds
    [fullfield] and has the shape of the pattern (a digit before [_rgb_],
    later [thumb], any one character and [tif], with anything after), the
    metadata of the dataset can be fetched, and the dataset either carries
    no metadata of this extractor or [overwrite] is set. *)
Theorem check_message_download_iff resource :
  (check_message cenv checker host secret_key resource).2 = Ok Download ↔
  ((∃ a b, res_name resource = a +:+ "fullfield" +:+ b) ∧
   rgb_thumb_shape (res_name resource)) ∧
  ∃ md processed,
    download_metadata cenv host secret_key (res_parent_id resource) = Ok md ∧
    get_extractor_metadata cenv md (checker_name checker) = Ok processed ∧
    (processed = false ∨ overwrite checker = true).
Proof.
  rewrite <- name_accepted_spec. unfold check_message.
  destruct (name_accepted (res_name resource)).
  - destruct (download_metadata cenv host secret_key (res_parent_id resource))
      as [md|e] eqn:Hmd.
    + destruct (get_extractor_metadata cenv md (checker_name checker))
        as [processed|e] eqn:Hgem.
      * destruct (processed && negb (overwrite checker)) eqn:Hskip; cbn.
        -- split; [done|]. intros (_ & md' & processed' & [= <-] & Hgem' & Hor).
           rewrite Hgem in Hgem'. injection Hgem' as <-.
           apply andb_true_iff in Hskip as [-> Hover].
           apply negb_true_iff in Hover. destruct Hor; congruence.
        -- split; [|done]. intros _. split; [done|]. exists md, processed.
           split; [done|]. split; [done|].
           apply andb_false_iff in Hskip as [->|Hover]; [by left|].
           apply negb_false_iff in Hover. by right.
      * split; [done|]. intros (_ & md' & processed' & [= <-] & Hgem' & _).
        rewrite Hgem in Hgem'. discriminate Hgem'.
    + split; [done|]. by intros (_ & ? & ? & [=] & _).
  - split; [done|]. by intros ([=] & _).
Qed.

(** X15: for a file name that line 74 rejects, [check_message] answers
    [ignore] after logging the name; the metadata of the dataset is not
    fetched. *)
Theorem unmatched_name_is_ignored resource :
  ¬ ((∃ a b, res_name resource = a +:+ "fullfield" +:+ b) ∧
     rgb_thumb_shape (res_name resource)) →
  check_message cenv checker host secret_key resource =
    ([CkStart; CkLogSkip ("regex not matched for " +:+ res_name resource)],
     Ok Ignore).
Proof.
  rewrite <- name_accepted_spec. unfold check_message.
  by destruct (name_accepted (res_name resource)).
Qed.

(** X16: nothing anchors the end of the name: a file whose name extends an
    accepted name, in the same dataset, gets the same answer with the same
    effects. *)
Theorem longer_name_same_answer resource resource' suffix :
  (∃ a b, res_name resource = a +:+ "fullfield" +:+ b) →
  rgb_thumb_shape (res_name resource) →
  res_name resource' = res_name resource +:+ suffix →
  res_parent_id resource' = res_parent_id resource →
  check_message cenv checker host secret_key resource' =
  check_message cenv checker host secret_key resource.
Proof.
  intros Hfull Hshape Hname Hparent.
  assert (Hacc : name_accepted (res_name resource) = true)
    by (by apply name_accepted_spec).
  unfold check_message.
  by rewrite Hname, (name_accepted_app _ suffix Hacc), Hacc, Hparent.
Qed.

End CheckMessage.

(** ** More field jobs, evaluated *)

Section MoreEvaluated.

Import Scenario Jobs.

(** The run on MAC_000 to MAC_003 closes its file, and ends with the
    [TypeError] of line 154. *)
Lemma completed_run_outputs_witness :
  closes (run env_flat).1 = 1 ∧
  (run env_flat).2 = Raise TypeError ∧
  ∃ timestamp plots,
    enumerated env_flat host secret_key resource timestamp plots ∧
    data_rows (run env_flat).1 = omap (row_for env_flat resource timestamp) plots ∧
    datapoints (run env_flat).1 =
      omap (datapoint_for env_flat host resource timestamp) plots.
Proof.
  assert (Hret : closes (run env_flat).1 = 1) by reflexivity.
  split; [exact Hret|]. split; [reflexivity|].
  exact (completed_run_outputs env_flat self host secret_key resource Hret).
Defined.

Lemma completed_run_summary_witness :
  closes (run env_flat).1 = 1 ∧
  submit_traits env_flat (out_csv_path resource) (bety_key self) = Ok tt ∧
  (λ s, (plots_processed s, plots_skipped s)) <$> summaries (run env_flat).1 = [(3, 1%Z)] ∧
  length (datapoints (run env_flat).1) = length (data_rows (run env_flat).1).
Proof.
  assert (Hret : closes (run env_flat).1 = 1) by reflexivity.
  assert (Hsubmit : submit_traits env_flat (out_csv_path resource) (bety_key self) = Ok tt)
    by reflexivity.
  split; [exact Hret|]. split; [exact Hsubmit|].
  destruct (completed_run_summary env_flat self host secret_key resource Hret Hsubmit)
    as (timestamp & plots & _ & _ & Hlen & _).
  split; [reflexivity|exact Hlen].
Defined.

(** The run that stops at the centroid of MAC_002 holds two of the three
    rows. *)
Lemma written_rows_are_a_prefix_witness :
  enumerated env_centroid_raises host secret_key resource "2016-07-01" plots3 ∧
  ∃ rest,
    omap (row_for env_centroid_raises resource "2016-07-01") plots3 =
      (data_rows (run env_centroid_raises).1 ++ rest)%list.
Proof.
  assert (Henum : enumerated env_centroid_raises host secret_key resource
                    "2016-07-01" plots3).
  { exists "stereoTop - 2016-07-01". split; [reflexivity|]. split; reflexivity. }
  split; [exact Henum|].
  exact (written_rows_are_a_prefix env_centroid_raises self host secret_key resource
           "2016-07-01" plots3 Henum).
Defined.

Lemma refused_submission_witness :
  closes (run env_submit_raises).1 = 1 ∧
  submit_traits env_submit_raises (out_csv_path resource) (bety_key self) =
    Raise (LibraryError "betydb: 401") ∧
  (run env_submit_raises).2 = Raise (LibraryError "betydb: 401") ∧
  summaries (run env_submit_raises).1 = [].
Proof.
  assert (Hclosed : closes (run env_submit_raises).1 = 1) by reflexivity.
  assert (Hsubmit : submit_traits env_submit_raises (out_csv_path resource)
                      (bety_key self) = Raise (LibraryError "betydb: 401"))
    by reflexivity.
  split; [exact Hclosed|]. split; [exact Hsubmit|].
  exact (refused_submission env_submit_raises self host secret_key resource _
           Hclosed Hsubmit).
Defined.

Lemma unseparated_dataset_name_witness :
  get_info_name env_unnamed host secret_key (res_parent_id resource) =
    Ok "stereoTop 2016-07-01" ∧
  matches_within " - " (String.length "stereoTop 2016-07-01") "stereoTop 2016-07-01"
    = false ∧
  run env_unnamed = ([EvStart], Raise IndexError).
Proof.
  split; [reflexivity|]. split; [reflexivity|].
  exact (unseparated_dataset_name env_unnamed self host secret_key resource
           "stereoTop 2016-07-01" eq_refl eq_refl).
Defined.

Lemma timestamp_is_second_part_witness :
  get_info_name env_ok host secret_key (res_parent_id resource) =
    Ok ("stereoTop" +:+ " - " +:+ "2016-07-01") ∧
  matches_within " - " (String.length "stereoTop")
    ("stereoTop" +:+ " - " +:+ "2016-07-01") = false ∧
  matches_within " - " (String.length "2016-07-01") "2016-07-01" = false ∧
  Forall (λ dp, dp_dataset dp = "2016-07-01" ∧
                dp_start dp = "2016-07-01" +:+ "T12:00:00-07:00" ∧
                dp_end dp = "2016-07-01" +:+ "T12:00:00-07:00")
         (datapoints (run env_ok).1) ∧
  Forall (λ row, ∃ cc site, row = trait_row "2016-07-01" cc site)
         (data_rows (run env_ok).1).
Proof.
  split; [reflexivity|]. split; [reflexivity|]. split; [reflexivity|].
  exact (timestamp_is_second_part env_ok self host secret_key resource
           "stereoTop" "2016-07-01" eq_refl eq_refl eq_refl).
Defined.

(** A name that passes the gate and has no [.tif]: the CSV file is opened
    under the name of the image. *)
Lemma csv_path_is_image_name_witness :
  name_accepted (res_name resource_no_extension) = true ∧
  matches_within ".tif" (String.length (res_name resource_no_extension))
    (res_name resource_no_extension) = false ∧
  out_csv_path resource_no_extension = res_name resource_no_extension ∧
  opens (process_message env_ok self host secret_key resource_no_extension).1 =
    [res_name resource_no_extension].
Proof.
  split; [reflexivity|]. split; [reflexivity|].
  destruct (csv_path_is_image_name env_ok self host secret_key resource_no_extension
              eq_refl) as [Hpath _].
  split; [exact Hpath|reflexivity].
Defined.

Lemma source_uri_trailing_slash_witness :
  PyStr.endswith "https://terraref.ncsa.illinois.edu/clowder" "/" = false ∧
  source_uri ("https://terraref.ncsa.illinois.edu/clowder" +:+ "/") resource =
    source_uri "https://terraref.ncsa.illinois.edu/clowder" resource ∧
  source_uri "https://terraref.ncsa.illinois.edu/clowder" resource =
    "https://terraref.ncsa.illinois.edu/clowder" +:+ "/files/" +:+ res_id resource.
Proof.
  split; [reflexivity|].
  exact (source_uri_trailing_slash resource
           "https://terraref.ncsa.illinois.edu/clowder" eq_refl).
Defined.

(** Clipping MAC_001 raises: no row, no data point; the exception of the
    handler's logging call leaves the iteration. *)
Lemma unestimated_plot_leaves_no_output_witness :
  estimate_of env_clip_raises resource "poly1" = None ∧
  csv_writes (process_plot env_clip_raises host secret_key resource "2016-07-01" 3
                (0, default_traits) ("MAC_001", "poly1")).1 = [] ∧
  datapoints (process_plot env_clip_raises host secret_key resource "2016-07-01" 3
                (0, default_traits) ("MAC_001", "poly1")).1 = [].
Proof.
  split; [reflexivity|].
  destruct (unestimated_plot_leaves_no_output env_clip_raises host secret_key
              resource "2016-07-01" 3 (0, default_traits) "MAC_001" "poly1" eq_refl)
    as (Hw & Hd & _).
  split; [exact Hw|exact Hd].
Defined.

Lemma generate_traits_list_key_error_witness :
  trait_list_keys =
    (["local_datetime"; "canopy_cover"; "access_level"; "species"] ++
     "site" :: ["citation_author"; "citation_year"; "citation_title"; "method"])%list ∧
  Forall (λ k, is_Some (traits_without_site !! k))
         ["local_datetime"; "canopy_cover"; "access_level"; "species"] ∧
  traits_without_site !! "site" = None ∧
  generate_traits_list (Float := string) traits_without_site = raise (KeyError "site").
Proof.
  assert (Hbefore : Forall (λ k, is_Some (traits_without_site !! k))
                      ["local_datetime"; "canopy_cover"; "access_level"; "species"]).
  { repeat constructor; by eexists. }
  split; [reflexivity|]. split; [exact Hbefore|]. split; [reflexivity|].
  exact (generate_traits_list_key_error traits_without_site
           ["local_datetime"; "canopy_cover"; "access_level"; "species"] "site"
           ["citation_author"; "citation_year"; "citation_title"; "method"]
           eq_refl Hbefore eq_refl).
Defined.

Lemma unmatched_name_is_ignored_witness :
  name_accepted (res_name resource_other) = false ∧
  check_message cenv_processed checker_plain host secret_key resource_other =
    ([CkStart; CkLogSkip "regex not matched for stereoTop_2016-07-01_metadata.json"],
     Ok Ignore).
Proof.
  split; [reflexivity|].
  apply (unmatched_name_is_ignored cenv_processed checker_plain host secret_key
           resource_other).
  intros Hacc. apply name_accepted_spec in Hacc. vm_compute in Hacc. discriminate Hacc.
Defined.

(** The sidecar file of the thumbnail gets the answer of the thumbnail. *)
Lemma longer_name_same_answer_witness :
  name_accepted (res_name resource) = true ∧
  res_name resource_sidecar = res_name resource +:+ ".aux.xml" ∧
  res_parent_id resource_sidecar = res_parent_id resource ∧
  check_message cenv_processed checker_overwriting host secret_key resource_sidecar =
  check_message cenv_processed checker_overwriting host secret_key resource.
Proof.
  assert (Hacc : name_accepted (res_name resource) = true) by reflexivity.
  split; [exact Hacc|]. split; [reflexivity|]. split; [reflexivity|].
  apply name_accepted_spec in Hacc as [Hfull Hshape].
  exact (longer_name_same_answer cenv_processed checker_overwriting host secret_key
           resource resource_sidecar ".aux.xml" Hfull Hshape eq_refl eq_refl).
Defined.

Lemma out_csv_path_extension_witness :
  res_name resource = "fullfield_L1_ua-mac_2016-07-01_rgb_thumb" +:+ ".tif" ∧
  matches_within ".tif" (String.length "fullfield_L1_ua-mac_2016-07-01_rgb_thumb")
    ("fullfield_L1_ua-mac_2016-07-01_rgb_thumb" +:+ ".tif") = false ∧
  out_csv_path resource =
    "fullfield_L1_ua-mac_2016-07-01_rgb_thumb" +:+ "_canopycover.csv".
Proof.
  split; [reflexivity|]. split; [reflexivity|].
  exact (out_csv_path_extension resource "fullfield_L1_ua-mac_2016-07-01_rgb_thumb"
           eq_refl eq_refl).
Defined.

End MoreEvaluated.

(** ** The scenario again: processed and skipped plots *)

Section ProcessedEvaluated.

Import Scenario.

(** In the scenario every plot of [plots3] is estimated, has a centroid of
    two coordinates and has its data point accepted. *)
Lemma plots3_return :
  Forall (iteration_returns env_ok host secret_key resource "2016-07-01") plots3.
Proof. repeat (constructor; [vm_compute; eexists; split; reflexivity|]). constructor. Qed.

(** MAC_000 lies outside the raster: the run is the run on the three other
    plots, whose rows and data points it holds, with one more skipped plot
    in its summary. *)
Lemma flat_plot_is_skipped_alone_witness :
  get_info_name env_flat host secret_key (res_parent_id resource) =
    Ok "stereoTop - 2016-07-01" ∧
  PyStr.split " - " "stereoTop - 2016-07-01" !! 1 = Some "2016-07-01" ∧
  get_site_boundaries env_flat "2016-07-01" "Maricopa" =
    Ok ([] ++ ("MAC_000", "poly0") :: plots3)%list ∧
  flat_plot env_flat resource "poly0" ∧
  Forall (iteration_returns env_flat host secret_key resource "2016-07-01") plots3 ∧
  data_rows (run env_flat).1 = data_rows (run env_ok).1 ∧
  datapoints (run env_flat).1 = datapoints (run env_ok).1 ∧
  data_rows (run env_flat).1 =
    [trait_row "2016-07-01" "0.31" "MAC_001"; trait_row "2016-07-01" "0.42" "MAC_002";
     trait_row "2016-07-01" "0.57" "MAC_003"] ∧
  dp_canopy_cover <$> datapoints (run env_flat).1 = ["0.31"; "0.42"; "0.57"] ∧
  closes (run env_flat).1 = 1 ∧
  (λ s, (plots_processed s, plots_skipped s)) <$> summaries (run env_flat).1 = [(3, 1%Z)].
Proof.
  assert (Hflat : flat_plot env_flat resource "poly0").
  { eexists _, [10; 10], tt. split; [reflexivity|]. split; [reflexivity|].
    vm_compute. lia. }
  assert (Hall : Forall (iteration_returns env_flat host secret_key resource "2016-07-01")
                   plots3) by exact plots3_return.
  split; [reflexivity|]. split; [reflexivity|]. split; [reflexivity|].
  split; [exact Hflat|]. split; [exact Hall|].
  destruct (flat_plot_is_skipped_alone env_flat self host secret_key resource
              "stereoTop - 2016-07-01" "2016-07-01" [] "MAC_000" "poly0" plots3
              eq_refl eq_refl eq_refl Hflat)
    as (_ & (Hrows & Hdps & _) & _ & Habs).
  destruct (Habs Hall) as (Hr & Hd & Hc & Hm).
  unfold run.
  split; [exact Hrows|]. split; [exact Hdps|].
  split; [exact Hr|]. split; [by rewrite Hd|]. split; [exact Hc|].
  rewrite (Hm eq_refl). reflexivity.
Defined.

(** The run on the three plots of the scenario: header, then the three
    trait rows. *)
Lemma header_then_trait_rows_witness :
  get_info_name env_ok host secret_key (res_parent_id resource) =
    Ok "stereoTop - 2016-07-01" ∧
  PyStr.split " - " "stereoTop - 2016-07-01" !! 1 = Some "2016-07-01" ∧
  opens (run env_ok).1 = [out_csv_path resource] ∧
  csv_writes (run env_ok).1 = header_line :: data_rows (run env_ok).1 ∧
  data_rows (run env_ok).1 =
    [trait_row "2016-07-01" "0.31" "MAC_001"; trait_row "2016-07-01" "0.42" "MAC_002";
     trait_row "2016-07-01" "0.57" "MAC_003"].
Proof.
  split; [reflexivity|]. split; [reflexivity|].
  destruct (header_then_trait_rows env_ok self host secret_key resource
              "stereoTop - 2016-07-01" "2016-07-01" eq_refl eq_refl)
    as (_ & Ho & Hw & Hm).
  split; [exact Ho|]. split; [exact Hw|].
  change (get_site_boundaries env_ok "2016-07-01" "Maricopa") with (Ok (A := list (string * string)) plots3) in Hm.
  destruct Hm as (_ & _ & Hfull).
  exact (Hfull plots3_return).
Defined.

(** MAC_002 in the scenario: centroid [-111.9749, 33.0746], handed over as
    (33.0746, -111.9749) right after the point of MAC_001. *)
Lemma datapoint_centroid_and_noon_witness :
  get_info_name env_ok host secret_key (res_parent_id resource) =
    Ok "stereoTop - 2016-07-01" ∧
  PyStr.split " - " "stereoTop - 2016-07-01" !! 1 = Some "2016-07-01" ∧
  get_site_boundaries env_ok "2016-07-01" "Maricopa" =
    Ok ([("MAC_001", "poly1")] ++ ("MAC_002", "poly2") :: [("MAC_003", "poly3")])%list ∧
  Forall (iteration_returns env_ok host secret_key resource "2016-07-01")
    [("MAC_001", "poly1")] ∧
  estimate_of env_ok resource "poly2" = Some "0.42" ∧
  centroid_coordinates env_ok "poly2" = Ok ["-111.9749"; "33.0746"] ∧
  ∃ dp rest,
    datapoints (run env_ok).1 = datapoint_001 :: dp :: rest ∧
    dp_latlon dp = ("33.0746", "-111.9749") ∧
    dp_start dp = "2016-07-01T12:00:00-07:00" ∧
    dp_end dp = "2016-07-01T12:00:00-07:00" ∧
    dp_canopy_cover dp = "0.42".
Proof.
  assert (Hbefore : Forall (iteration_returns env_ok host secret_key resource "2016-07-01")
                      [("MAC_001", "poly1")]).
  { constructor; [|constructor]. vm_compute. eexists. split; reflexivity. }
  split; [reflexivity|]. split; [reflexivity|]. split; [reflexivity|].
  split; [exact Hbefore|]. split; [reflexivity|]. split; [reflexivity|].
  destruct (datapoint_centroid_and_noon env_ok self host secret_key resource
              "stereoTop - 2016-07-01" "2016-07-01"
              [("MAC_001", "poly1")] "MAC_002" "poly2" [("MAC_003", "poly3")]
              "0.42" ["-111.9749"; "33.0746"] "-111.9749" "33.0746"
              eq_refl eq_refl eq_refl Hbefore eq_refl eq_refl eq_refl eq_refl)
    as ((dp & rest & Hd & Hll & Hs & He & Hcc & _) & _).
  exists dp, rest.
  split; [exact Hd|]. split; [exact Hll|]. split; [exact Hs|]. split; [exact He|].
  exact Hcc.
Defined.

End ProcessedEvaluated.
